(** * Acoustic modem core of swl-agent: hop tables, QAM mapping, waveform synthesis

    Shallow embedding of [frequency_hopping.py] (class [FrequencyHopper]) and
    [ultrasonic_compression.py] (class [UltrasonicOFDM]).

    Conventions of the embedding.
    - Python [bytes] are [list byte]; [bytes([i])] is [Byte.of_N], which is
      undefined from 256 on, as the Python constructor is.
    - Python numbers that the code only adds, multiplies, divides, truncates
      and compares are exact rationals ([Q]); the samples of a waveform, which
      go through [math.sin], [math.cos], [math.sqrt], are real numbers ([R]).
      Rounding of binary64 floats is not modelled.
    - A Python exception is a value of [exn]; a method that can raise returns
      [result].  Division and modulo by zero raise, as they do in Python.
    - [hashlib.sha256] is SHA-256 of FIPS 180-4, written out on 32-bit words
      held in [Z], so that hop tables can be computed. *)

From Stdlib Require Import String Ascii.
From Stdlib Require Import Strings.Byte.
From Stdlib Require Import ZArith NArith QArith Qround Reals Qreals Lra Lia List Bool.
From Stdlib Require Import Permutation.
Import ListNotations.

(* ================================================================== *)
(** ** Python values, exceptions and a few builtins *)

Module Py.

(** The exception classes the two modules can raise, and the two classes
    that the specification names ([ConfigError], [NyquistViolation]). *)
Inductive exn : Set :=
| ZeroDivisionError
| ValueError
| IndexError
| KeyError
| ConfigError
| NyquistViolation.

Inductive result (A : Type) : Type :=
| Ok (a : A)
| Raise (e : exn).
Arguments Ok {A} a.
Arguments Raise {A} e.

Definition bind {A B} (m : result A) (k : A -> result B) : result B :=
  match m with
  | Ok a => k a
  | Raise e => Raise e
  end.

Definition fmap {A B} (f : A -> B) (m : result A) : result B :=
  match m with Ok a => Ok (f a) | Raise e => Raise e end.

Definition bytes := list byte.

(** [bytes([i])]: one byte, [ValueError] outside [range(256)]. *)
Definition bytes_of_int (i : N) : result bytes :=
  match Byte.of_N i with
  | Some b => Ok [b]
  | None => Raise ValueError
  end.

(** [int.from_bytes(bs, 'big')]. *)
Definition int_from_bytes_big (bs : bytes) : N :=
  fold_left (fun acc b => (acc * 256 + Byte.to_N b)%N) bs 0%N.

(** [int(x)] on a number: truncation towards zero. *)
Definition int_of (x : Q) : Z := Z.quot (Qnum x) (Zpos (Qden x)).

Definition is_zero (x : Q) : bool := (Qnum x =? 0)%Z.

(** [x / y] on numbers. *)
Definition div (x y : Q) : result Q :=
  if is_zero y then Raise ZeroDivisionError else Ok (x / y)%Q.

(** [a % b] on integers: the result has the sign of [b], as [Z.modulo]. *)
Definition mod_ (a b : Z) : result Z :=
  if (b =? 0)%Z then Raise ZeroDivisionError else Ok (a mod b)%Z.

(** [l[i]] with an integer index: negative indices count from the end. *)
Definition getitem {A} (l : list A) (i : Z) : result A :=
  let n := Z.of_nat (length l) in
  let j := if (i <? 0)%Z then (i + n)%Z else i in
  if ((j <? 0) || (n <=? j))%Z then Raise IndexError
  else match nth_error l (Z.to_nat j) with
       | Some a => Ok a
       | None => Raise IndexError
       end.

(** The list [l] with position [k] replaced by [v]. *)
Fixpoint update {A} (l : list A) (k : nat) (v : A) : list A :=
  match l, k with
  | [], _ => []
  | _ :: t, O => v :: t
  | x :: t, S k' => x :: update t k' v
  end.

(** [l[i] = v]. *)
Definition setitem {A} (l : list A) (i : Z) (v : A) : result (list A) :=
  let n := Z.of_nat (length l) in
  let j := if (i <? 0)%Z then (i + n)%Z else i in
  if ((j <? 0) || (n <=? j))%Z then Raise IndexError
  else Ok (update l (Z.to_nat j) v).

(** [l.pop(idx)] for [0 <= idx]: the element and the list without it. *)
Fixpoint pop {A} (l : list A) (idx : nat) : result (A * list A) :=
  match l, idx with
  | [], _ => Raise IndexError
  | x :: t, O => Ok (x, t)
  | x :: t, S k =>
      match pop t k with
      | Ok (y, t') => Ok (y, x :: t')
      | Raise e => Raise e
      end
  end.

(** [range(n)] for an integer [n]: empty when [n <= 0]. *)
Definition range (n : Z) : list Z := map Z.of_nat (seq 0 (Z.to_nat n)).

(** [[v] * n]. *)
Definition replicate {A} (v : A) (n : Z) : list A := repeat v (Z.to_nat n).

(** [range(0, stop, step)]; a zero step is a [ValueError]. *)
Definition range_step (stop step : Z) : result (list Z) :=
  if (step =? 0)%Z then Raise ValueError
  else if (step <? 0)%Z then Ok []
  else Ok (map (fun k => (k * step)%Z) (range ((stop + step - 1) / step)%Z)).

(** [l[a:b]]: indices are taken from the end when negative and clipped to
    the list. *)
Definition clip_index (n i : Z) : Z :=
  Z.max 0 (Z.min n (if (i <? 0)%Z then (i + n)%Z else i)).

Definition slice {A} (l : list A) (a b : Z) : list A :=
  let n := Z.of_nat (length l) in
  let lo := clip_index n a in
  let hi := clip_index n b in
  firstn (Z.to_nat (hi - lo)) (skipn (Z.to_nat lo) l).

Local Open Scope R_scope.

(** [x / n] for a float [x] and an integer [n]. *)
Definition rdiv_int (x : R) (n : Z) : result R :=
  if (n =? 0)%Z then Raise ZeroDivisionError else Ok (x / IZR n)%R.

(** [enumerate(l)]. *)
Definition enumerate {A} (l : list A) : list (Z * A) :=
  combine (range (Z.of_nat (length l))) l.

(** [for x in items: body], threading the variables the body assigns;
    an exception in the body leaves the loop. *)
Fixpoint for_each {S I} (body : S -> I -> result S) (items : list I) (s : S)
  : result S :=
  match items with
  | [] => Ok s
  | x :: rest =>
      match body s x with
      | Ok s' => for_each body rest s'
      | Raise e => Raise e
      end
  end.

(** [x / y] on floats that reach the trigonometric functions. *)
Definition rdiv (x y : R) : result R :=
  if Req_dec_T y 0 then Raise ZeroDivisionError else Ok (x / y)%R.

(** [math.atan2(y, x)]. *)
Definition atan2 (y x : R) : R :=
  if Rlt_dec 0 x then atan (y / x)
  else if Rlt_dec x 0 then
         (if Rle_dec 0 y then atan (y / x) + PI else atan (y / x) - PI)
  else if Rlt_dec 0 y then PI / 2
  else if Rlt_dec y 0 then - (PI / 2)
  else 0.

End Py.

Import Py.

Declare Scope py_scope.
Delimit Scope py_scope with py.
Notation "x <- m ;; k" := (Py.bind m (fun x => k))
  (at level 61, m at next level, right associativity) : py_scope.
Notation "' pat <- m ;; k" := (Py.bind m (fun x => match x with pat => k end))
  (at level 61, pat pattern, m at next level, right associativity) : py_scope.
Open Scope py_scope.

(* ================================================================== *)
(** ** hashlib.sha256 *)

Module Hashlib.
Local Open Scope Z_scope.

Definition mask32 : Z := 0xffffffff.
Definition wrap (x : Z) : Z := Z.land x mask32.
Definition add32 (x y : Z) : Z := wrap (x + y).
Definition rotr (x n : Z) : Z :=
  Z.lor (Z.shiftr x n) (wrap (Z.shiftl x (32 - n))).
Definition not32 (x : Z) : Z := Z.lxor x mask32.

Definition choose (e f g : Z) : Z :=
  Z.lxor (Z.land e f) (Z.land (not32 e) g).
Definition majority (a b c : Z) : Z :=
  Z.lxor (Z.lxor (Z.land a b) (Z.land a c)) (Z.land b c).
Definition big_sigma0 (a : Z) : Z :=
  Z.lxor (Z.lxor (rotr a 2) (rotr a 13)) (rotr a 22).
Definition big_sigma1 (e : Z) : Z :=
  Z.lxor (Z.lxor (rotr e 6) (rotr e 11)) (rotr e 25).
Definition small_sigma0 (x : Z) : Z :=
  Z.lxor (Z.lxor (rotr x 7) (rotr x 18)) (Z.shiftr x 3).
Definition small_sigma1 (x : Z) : Z :=
  Z.lxor (Z.lxor (rotr x 17) (rotr x 19)) (Z.shiftr x 10).

(** The constants of FIPS 180-4 are the first 32 bits of the fractional
    parts of the square roots (initial hash) and cube roots (round
    constants) of the first primes: [floor (root k (p * 2 ^ (32 k)))]
    modulo [2 ^ 32]. *)
Fixpoint root_search (k : Z) (bits : nat) (n r : Z) : Z :=
  match bits with
  | O => r
  | S b =>
      let c := r + 2 ^ Z.of_nat b in
      if c ^ k <=? n then root_search k b n c else root_search k b n r
  end.

Definition root_fraction_word (k p : Z) : Z :=
  wrap (root_search k 40 (p * 2 ^ (32 * k)) 0).

Definition first_primes : list Z :=
  [ 2; 3; 5; 7; 11; 13; 17; 19; 23; 29; 31; 37; 41; 43; 47; 53;
    59; 61; 67; 71; 73; 79; 83; 89; 97; 101; 103; 107; 109; 113; 127; 131;
    137; 139; 149; 151; 157; 163; 167; 173; 179; 181; 191; 193; 197; 199;
    211; 223; 227; 229; 233; 239; 241; 251; 257; 263; 269; 271; 277; 281;
    283; 293; 307; 311 ].

Definition round_constants : list Z :=
  Eval vm_compute in map (root_fraction_word 3) first_primes.

Definition initial_hash : list Z :=
  Eval vm_compute in map (root_fraction_word 2) (firstn 8 first_primes).

Definition byte_val (b : byte) : Z := Z.of_N (Byte.to_N b).

Definition byte_of_val (z : Z) : byte :=
  match Byte.of_N (Z.to_N (Z.land z 0xff)) with
  | Some b => b
  | None => x00
  end.

(** Big-endian bytes of the low [8 * n] bits of [z]. *)
Fixpoint be_bytes (n : nat) (z : Z) : Py.bytes :=
  match n with
  | O => []
  | S k => byte_of_val (Z.shiftr z (8 * Z.of_nat k)) :: be_bytes k z
  end.

(** Message padding: one bit, zeros up to 56 modulo 64, the bit length. *)
Definition pad (msg : Py.bytes) : Py.bytes :=
  let len := Z.of_nat (length msg) in
  let zeros := Z.to_nat ((55 - len) mod 64) in
  msg ++ x80 :: repeat x00 zeros ++ be_bytes 8 (8 * len).

(** The 32-bit big-endian words of a byte string (a trailing partial word
    is dropped; padded messages have none). *)
Fixpoint words_of (fuel : nat) (bs : Py.bytes) : list Z :=
  match fuel, bs with
  | S k, b0 :: b1 :: b2 :: b3 :: rest =>
      (Z.shiftl (byte_val b0) 24 + Z.shiftl (byte_val b1) 16
       + Z.shiftl (byte_val b2) 8 + byte_val b3) :: words_of k rest
  | _, _ => []
  end.

(** Message schedule, newest word first: extends the 16 words of a block
    by [n] more. *)
Fixpoint extend_schedule (n : nat) (rev_w : list Z) : list Z :=
  match n with
  | O => rev_w
  | S k =>
      let w2 := nth 1 rev_w 0 in
      let w7 := nth 6 rev_w 0 in
      let w15 := nth 14 rev_w 0 in
      let w16 := nth 15 rev_w 0 in
      let w := add32 (add32 (small_sigma1 w2) w7)
                     (add32 (small_sigma0 w15) w16) in
      extend_schedule k (w :: rev_w)
  end.

Definition schedule (block : list Z) : list Z :=
  rev (extend_schedule 48 (rev block)).

Record regs := Regs { ra : Z; rb : Z; rc : Z; rd : Z;
                      re : Z; rf : Z; rg : Z; rh : Z }.

Definition round (s : regs) (kw : Z * Z) : regs :=
  let t1 := add32 (add32 (add32 (rh s) (big_sigma1 (re s)))
                         (add32 (choose (re s) (rf s) (rg s)) (fst kw)))
                  (snd kw) in
  let t2 := add32 (big_sigma0 (ra s)) (majority (ra s) (rb s) (rc s)) in
  Regs (add32 t1 t2) (ra s) (rb s) (rc s) (add32 (rd s) t1) (re s) (rf s) (rg s).

Definition regs_of (h : list Z) : regs :=
  Regs (nth 0 h 0) (nth 1 h 0) (nth 2 h 0) (nth 3 h 0)
       (nth 4 h 0) (nth 5 h 0) (nth 6 h 0) (nth 7 h 0).

Definition list_of (s : regs) : list Z :=
  [ra s; rb s; rc s; rd s; re s; rf s; rg s; rh s].

Definition compress (h : list Z) (block : list Z) : list Z :=
  let s := fold_left round (combine round_constants (schedule block)) (regs_of h) in
  map (fun p => add32 (fst p) (snd p)) (combine h (list_of s)).

Fixpoint blocks (fuel : nat) (ws : list Z) : list (list Z) :=
  match fuel, ws with
  | S k, _ :: _ => firstn 16 ws :: blocks k (skipn 16 ws)
  | _, _ => []
  end.

(** [hashlib.sha256(msg).digest()] *)
Definition sha256 (msg : Py.bytes) : Py.bytes :=
  let padded := pad msg in
  let ws := words_of (length padded) padded in
  let h := fold_left compress (blocks (length ws) ws) initial_hash in
  flat_map (be_bytes 4) h.

End Hashlib.

Definition bytes_of_string (s : string) : Py.bytes := list_byte_of_string s.


(* ================================================================== *)
(** ** frequency_hopping.py *)

Module FrequencyHopping.

Record FrequencyHopper := {
  secret_key : Py.bytes;
  hop_range : Q * Q;
  dwell_time_sec : Q;
  hop_spacing : Q;
  sample_rate : Z;
  hop_frequencies : list Q;
  hop_count : Z
}.

(** [secret_key or secrets.token_bytes(32)]: [None] and the empty byte
    string are both false in Python, so either makes the constructor draw
    the key from the operating system; [os_random] is what
    [secrets.token_bytes(32)] returns when it is called. *)
Definition key_or_random (secret_key : option Py.bytes) (os_random : Py.bytes)
  : Py.bytes :=
  match secret_key with
  | Some (b :: k) => b :: k
  | Some [] => os_random
  | None => os_random
  end.

(** The frequency grid of [_generate_hop_table]. *)
Definition frequency_grid (hop_range : Q * Q) (hop_spacing : Q)
  : result (list Q) :=
  let '(min_freq, max_freq) := hop_range in
  q <- Py.div (max_freq - min_freq) hop_spacing ;;
  let num_channels := Py.int_of q in
  Ok (map (fun i => min_freq + inject_Z i * hop_spacing)%Q
          (Py.range num_channels)).

(** One turn of the shuffle loop; the state is
    [(rng_state, shuffled, remaining)]. *)
Definition shuffle_step {A} (st : Py.bytes * list A * list A) (i : Z)
  : result (Py.bytes * list A * list A) :=
  let '(rng_state, shuffled, remaining) := st in
  bi <- Py.bytes_of_int (Z.to_N i) ;;
  let rng_state := Hashlib.sha256 (rng_state ++ bi) in
  idx <- Py.mod_ (Z.of_N (Py.int_from_bytes_big (firstn 4 rng_state)))
                 (Z.of_nat (length remaining)) ;;
  '(x, remaining) <- Py.pop remaining (Z.to_nat idx) ;;
  Ok (rng_state, shuffled ++ [x], remaining).

Definition shuffle {A} (key : Py.bytes) (frequencies : list A)
  : result (list A) :=
  let rng_state := Hashlib.sha256 key in
  '(_, shuffled, _) <-
    Py.for_each shuffle_step (Py.range (Z.of_nat (length frequencies)))
                (rng_state, [], frequencies) ;;
  Ok shuffled.

Definition _generate_hop_table (secret_key : Py.bytes) (hop_range : Q * Q)
           (hop_spacing : Q) : result (list Q) :=
  frequencies <- frequency_grid hop_range hop_spacing ;;
  shuffle secret_key frequencies.

Definition __init__ (os_random : Py.bytes) (secret_key : option Py.bytes)
           (hop_range : Q * Q) (dwell_time_ms : Q) (hop_spacing_hz : Q)
           (sample_rate : Z) : result FrequencyHopper :=
  let key := key_or_random secret_key os_random in
  table <- _generate_hop_table key hop_range hop_spacing_hz ;;
  Ok {| secret_key := key;
        hop_range := hop_range;
        dwell_time_sec := dwell_time_ms / 1000;
        hop_spacing := hop_spacing_hz;
        sample_rate := sample_rate;
        hop_frequencies := table;
        hop_count := Z.of_nat (length table) |}.

(** The defaults of the constructor's keyword arguments. *)
Definition default_hop_range : Q * Q := (20000, 40000)%Q.
Definition default_dwell_time_ms : Q := 10.
Definition default_hop_spacing_hz : Q := 100.
Definition default_sample_rate : Z := 192000.

Definition _get_hop_freq (self : FrequencyHopper) (hop_index : Z) : result Q :=
  k <- Py.mod_ hop_index (hop_count self) ;;
  Py.getitem (hop_frequencies self) k.

Local Open Scope R_scope.

Definition encode_symbol (self : FrequencyHopper)
           (symbol_freq amplitude phase : R) (hop_index : Z)
  : result (list R) :=
  carrier_freq <- _get_hop_freq self hop_index ;;
  let max_deviation := (carrier_freq * (1 # 10))%Q in
  let num_samples :=
    Py.int_of (inject_Z (sample_rate self) * dwell_time_sec self)%Q in
  let samples := Py.replicate 0 num_samples in
  Py.for_each
    (fun samples i =>
       t <- Py.div (inject_Z i) (inject_Z (sample_rate self)) ;;
       let modulation := sin (2 * PI * symbol_freq * Q2R t) in
       let inst_freq := Q2R carrier_freq + Q2R max_deviation * modulation in
       let carrier_phase := 2 * PI * Q2R carrier_freq * Q2R t in
       r <- Py.rdiv (Q2R max_deviation) symbol_freq ;;
       let mod_phase := r * sin (2 * PI * symbol_freq * Q2R t) in
       Py.setitem samples i
                  (amplitude * sin (carrier_phase + mod_phase + phase)))
    (Py.range num_samples) samples.

Record Metadata := {
  num_symbols : Z;
  start_hop : Z;
  end_hop : Z;
  duration_sec : Q;
  hops_used : Z
}.

Definition encode_message (self : FrequencyHopper)
           (symbols : list (R * R * R)) (start_hop_index : Z)
  : result (list R * Metadata) :=
  '(all_samples, hop_idx) <-
    Py.for_each
      (fun '(all_samples, hop_idx) '(symbol_freq, amplitude, phase) =>
         symbol_samples <-
           encode_symbol self symbol_freq amplitude phase hop_idx ;;
         Ok (all_samples ++ symbol_samples, (hop_idx + 1)%Z))
      symbols ([], start_hop_index) ;;
  duration <- Py.div (inject_Z (Z.of_nat (length all_samples)))
                     (inject_Z (sample_rate self)) ;;
  Ok (all_samples,
      {| num_symbols := Z.of_nat (length symbols);
         start_hop := start_hop_index;
         end_hop := hop_idx;
         duration_sec := duration;
         hops_used := (hop_idx - start_hop_index)%Z |}).

Fixpoint sum (l : list R) : R :=
  match l with
  | [] => 0
  | x :: t => x + sum t
  end.

Definition decode_symbol (self : FrequencyHopper) (samples : list R)
           (hop_index : Z) : result (R * R * R) :=
  carrier_freq <- _get_hop_freq self hop_index ;;
  '(i_samples, q_samples) <-
    Py.for_each
      (fun '(i_samples, q_samples) '(i, sample) =>
         t <- Py.div (inject_Z i) (inject_Z (sample_rate self)) ;;
         Ok (i_samples ++ [sample * cos (2 * PI * Q2R carrier_freq * Q2R t)],
             q_samples ++ [sample * sin (2 * PI * Q2R carrier_freq * Q2R t)]))
      (Py.enumerate samples) ([], []) ;;
  let window := 50%nat in
  let i_filtered :=
    if (window <=? length i_samples)%nat
    then sum (firstn window i_samples) / INR window else 0 in
  let q_filtered :=
    if (window <=? length q_samples)%nat
    then sum (firstn window q_samples) / INR window else 0 in
  let amplitude := sqrt (i_filtered ^ 2 + q_filtered ^ 2) in
  let phase := Py.atan2 q_filtered i_filtered in
  let recovered_freq := Q2R carrier_freq in
  Ok (recovered_freq, amplitude, phase).

End FrequencyHopping.

(* ================================================================== *)
(** ** ultrasonic_compression.py *)

Module UltrasonicCompression.

Definition SAMPLE_RATE : Z := 192000.

Definition OFDM_MIN_FREQ : Q := 25000.
Definition OFDM_MAX_FREQ : Q := 45000.
Definition OFDM_BANDWIDTH : Q := OFDM_MAX_FREQ - OFDM_MIN_FREQ.
Definition OFDM_NUM_CARRIERS : Z := 64.
Definition OFDM_CARRIER_SPACING : Q :=
  OFDM_BANDWIDTH / inject_Z OFDM_NUM_CARRIERS.

Definition QAM_LEVELS : list (string * Z) :=
  [ ("BPSK", 2); ("QPSK", 4); ("16QAM", 16); ("64QAM", 64) ]%string%Z.

Definition SYMBOL_DURATION : Q := 1 # 1000.
Definition GUARD_INTERVAL : Q := 2 # 10000.

Record CompressionStats := {
  raw_bytes : Z;
  compressed_bytes : Z;
  compression_ratio : Q;
  transmission_time : Q;
  bitrate_bps : Z;
  efficiency : Q
}.

Record UltrasonicOFDM := {
  sample_rate : Z;
  num_carriers : Z;
  modulation : string;
  bits_per_symbol : Z;
  carrier_freqs : list Q
}.

(** [QAM_LEVELS[modulation]]. *)
Fixpoint lookup (d : list (string * Z)) (k : string) : result Z :=
  match d with
  | [] => Raise KeyError
  | (k', v) :: rest => if String.eqb k k' then Ok v else lookup rest k
  end.

(** The constructor; [int(math.log2(n))] is [Z.log2 n], exact on the
    powers of two of the table. *)
Definition __init__ (sample_rate num_carriers : Z) (modulation : string)
  : result UltrasonicOFDM :=
  levels <- lookup QAM_LEVELS modulation ;;
  Ok {| sample_rate := sample_rate;
        num_carriers := num_carriers;
        modulation := modulation;
        bits_per_symbol := Z.log2 levels;
        carrier_freqs :=
          map (fun i => OFDM_MIN_FREQ + inject_Z i * OFDM_CARRIER_SPACING)%Q
              (Py.range num_carriers) |}.

Definition _calculate_bitrate (self : UltrasonicOFDM) : Z :=
  let symbols_per_sec := (1 / (SYMBOL_DURATION + GUARD_INTERVAL))%Q in
  let bits_per_ofdm_symbol := (num_carriers self * bits_per_symbol self)%Z in
  Py.int_of (symbols_per_sec * inject_Z bits_per_ofdm_symbol)%Q.

Local Open Scope Z_scope.

(** [while len(bits) % m != 0: bits.append(0)].  The loop appends fewer
    than [|m|] zeros, so [fuel = |m|] turns are enough. *)
Fixpoint pad_bits (fuel : nat) (bits : list Z) (m : Z) : result (list Z) :=
  r <- Py.mod_ (Z.of_nat (length bits)) m ;;
  if r =? 0 then Ok bits
  else match fuel with
       | O => Ok bits
       | S k => pad_bits k (bits ++ [0]) m
       end.

Definition byte_bits (b : byte) : list Z :=
  map (fun i => Z.land (Z.shiftr (Hashlib.byte_val b) i) 1) (Py.range 8).

(** [sum(b << i for i, b in enumerate(symbol_bits))]. *)
Definition symbol_of_bits (symbol_bits : list Z) : Z :=
  fold_left (fun acc '(i, b) => acc + Z.shiftl b i)
            (Py.enumerate symbol_bits) 0.

Definition _bytes_to_symbols (self : UltrasonicOFDM) (data : Py.bytes)
  : result (list (list Z)) :=
  let bits := flat_map byte_bits data in
  let bits_per_ofdm_symbol := bits_per_symbol self * num_carriers self in
  bits <- pad_bits (Z.abs_nat bits_per_ofdm_symbol) bits bits_per_ofdm_symbol ;;
  starts <- Py.range_step (Z.of_nat (length bits)) bits_per_ofdm_symbol ;;
  Ok (map (fun ofdm_idx =>
             map (fun carrier_idx =>
                    let bit_start := ofdm_idx + carrier_idx * bits_per_symbol self in
                    let bit_end := bit_start + bits_per_symbol self in
                    symbol_of_bits (Py.slice bits bit_start bit_end))
                 (Py.range (num_carriers self)))
          starts).

Local Open Scope R_scope.

Definition _qam_constellation (self : UltrasonicOFDM) (symbol : Z)
  : result (R * R) :=
  if String.eqb (modulation self) "BPSK" then
    Ok (if (symbol =? 1)%Z then 1 else -1, 0)
  else if String.eqb (modulation self) "QPSK" then
    a <- Py.getitem [45; 135; 225; 315]%Z symbol ;;
    let angle := IZR a * (PI / 180) in
    Ok (cos angle, sin angle)
  else if String.eqb (modulation self) "16QAM" then
    let levels := [-3; -1; 1; 3]%Z in
    let i_idx := Z.land symbol 3 in
    let q_idx := Z.land (Z.shiftr symbol 2) 3 in
    li <- Py.getitem levels i_idx ;;
    lq <- Py.getitem levels q_idx ;;
    Ok (IZR li / 3, IZR lq / 3)
  else if String.eqb (modulation self) "64QAM" then
    let levels := [-7; -5; -3; -1; 1; 3; 5; 7]%Z in
    let i_idx := Z.land symbol 7 in
    let q_idx := Z.land (Z.shiftr symbol 3) 7 in
    li <- Py.getitem levels i_idx ;;
    lq <- Py.getitem levels q_idx ;;
    Ok (IZR li / 7, IZR lq / 7)
  else Ok (0, 0).

(** The body of [for carrier_idx, symbol_value in enumerate(ofdm_symbol)]:
    one carrier added to the running [sample] at time [t]. *)
Definition add_carrier (self : UltrasonicOFDM) (t : Q) (sample : R)
           (c : Z * Z) : result R :=
  let '(carrier_idx, symbol_value) := c in
  freq <- Py.getitem (carrier_freqs self) carrier_idx ;;
  '(i_val, q_val) <- _qam_constellation self symbol_value ;;
  term <- Py.rdiv_int (i_val * cos (2 * PI * Q2R freq * Q2R t)
                       + q_val * sin (2 * PI * Q2R freq * Q2R t))
                      (num_carriers self) ;;
  Ok (sample + term).

(** The body of [for t_idx in range(symbol_samples)]; the state is
    [(samples, sample_idx)]. *)
Definition write_sample (self : UltrasonicOFDM) (num_samples : Z)
           (ofdm_symbol : list Z) (st : list R * Z) (t_idx : Z)
  : result (list R * Z) :=
  let '(samples, sample_idx) := st in
  t <- Py.div (inject_Z t_idx) (inject_Z (sample_rate self)) ;;
  sample <- Py.for_each (add_carrier self t) (Py.enumerate ofdm_symbol) 0 ;;
  if (sample_idx <? num_samples)%Z then
    samples <- Py.setitem samples sample_idx sample ;;
    Ok (samples, (sample_idx + 1)%Z)
  else Ok (samples, sample_idx).

(** The body of [for ofdm_symbol in ofdm_symbols]. *)
Definition write_symbol (self : UltrasonicOFDM) (num_samples : Z)
           (st : list R * Z) (ofdm_symbol : list Z) : result (list R * Z) :=
  let symbol_samples :=
    Py.int_of (inject_Z (sample_rate self) * SYMBOL_DURATION)%Q in
  let guard_samples :=
    Py.int_of (inject_Z (sample_rate self) * GUARD_INTERVAL)%Q in
  '(samples, sample_idx) <-
    Py.for_each (write_sample self num_samples ofdm_symbol)
                (Py.range symbol_samples) st ;;
  Ok (samples, (sample_idx + guard_samples)%Z).

Definition encode (self : UltrasonicOFDM) (data : Py.bytes)
  : result (list R) :=
  ofdm_symbols <- _bytes_to_symbols self data ;;
  let total_duration :=
    (inject_Z (Z.of_nat (length ofdm_symbols))
     * (SYMBOL_DURATION + GUARD_INTERVAL))%Q in
  let num_samples :=
    Py.int_of (inject_Z (sample_rate self) * total_duration)%Q in
  let samples := Py.replicate 0 num_samples in
  '(samples, _) <-
    Py.for_each (write_symbol self num_samples) ofdm_symbols (samples, 0%Z) ;;
  Ok samples.

Definition calculate_stats (self : UltrasonicOFDM) (data : Py.bytes)
           (samples : list R) : result CompressionStats :=
  transmission_time <- Py.div (inject_Z (Z.of_nat (length samples)))
                              (inject_Z (sample_rate self)) ;;
  bitrate <- Py.div (inject_Z (Z.of_nat (length data) * 8)) transmission_time ;;
  efficiency <- Py.div bitrate OFDM_BANDWIDTH ;;
  Ok {| raw_bytes := Z.of_nat (length data);
        compressed_bytes := Z.of_nat (length data);
        compression_ratio := 1;
        transmission_time := transmission_time;
        bitrate_bps := Py.int_of bitrate;
        efficiency := efficiency |}.

End UltrasonicCompression.

(* ================================================================== *)
(** ** Notions used in the statements *)

Module HopGrid.
Import FrequencyHopping.

(** The ordered grid [min_freq + i * spacing], [0 <= i < count]. *)
Definition grid_of (min_freq : Q) (spacing : Q) (count : Z) : list Q :=
  map (fun i => min_freq + inject_Z i * spacing)%Q (Py.range count).

(** The channel count of [_generate_hop_table]. *)
Definition num_channels (hop_range : Q * Q) (spacing : Q) : Z :=
  Py.int_of ((snd hop_range - fst hop_range) / spacing)%Q.

End HopGrid.

Module Hopper.
Import FrequencyHopping.
Local Open Scope R_scope.

(** What the constructor establishes about the channel count. *)
Definition well_formed (self : FrequencyHopper) : Prop :=
  hop_count self = Z.of_nat (length (hop_frequencies self)).

Definition in_unit_range (x : R) : Prop := -1 <= x <= 1.

(** [num_samples] of [encode_symbol]. *)
Definition dwell_samples (self : FrequencyHopper) : Z :=
  Py.int_of (inject_Z (sample_rate self) * dwell_time_sec self)%Q.

Definition modulating_freq (symbol : R * R * R) : R := fst (fst symbol).
Definition amplitude_of (symbol : R * R * R) : R := snd (fst symbol).

(** The loop of [encode_message], as [encode_message] runs it. *)
Definition message_loop (self : FrequencyHopper)
           (symbols : list (R * R * R)) (st : list R * Z)
  : result (list R * Z) :=
  Py.for_each
    (fun '(all_samples, hop_idx) '(symbol_freq, amplitude, phase) =>
       symbol_samples <-
         encode_symbol self symbol_freq amplitude phase hop_idx ;;
       Ok (all_samples ++ symbol_samples, (hop_idx + 1)%Z))
    symbols st.

(** The loop of [decode_symbol], as [decode_symbol] runs it. *)
Definition demodulate (self : FrequencyHopper) (carrier_freq : Q)
           (samples : list R) : result (list R * list R) :=
  Py.for_each
    (fun '(i_samples, q_samples) '(i, sample) =>
       t <- Py.div (inject_Z i) (inject_Z (sample_rate self)) ;;
       Ok (i_samples ++ [sample * cos (2 * PI * Q2R carrier_freq * Q2R t)],
           q_samples ++ [sample * sin (2 * PI * Q2R carrier_freq * Q2R t)]))
    (Py.enumerate samples) ([], []).

End Hopper.

Module Points.
Import UltrasonicCompression.
Local Open Scope R_scope.

(** Squared Euclidean norm and norm of an I/Q point. *)
Definition norm2 (p : R * R) : R := fst p * fst p + snd p * snd p.
Definition norm (p : R * R) : R := sqrt (norm2 p).

Definition in_unit_square (p : R * R) : Prop :=
  -1 <= fst p <= 1 /\ -1 <= snd p <= 1.

(** The bit-groups of a modulation: [0 <= symbol < 2 ^ bits_per_symbol]. *)
Definition bit_group (self : UltrasonicOFDM) (symbol : Z) : Prop :=
  (0 <= symbol < 2 ^ bits_per_symbol self)%Z.

End Points.

Module Frame.
Import UltrasonicCompression.
Local Open Scope R_scope.

Definition modulation_names : list string :=
  [ "BPSK"; "QPSK"; "16QAM"; "64QAM" ]%string.

(** The inner loop of [encode]: the sample at time [t] of a frame. *)
Definition carrier_sum (self : UltrasonicOFDM) (ofdm_symbol : list Z) (t : Q)
  : result R :=
  Py.for_each (add_carrier self t) (Py.enumerate ofdm_symbol) 0%R.

Definition bits_per_ofdm_symbol (self : UltrasonicOFDM) : Z :=
  (bits_per_symbol self * num_carriers self)%Z.

Definition is_bit (b : Z) : Prop := b = 0%Z \/ b = 1%Z.

(** A bound [B] on every term [I cos x + Q sin x] of the constellation. *)
Definition term_bound (self : UltrasonicOFDM) (B : R) : Prop :=
  forall symbol p x,
    _qam_constellation self symbol = Ok p ->
    Rabs (fst p * cos x + snd p * sin x) <= B.

(** [symbol_samples] and [guard_samples] of [encode]. *)
Definition symbol_samples (self : UltrasonicOFDM) : Z :=
  Py.int_of (inject_Z (sample_rate self) * SYMBOL_DURATION)%Q.

Definition guard_samples (self : UltrasonicOFDM) : Z :=
  Py.int_of (inject_Z (sample_rate self) * GUARD_INTERVAL)%Q.

(** A frame that the encoder can synthesise: one bit-group per carrier,
    each with a constellation point. *)
Definition frame_ok (self : UltrasonicOFDM) (ofdm_symbol : list Z) : Prop :=
  length ofdm_symbol = Z.to_nat (num_carriers self)
  /\ Forall (fun symbol => exists p, _qam_constellation self symbol = Ok p)
            ofdm_symbol.

(** [num_samples] of [encode] for a list of frames. *)
Definition frame_samples (self : UltrasonicOFDM) (frames : list (list Z))
  : Z :=
  Py.int_of (inject_Z (sample_rate self)
             * (inject_Z (Z.of_nat (length frames))
                * (SYMBOL_DURATION + GUARD_INTERVAL)))%Q.

(** [f * t] lies strictly between 0 and 1/4: the carrier [f] has turned
    less than a quarter at time [t]. *)
Definition below_quarter_turn (t f : Q) : bool :=
  match (0 ?= f * t)%Q, (f * t ?= 1 # 4)%Q with
  | Lt, Lt => true
  | _, _ => false
  end.

End Frame.

(* ================================================================== *)
(** ** The rest of frequency_hopping.py and ultrasonic_compression.py *)

(** [bytes.hex()] and [bytes.fromhex(s)]: two lower-case digits per byte;
    the parser takes digits of either case, skips ASCII whitespace between
    bytes and raises [ValueError] on anything else. *)
Module Hex.

Definition hex_digit (n : N) : ascii :=
  nth (N.to_nat n) (list_ascii_of_string "0123456789abcdef") "0"%char.

Definition hex_value (c : ascii) : option N :=
  let n := N_of_ascii c in
  if ((48 <=? n) && (n <=? 57))%N then Some (n - 48)%N
  else if ((97 <=? n) && (n <=? 102))%N then Some (n - 87)%N
  else if ((65 <=? n) && (n <=? 70))%N then Some (n - 55)%N
  else None.

Definition is_space (c : ascii) : bool :=
  let n := N_of_ascii c in
  ((n =? 32) || ((9 <=? n) && (n <=? 13)))%N.

Fixpoint hex (bs : Py.bytes) : string :=
  match bs with
  | [] => EmptyString
  | b :: rest =>
      let n := Byte.to_N b in
      String (hex_digit (n / 16)) (String (hex_digit (n mod 16)) (hex rest))
  end.

Fixpoint fromhex (s : string) : result Py.bytes :=
  match s with
  | EmptyString => Ok []
  | String c rest =>
      if is_space c then fromhex rest
      else
        match hex_value c, rest with
        | Some hi, String d rest' =>
            match hex_value d with
            | Some lo =>
                match Byte.of_N (hi * 16 + lo) with
                | Some b => bs <- fromhex rest' ;; Ok (b :: bs)
                | None => Raise ValueError
                end
            | None => Raise ValueError
            end
        | _, _ => Raise ValueError
        end
  end.

End Hex.

(** [FrequencyHopper.export_key], [FrequencyHopper.import_key] and the
    sample values of [FrequencyHopper.save_wav]. *)
Module HopperFiles.
Import FrequencyHopping.

Definition export_key (self : FrequencyHopper) : string :=
  Hex.hex (secret_key self).

Definition import_key (key_hex : string) : result Py.bytes :=
  Hex.fromhex key_hex.

Local Open Scope R_scope.

(** [int(x)] on a float. *)
Definition int_of_real (x : R) : Z :=
  if Rle_dec 0 x then Int_part x else (- Int_part (- x))%Z.

(** [max(abs(s) for s in samples) if samples else 1.0]. *)
Definition max_abs (samples : list R) : R :=
  match samples with
  | [] => 1
  | s :: rest => fold_left Rmax (map Rabs rest) (Rabs s)
  end.

(** The list [int_samples] of [FrequencyHopper.save_wav]: the waveform
    scaled to a peak of 0.85, unless it is silent, and quantised to 16 bits.
    The file operations that follow are not modelled. *)
Definition int_samples (samples : list R) : list Z :=
  let max_val := max_abs samples in
  let samples :=
    if Rlt_dec 0 max_val
    then map (fun s => s / max_val * (85 / 100)) samples
    else samples in
  map (fun s => int_of_real (s * 32767)) samples.

(** [struct.pack('<h', v)]: two bytes, little endian, two's complement;
    [None] is [struct.error], for a value that is no 16-bit integer. *)
Definition pack_h (v : Z) : option Py.bytes :=
  if ((-32768 <=? v) && (v <=? 32767))%Z
  then Some [Hashlib.byte_of_val v; Hashlib.byte_of_val (Z.shiftr v 8)]
  else None.

End HopperFiles.

(** ultrasonic_concepts.py, as far as frequency_hopping.py calls it. *)
Module UltrasonicConcepts.

Definition ULTRASONIC_BASE_FREQ : Q := 25000.

Definition ULTRASONIC_CONCEPT_FREQUENCIES : list (string * Q) :=
  [
    ("assertion"%string, 10 # 10);
    ("question"%string, 15 # 10);
    ("command"%string, 1333 # 1000);
    ("negation"%string, 20 # 10);
    ("request"%string, 1125 # 1000);
    ("certain"%string, 10 # 10);
    ("probable"%string, 1122 # 1000);
    ("possible"%string, 1189 # 1000);
    ("uncertain"%string, 1414 # 1000);
    ("doubtful"%string, 1682 # 1000);
    ("unknown"%string, 1888 # 1000);
    ("positive"%string, 125 # 100);
    ("negative"%string, 12 # 10);
    ("neutral"%string, 10 # 10);
    ("urgent"%string, 1587 # 1000);
    ("calm"%string, 944 # 1000);
    ("past"%string, 5 # 10);
    ("present"%string, 10 # 10);
    ("future"%string, 20 # 10);
    ("always"%string, 667 # 1000);
    ("never"%string, 1414 # 1000);
    ("and"%string, 1059 # 1000);
    ("or"%string, 1335 # 1000);
    ("if"%string, 126 # 100);
    ("then"%string, 1498 # 1000);
    ("because"%string, 1682 # 1000);
    ("therefore"%string, 1888 # 1000);
    ("self"%string, 5 # 10);
    ("other"%string, 20 # 10);
    ("this"%string, 10 # 10);
    ("that"%string, 15 # 10);
    ("all"%string, 25 # 100);
    ("none"%string, 40 # 10);
    ("some"%string, 10 # 10);
    ("many"%string, 75 # 100);
    ("few"%string, 1333 # 1000);
    ("exists"%string, 10 # 10);
    ("changes"%string, 1414 # 1000);
    ("causes"%string, 15 # 10);
    ("wants"%string, 125 # 100);
    ("knows"%string, 889 # 1000);
    ("believes"%string, 1122 # 1000) ].

(** [d.get(key, default)]. *)
Fixpoint get (d : list (string * Q)) (key : string) (default : Q) : Q :=
  match d with
  | [] => default
  | (k, v) :: rest => if String.eqb key k then v else get rest key default
  end.

Definition get_ultrasonic_frequency (concept : string) : Q :=
  let ratio := get ULTRASONIC_CONCEPT_FREQUENCIES concept 1 in
  ULTRASONIC_BASE_FREQ * ratio.

(** [freq > 22000.0]. *)
Definition is_inaudible_to_humans (freq : Q) : bool :=
  match (22000 ?= freq)%Q with
  | Lt => true
  | _ => false
  end.

(** [for rate in standard_rates: if rate >= min_rate: return rate]. *)
Fixpoint first_rate (standard_rates : list Z) (min_rate : Z) : option Z :=
  match standard_rates with
  | [] => None
  | rate :: rest =>
      if (min_rate <=? rate)%Z then Some rate else first_rate rest min_rate
  end.

Definition validate_sample_rate (max_freq : Q) : Z :=
  let min_rate := Py.int_of (max_freq * (25 # 10)) in
  let standard_rates := [48000; 96000; 192000; 384000]%Z in
  match first_rate standard_rates min_rate with
  | Some rate => rate
  | None => 384000%Z
  end.

End UltrasonicConcepts.

(** [SecureUltrasonicChannel]; the import of ultrasonic_concepts.py is taken
    to have succeeded. *)
Module SecureChannel.
Import FrequencyHopping.

Record SecureUltrasonicChannel := {
  hopper : FrequencyHopper;
  duration : Q;
  key_hex : string
}.

Definition __init__ (os_random : Py.bytes) (secret_key : option Py.bytes)
           (duration_per_symbol : Q) : result SecureUltrasonicChannel :=
  hopper <- FrequencyHopping.__init__
              os_random secret_key default_hop_range default_dwell_time_ms
              default_hop_spacing_hz default_sample_rate ;;
  Ok {| hopper := hopper;
        duration := duration_per_symbol;
        key_hex := HopperFiles.export_key hopper |}.

Definition get_key (self : SecureUltrasonicChannel) : string := key_hex self.

(** [zip(xs, ys, zs)]: as long as the shortest. *)
Fixpoint zip3 {A B C} (xs : list A) (ys : list B) (zs : list C)
  : list (A * B * C) :=
  match xs, ys, zs with
  | x :: xs', y :: ys', z :: zs' => (x, y, z) :: zip3 xs' ys' zs'
  | _, _, _ => []
  end.

(** The metadata of [encode_message] with the three entries that
    [transmit_concepts] adds. *)
Record ChannelMetadata := {
  message : Metadata;
  concepts : list string;
  secure : bool;
  key_required : bool
}.

Local Open Scope R_scope.

Definition transmit_concepts (self : SecureUltrasonicChannel)
           (concepts : list string) (confidences phases : option (list R))
  : result (list R * ChannelMetadata) :=
  let confidences :=
    match confidences with
    | None => repeat 1 (length concepts)
    | Some c => c
    end in
  let phases :=
    match phases with
    | None => repeat 0 (length concepts)
    | Some p => p
    end in
  let symbols :=
    map (fun '(concept, conf, phase_deg) =>
           let freq := UltrasonicConcepts.get_ultrasonic_frequency concept in
           let phase_rad := phase_deg * (PI / 180) in
           (Q2R freq, conf, phase_rad))
        (zip3 concepts confidences phases) in
  '(samples, metadata) <- encode_message (hopper self) symbols 0 ;;
  Ok (samples,
      {| message := metadata;
         concepts := concepts;
         secure := true;
         key_required := true |}).

End SecureChannel.

(** [DataCompressor]; a text is given by its UTF-8 bytes, so that
    [text.encode('utf-8')] is the identity. *)
Module Compressor.
Import UltrasonicCompression.

Record DataCompressor := { encoder : UltrasonicOFDM }.

Definition __init__ (modulation : string) : result DataCompressor :=
  encoder <- UltrasonicCompression.__init__
               SAMPLE_RATE OFDM_NUM_CARRIERS modulation ;;
  Ok {| encoder := encoder |}.

Definition transmit_text (self : DataCompressor) (text : Py.bytes)
  : result (list R * CompressionStats) :=
  let data := text in
  samples <- encode (encoder self) data ;;
  stats <- calculate_stats (encoder self) data samples ;;
  Ok (samples, stats).

(** [sep.join(items)] on byte strings. *)
Fixpoint join (sep : Py.bytes) (items : list Py.bytes) : Py.bytes :=
  match items with
  | [] => []
  | [x] => x
  | x :: rest => x ++ sep ++ join sep rest
  end.

Definition transmit_concepts (self : DataCompressor)
           (concepts : list Py.bytes)
  : result (list R * CompressionStats) :=
  let text := join (bytes_of_string ",") concepts in
  transmit_text self text.

Local Open Scope R_scope.

(** The list [int_samples] of [DataCompressor.save_wav]: this one divides
    by the peak without looking at it. *)
Fixpoint normalize (max_val : R) (samples : list R) : result (list R) :=
  match samples with
  | [] => Ok []
  | s :: rest =>
      q <- Py.rdiv s max_val ;;
      rest' <- normalize max_val rest ;;
      Ok (q * (85 / 100) :: rest')
  end.

Definition int_samples (samples : list R) : result (list Z) :=
  let max_val := HopperFiles.max_abs samples in
  samples <- normalize max_val samples ;;
  Ok (map (fun s => HopperFiles.int_of_real (s * 32767)) samples).

End Compressor.

(** The two products [decode_symbol] forms for one enumerated sample. *)
Module Mixer.
Import FrequencyHopping.
Local Open Scope R_scope.

(** The in-phase and quadrature products of sample [i]. *)
Definition in_phase (self : FrequencyHopper) (carrier_freq : Q)
           (c : Z * R) : R :=
  snd c * cos (2 * PI * Q2R carrier_freq
               * Q2R (inject_Z (fst c) / inject_Z (sample_rate self))).

Definition quadrature (self : FrequencyHopper) (carrier_freq : Q)
           (c : Z * R) : R :=
  snd c * sin (2 * PI * Q2R carrier_freq
               * Q2R (inject_Z (fst c) / inject_Z (sample_rate self))).

End Mixer.

(** The bits of a bit-group, least significant first: what a receiver reads
    back from a symbol value. *)
Module Demap.

Definition bits_of_symbol (width : Z) (symbol : Z) : list Z :=
  map (fun i => Z.land (Z.shiftr symbol i) 1) (Py.range width).

End Demap.

(* ================================================================== *)
(** ** Facts about the Python builtins *)

(** The digest of [b"abc"], as [hashlib.sha256(b"abc").hexdigest()] gives it. *)
Lemma sha256_abc :
  Hashlib.sha256 (bytes_of_string "abc")
  = [ xba; x78; x16; xbf; x8f; x01; xcf; xea; x41; x41; x40; xde; x5d; xae;
      x22; x23; xb0; x03; x61; xa3; x96; x17; x7a; x9c; xb4; x10; xff; x61;
      xf2; x00; x15; xad ].
Proof. vm_compute. reflexivity. Qed.


Section PyFacts.
Context {A : Type}.

Lemma pop_in_range (l : list A) (k : nat) :
  (k < length l)%nat ->
  exists x l', Py.pop l k = Ok (x, l')
               /\ Permutation l (x :: l')
               /\ length l = S (length l').
Proof.
  revert k; induction l as [|a l IH]; intros k Hk; simpl in Hk; [lia|].
  destruct k as [|k]; simpl.
  - exists a, l; auto.
  - destruct (IH k) as (x & l' & E & P & L); [lia|].
    rewrite E. exists x, (a :: l'); repeat split.
    + rewrite P. apply perm_swap.
    + simpl; lia.
Qed.

Lemma length_update (l : list A) k v : length (Py.update l k v) = length l.
Proof.
  revert k; induction l as [|a l IH]; intros [|k]; simpl; auto.
Qed.

Lemma Forall_update (P : A -> Prop) (l : list A) k v :
  Forall P l -> P v -> Forall P (Py.update l k v).
Proof.
  intros Hl Hv; revert k; induction Hl; intros [|k]; simpl; auto.
Qed.

Lemma setitem_Forall (P : A -> Prop) (l l' : list A) i v :
  Py.setitem l i v = Ok l' -> Forall P l -> P v ->
  Forall P l' /\ length l' = length l.
Proof.
  unfold Py.setitem; intros H Hl Hv.
  destruct (_ || _)%bool; [discriminate|].
  injection H as <-. split; [now apply Forall_update | apply length_update].
Qed.

Lemma setitem_in_range (l : list A) i v :
  (0 <= i < Z.of_nat (length l))%Z ->
  Py.setitem l i v = Ok (Py.update l (Z.to_nat i) v).
Proof.
  intros H; unfold Py.setitem.
  replace (i <? 0)%Z with false by (symmetry; apply Z.ltb_ge; lia).
  replace (i <? 0)%Z with false by (symmetry; apply Z.ltb_ge; lia).
  replace (Z.of_nat (length l) <=? i)%Z with false
    by (symmetry; apply Z.leb_gt; lia).
  reflexivity.
Qed.

Lemma getitem_in_range (l : list A) i :
  (0 <= i < Z.of_nat (length l))%Z ->
  exists a, Py.getitem l i = Ok a /\ In a l.
Proof.
  intros H; unfold Py.getitem.
  replace (i <? 0)%Z with false by (symmetry; apply Z.ltb_ge; lia).
  replace (i <? 0)%Z with false by (symmetry; apply Z.ltb_ge; lia).
  replace (Z.of_nat (length l) <=? i)%Z with false
    by (symmetry; apply Z.leb_gt; lia).
  simpl. destruct (nth_error l (Z.to_nat i)) as [a|] eqn:E.
  - exists a; split; auto. eapply nth_error_In; eauto.
  - apply nth_error_None in E; lia.
Qed.

Lemma getitem_In (l : list A) i a : Py.getitem l i = Ok a -> In a l.
Proof.
  unfold Py.getitem; intros H.
  destruct (_ || _)%bool; [discriminate|].
  destruct (nth_error l _) eqn:E; [|discriminate].
  injection H as <-. eapply nth_error_In; eauto.
Qed.

End PyFacts.

Lemma length_range n : length (Py.range n) = Z.to_nat n.
Proof. unfold Py.range. now rewrite length_map, length_seq. Qed.

Lemma bytes_of_int_small i :
  (i < 256)%N -> exists b, Py.bytes_of_int i = Ok [b].
Proof.
  intros H; unfold Py.bytes_of_int.
  destruct (Byte.of_N i) as [b|] eqn:E; [now exists b|].
  apply Byte.of_N_None_iff in E. lia.
Qed.

Lemma bytes_of_int_large i :
  (256 <= i)%N -> Py.bytes_of_int i = Raise ValueError.
Proof.
  intros H; unfold Py.bytes_of_int.
  destruct (Byte.of_N i) as [b|] eqn:E; [|reflexivity].
  assert (Byte.of_N i = None) as E' by (apply Byte.of_N_None_iff; lia).
  congruence.
Qed.

Lemma int_of_nonneg q : (0 <= q)%Q -> Py.int_of q = Qfloor q.
Proof.
  destruct q as [n d]; unfold Qle, Py.int_of, Qfloor; simpl; intros H.
  apply Z.quot_div_nonneg; lia.
Qed.

Lemma is_zero_spec q : Py.is_zero q = true <-> (q == 0)%Q.
Proof.
  destruct q as [n d]; unfold Py.is_zero, Qeq; simpl.
  rewrite Z.eqb_eq. lia.
Qed.

(* ================================================================== *)
(** ** The key-driven shuffle of [_generate_hop_table] *)

Module HopTable.
Import FrequencyHopping HopGrid.

Section Shuffle.
Context {A : Type}.
Implicit Types (rng : Py.bytes) (shuffled remaining : list A).

(** A turn of the loop with a byte-sized counter and a non-empty pool
    moves one element of the pool to the end of the output. *)
Lemma shuffle_step_moves rng shuffled remaining (i : nat) :
  (i < 256)%nat -> remaining <> [] ->
  exists rng' x remaining',
    shuffle_step (rng, shuffled, remaining) (Z.of_nat i)
    = Ok (rng', shuffled ++ [x], remaining')
    /\ Permutation remaining (x :: remaining')
    /\ length remaining = S (length remaining').
Proof.
  intros Hi Hne. unfold shuffle_step.
  destruct (bytes_of_int_small (Z.to_N (Z.of_nat i))) as (b & ->); [lia|].
  cbn [Py.bind].
  set (rng' := Hashlib.sha256 (rng ++ [b])).
  set (n := Z.of_nat (length remaining)).
  assert (0 < n)%Z as Hn by (destruct remaining; [congruence | subst n; simpl; lia]).
  unfold Py.mod_. replace (n =? 0)%Z with false by (symmetry; apply Z.eqb_neq; lia).
  cbn [Py.bind].
  set (idx := (_ mod n)%Z).
  assert (0 <= idx < n)%Z as Hidx by (apply Z.mod_pos_bound; lia).
  destruct (pop_in_range remaining (Z.to_nat idx)) as (x & r' & E & P & L);
    [subst n; lia|].
  rewrite E. cbn [Py.bind]. exists rng', x, r'. auto.
Qed.

(** The counter of turn 256 is not a byte: the turn raises. *)
Lemma shuffle_step_overflow rng shuffled remaining (i : nat) :
  (256 <= i)%nat ->
  shuffle_step (rng, shuffled, remaining) (Z.of_nat i) = Raise ValueError.
Proof.
  intros Hi. unfold shuffle_step.
  rewrite bytes_of_int_large by lia. reflexivity.
Qed.

Lemma shuffle_loop_permutes (n : nat) :
  forall (a : nat) rng shuffled remaining,
    length remaining = n -> (a + n <= 256)%nat ->
    exists rng' shuffled',
      Py.for_each shuffle_step (map Z.of_nat (seq a n))
                  (rng, shuffled, remaining)
      = Ok (rng', shuffled', [])
      /\ Permutation (shuffled ++ remaining) shuffled'.
Proof.
  induction n as [|n IH]; intros a rng shuffled remaining Hlen Hle.
  - destruct remaining; [|discriminate]. simpl.
    exists rng, shuffled. rewrite app_nil_r. auto.
  - destruct (shuffle_step_moves rng shuffled remaining a)
      as (rng1 & x & rem1 & E & P & L); [lia | destruct remaining; easy |].
    cbn [Py.for_each map seq]. rewrite E.
    destruct (IH (S a) rng1 (shuffled ++ [x]) rem1) as (rng2 & sh2 & E2 & P2);
      [lia | lia |].
    exists rng2, sh2. split; [exact E2|].
    rewrite <- P2, <- app_assoc. simpl. now rewrite P.
Qed.

Lemma shuffle_loop_overflows (n : nat) :
  forall (a : nat) rng shuffled remaining,
    length remaining = n -> (a <= 256 < a + n)%nat ->
    Py.for_each shuffle_step (map Z.of_nat (seq a n))
                (rng, shuffled, remaining)
    = Raise ValueError.
Proof.
  induction n as [|n IH]; intros a rng shuffled remaining Hlen Ha; [lia|].
  cbn [Py.for_each map seq]. destruct (Nat.eq_dec a 256) as [->|Hne].
  - now rewrite shuffle_step_overflow by lia.
  - destruct (shuffle_step_moves rng shuffled remaining a)
      as (rng1 & x & rem1 & E & P & L); [lia | destruct remaining; easy |].
    rewrite E. apply IH; lia.
Qed.

Lemma range_of_length (l : list A) :
  Py.range (Z.of_nat (length l)) = map Z.of_nat (seq 0 (length l)).
Proof. unfold Py.range. now rewrite Nat2Z.id. Qed.

Theorem shuffle_small (key : Py.bytes) (l : list A) :
  (length l <= 256)%nat ->
  exists l', shuffle key l = Ok l' /\ Permutation l l'.
Proof.
  intros H. unfold shuffle. rewrite range_of_length.
  destruct (shuffle_loop_permutes (length l) 0 (Hashlib.sha256 key) [] l)
    as (rng' & l' & E & P); [reflexivity | lia |].
  rewrite E. cbn. exists l'. auto.
Qed.

Theorem shuffle_large (key : Py.bytes) (l : list A) :
  (256 < length l)%nat -> shuffle key l = Raise ValueError.
Proof.
  intros H. unfold shuffle. rewrite range_of_length.
  rewrite (shuffle_loop_overflows (length l)); [reflexivity.. | lia].
Qed.

End Shuffle.

Lemma frequency_grid_eq hop_range spacing :
  frequency_grid hop_range spacing =
  if Py.is_zero spacing then Raise ZeroDivisionError
  else Ok (grid_of (fst hop_range) spacing (num_channels hop_range spacing)).
Proof.
  destruct hop_range as [lo hi]. unfold frequency_grid, Py.div.
  destruct (Py.is_zero spacing); reflexivity.
Qed.

Lemma length_grid_of lo spacing count :
  length (grid_of lo spacing count) = Z.to_nat count.
Proof. unfold grid_of. now rewrite length_map, length_range. Qed.

(** The three outcomes of [_generate_hop_table]. *)
Lemma generate_zero_spacing key hop_range spacing :
  Py.is_zero spacing = true ->
  _generate_hop_table key hop_range spacing = Raise ZeroDivisionError.
Proof.
  intros H. unfold _generate_hop_table.
  now rewrite frequency_grid_eq, H.
Qed.

Lemma generate_small key hop_range spacing :
  Py.is_zero spacing = false ->
  (num_channels hop_range spacing <= 256)%Z ->
  exists table,
    _generate_hop_table key hop_range spacing = Ok table
    /\ Permutation
         (grid_of (fst hop_range) spacing (num_channels hop_range spacing))
         table.
Proof.
  intros Hz Hn. unfold _generate_hop_table.
  rewrite frequency_grid_eq, Hz. cbn [Py.bind].
  apply shuffle_small. rewrite length_grid_of. lia.
Qed.

Lemma generate_large key hop_range spacing :
  Py.is_zero spacing = false ->
  (256 < num_channels hop_range spacing)%Z ->
  _generate_hop_table key hop_range spacing = Raise ValueError.
Proof.
  intros Hz Hn. unfold _generate_hop_table.
  rewrite frequency_grid_eq, Hz. cbn [Py.bind].
  apply shuffle_large. rewrite length_grid_of. lia.
Qed.

End HopTable.

(* ================================================================== *)
(** ** Construction of a [FrequencyHopper] *)

Module HopperInit.
Import FrequencyHopping HopGrid HopTable.

Section Init.
Variables (os_random : Py.bytes) (secret_key : option Py.bytes).
Variables (hop_range : Q * Q) (dwell_time_ms hop_spacing_hz : Q).
Variable (sample_rate : Z).

Let built := __init__ os_random secret_key hop_range dwell_time_ms
                      hop_spacing_hz sample_rate.
Let grid := grid_of (fst hop_range) hop_spacing_hz
                    (num_channels hop_range hop_spacing_hz).

Lemma init_zero_spacing :
  Py.is_zero hop_spacing_hz = true -> built = Raise ZeroDivisionError.
Proof.
  intros H. unfold built, __init__.
  now rewrite generate_zero_spacing.
Qed.

Lemma init_large :
  Py.is_zero hop_spacing_hz = false ->
  (256 < num_channels hop_range hop_spacing_hz)%Z ->
  built = Raise ValueError.
Proof.
  intros Hz H. unfold built, __init__.
  now rewrite generate_large.
Qed.

Lemma init_small :
  Py.is_zero hop_spacing_hz = false ->
  (num_channels hop_range hop_spacing_hz <= 256)%Z ->
  exists h, built = Ok h
            /\ Permutation grid (hop_frequencies h)
            /\ hop_count h = Z.of_nat (length (hop_frequencies h))
            /\ FrequencyHopping.sample_rate h = sample_rate
            /\ FrequencyHopping.secret_key h
               = key_or_random secret_key os_random.
Proof.
  intros Hz H. unfold built, __init__.
  destruct (generate_small (key_or_random secret_key os_random)
                           hop_range hop_spacing_hz Hz H) as (t & -> & P).
  cbn [Py.bind]. eexists; repeat split; cbn; auto.
Qed.

End Init.

(** A quotient by a zero spacing is zero in [Q], so its floor is not
    positive. *)
Lemma floor_div_zero (x y : Q) :
  Py.is_zero y = true -> Qfloor (x / y) = 0%Z.
Proof.
  destruct y as [n d]; unfold Py.is_zero; simpl; intros H.
  apply Z.eqb_eq in H; subst n.
  unfold Qdiv, Qinv, Qfloor, Qmult; simpl.
  now rewrite Z.mul_0_r.
Qed.

Lemma floor_positive_int_of (q : Q) :
  (0 < Qfloor q)%Z -> Py.int_of q = Qfloor q.
Proof.
  intros H. apply int_of_nonneg.
  apply Qle_trans with (inject_Z (Qfloor q)); [|apply Qfloor_le].
  change 0%Q with (inject_Z 0). rewrite <- Zle_Qle. lia.
Qed.

End HopperInit.

(* ================================================================== *)
(** ** Properties of the hop-sequence generator *)

From Stdlib Require Import SetoidList SetoidPermutation.

Module HopperProperties.
Import FrequencyHopping HopGrid HopTable HopperInit.






Lemma is_zero_false q : Py.is_zero q = false <-> ~ (q == 0)%Q.
Proof.
  rewrite <- is_zero_spec. destruct (Py.is_zero q); split; congruence.
Qed.


(** The grid as long as the table of a constructed hopper: the grid that
    [_generate_hop_table] built. *)
Lemma range_hop_count
      (os_random : Py.bytes) (secret_key : option Py.bytes)
      (hop_range : Q * Q) (dwell_time_ms hop_spacing_hz : Q)
      (sample_rate : Z) (h : FrequencyHopper) :
  Permutation (grid_of (fst hop_range) hop_spacing_hz
                       (num_channels hop_range hop_spacing_hz))
              (hop_frequencies h) ->
  hop_count h = Z.of_nat (length (hop_frequencies h)) ->
  Py.range (hop_count h) = Py.range (num_channels hop_range hop_spacing_hz)
  /\ hop_count h = Z.max 0 (num_channels hop_range hop_spacing_hz).
Proof.
  intros P Hc. apply Permutation_length in P.
  rewrite length_grid_of in P. rewrite Hc, <- P.
  unfold Py.range. rewrite Nat2Z.id. split; [reflexivity | lia].
Qed.


Lemma init_over_256
      (os_random : Py.bytes) (secret_key : option Py.bytes)
      (hop_range : Q * Q) (dwell_time_ms hop_spacing_hz : Q)
      (sample_rate : Z) :
  (256 < Qfloor ((snd hop_range - fst hop_range) / hop_spacing_hz))%Z ->
  __init__ os_random secret_key hop_range dwell_time_ms hop_spacing_hz
           sample_rate
  = Raise ValueError.
Proof.
  intros H.
  assert (Py.is_zero hop_spacing_hz = false) as Hz.
  { destruct (Py.is_zero hop_spacing_hz) eqn:E; [|reflexivity].
    rewrite floor_div_zero in H by assumption. lia. }
  apply init_large; [exact Hz|].
  unfold num_channels. rewrite floor_positive_int_of; lia.
Qed.

Lemma init_up_to_256
      (os_random : Py.bytes) (secret_key : option Py.bytes)
      (hop_range : Q * Q) (dwell_time_ms hop_spacing_hz : Q)
      (sample_rate : Z) :
  ~ (hop_spacing_hz == 0)%Q ->
  (Qfloor ((snd hop_range - fst hop_range) / hop_spacing_hz) <= 256)%Z ->
  exists h,
    __init__ os_random secret_key hop_range dwell_time_ms hop_spacing_hz
             sample_rate = Ok h.
Proof.
  intros Hs H. apply is_zero_false in Hs.
  destruct (init_small os_random secret_key hop_range dwell_time_ms
                       hop_spacing_hz sample_rate Hs) as (h & E & _).
  - unfold num_channels.
    set (q := ((snd hop_range - fst hop_range) / hop_spacing_hz)%Q) in *.
    destruct (Qlt_le_dec q 0) as [Hneg|Hpos].
    + destruct q as [n d]. unfold Qlt in Hneg; simpl in Hneg.
      unfold Py.int_of; simpl.
      assert (Z.quot n (Z.pos d) <= 0)%Z; [|lia].
      apply Z.quot_le_upper_bound; lia.
    + rewrite int_of_nonneg by assumption. exact H.
  - now exists h.
Qed.

Lemma init_within_256
      (os_random : Py.bytes) (secret_key : option Py.bytes)
      (hop_range : Q * Q) (dwell_time_ms hop_spacing_hz : Q)
      (sample_rate : Z) (h : FrequencyHopper) :
  __init__ os_random secret_key hop_range dwell_time_ms hop_spacing_hz
           sample_rate = Ok h ->
  (hop_count h <= 256)%Z.
Proof.
  intros H.
  destruct (Py.is_zero hop_spacing_hz) eqn:Hz.
  { rewrite init_zero_spacing in H by assumption. discriminate. }
  destruct (Z_le_gt_dec (num_channels hop_range hop_spacing_hz) 256)
    as [Hle|Hgt].
  - destruct (init_small os_random secret_key hop_range dwell_time_ms
                         hop_spacing_hz sample_rate Hz Hle)
      as (h' & E & P & Hc & _).
    rewrite E in H. injection H as <-.
    destruct (range_hop_count os_random secret_key hop_range dwell_time_ms
                              hop_spacing_hz sample_rate h' P Hc)
      as [_ Hmax].
    lia.
  - rewrite init_large in H by (auto; lia). discriminate.
Qed.

(** C9: a grid of more than 256 channels,
    [floor((freq_max - freq_min) / spacing) > 256], makes the constructor
    raise [ValueError], at [bytes([256])] in the shuffle.  A configuration
    with a non-zero spacing and a quotient [(freq_max - freq_min) / spacing]
    of at most 256 is built, and every hopper that is built has at most 256
    channels.  For a quotient strictly between 256 and 257 the outcome
    depends on how the code rounds the division, and nothing is stated. *)
Theorem hop_table_limit_256
        (os_random : Py.bytes) (secret_key : option Py.bytes)
        (hop_range : Q * Q) (dwell_time_ms hop_spacing_hz : Q)
        (sample_rate : Z) :
  ((256 < Qfloor ((snd hop_range - fst hop_range) / hop_spacing_hz))%Z ->
   __init__ os_random secret_key hop_range dwell_time_ms hop_spacing_hz
            sample_rate
   = Raise ValueError)
  /\ (~ (hop_spacing_hz == 0)%Q ->
      ((snd hop_range - fst hop_range) / hop_spacing_hz <= 256)%Q ->
      exists h,
        __init__ os_random secret_key hop_range dwell_time_ms hop_spacing_hz
                 sample_rate = Ok h)
  /\ (forall h,
         __init__ os_random secret_key hop_range dwell_time_ms hop_spacing_hz
                  sample_rate = Ok h ->
         (hop_count h <= 256)%Z).
Proof.
  split; [apply init_over_256 | split].
  - intros Hs Hq. apply init_up_to_256; [exact Hs|].
    apply Qfloor_resp_le in Hq. change (Qfloor 256) with 256%Z in Hq.
    exact Hq.
  - intros h. apply init_within_256.
Qed.

(** C9 at [hop_range = (0, 30000)], [hop_spacing_hz = 100]: 300 channels. *)
Lemma hop_table_limit_256_witness :
  (256 < Qfloor ((snd (0%Q, 30000%Q) - fst (0%Q, 30000%Q)) / 100))%Z
  /\ __init__ (repeat x00 32) None (0%Q, 30000%Q) 10 100 192000
     = Raise ValueError.
Proof.
  split; [reflexivity|].
  apply (proj1 (hop_table_limit_256 (repeat x00 32) None (0%Q, 30000%Q)
                                    10 100 192000)).
  reflexivity.
Defined.

Lemma int_of_nonpos (q : Q) : (q <= 0)%Q -> (Py.int_of q <= 0)%Z.
Proof.
  destruct q as [n d]. unfold Qle, Py.int_of; simpl. intros H.
  destruct (Z.eq_dec n 0) as [->|Hn]; [reflexivity|].
  assert (Z.quot n (Z.pos d) <= 0)%Z; [|lia].
  apply Z.quot_le_upper_bound; lia.
Qed.

Lemma init_raises_only os_random secret_key hop_range dwell_time_ms
      hop_spacing_hz sample_rate e :
  __init__ os_random secret_key hop_range dwell_time_ms hop_spacing_hz
           sample_rate = Raise e ->
  e = ZeroDivisionError \/ e = ValueError.
Proof.
  destruct (Py.is_zero hop_spacing_hz) eqn:Hz.
  - rewrite init_zero_spacing by assumption. intros [= <-]; auto.
  - destruct (Z_le_gt_dec (num_channels hop_range hop_spacing_hz) 256)
      as [Hle|Hgt].
    + destruct (init_small os_random secret_key hop_range dwell_time_ms
                           hop_spacing_hz sample_rate Hz Hle)
        as (h & -> & _). discriminate.
    + rewrite init_large by (auto; lia). intros [= <-]; auto.
Qed.

(** C4, as the code has it: the constructor validates nothing.  It never
    raises [ConfigError]; a zero spacing is a [ZeroDivisionError] of the
    grid computation; [freq_min >= freq_max] with a positive spacing builds
    a hopper over an empty grid. *)
Theorem construction_validates_nothing
        (os_random : Py.bytes) (secret_key : option Py.bytes)
        (hop_range : Q * Q) (dwell_time_ms hop_spacing_hz : Q)
        (sample_rate : Z) :
  __init__ os_random secret_key hop_range dwell_time_ms hop_spacing_hz
           sample_rate <> Raise ConfigError
  /\ ((hop_spacing_hz == 0)%Q ->
      __init__ os_random secret_key hop_range dwell_time_ms hop_spacing_hz
               sample_rate = Raise ZeroDivisionError)
  /\ ((0 < hop_spacing_hz)%Q -> (snd hop_range <= fst hop_range)%Q ->
      exists h,
        __init__ os_random secret_key hop_range dwell_time_ms hop_spacing_hz
                 sample_rate = Ok h
        /\ hop_frequencies h = [] /\ hop_count h = 0%Z).
Proof.
  split; [|split].
  - intros H. apply init_raises_only in H. destruct H; discriminate.
  - intros H. apply init_zero_spacing. now apply is_zero_spec.
  - intros Hs Hr.
    assert (Py.is_zero hop_spacing_hz = false) as Hz.
    { apply is_zero_false. intros E. rewrite E in Hs. discriminate. }
    assert (num_channels hop_range hop_spacing_hz <= 0)%Z as Hn.
    { apply int_of_nonpos. apply Qle_shift_div_r; [exact Hs|].
      rewrite Qmult_0_l. unfold Qminus.
      rewrite <- (Qplus_opp_r (fst hop_range)).
      apply Qplus_le_compat; [exact Hr | apply Qle_refl]. }
    destruct (init_small os_random secret_key hop_range dwell_time_ms
                         hop_spacing_hz sample_rate Hz) as (h & E & P & Hc & _);
      [lia|].
    exists h. split; [exact E|].
    unfold grid_of, Py.range in P.
    replace (Z.to_nat (num_channels hop_range hop_spacing_hz)) with 0%nat in P
      by lia.
    apply Permutation_nil in P. rewrite P in Hc. auto.
Qed.

(** C4 at [hop_range = (100, 50)], [hop_spacing_hz = 100]. *)
Lemma construction_validates_nothing_witness :
  exists h,
    __init__ (repeat x00 32) (Some (bytes_of_string "key"))
             (100%Q, 50%Q) 10 100 192000 = Ok h
    /\ hop_frequencies h = [] /\ hop_count h = 0%Z.
Proof.
  apply (construction_validates_nothing
           (repeat x00 32) (Some (bytes_of_string "key"))
           (100%Q, 50%Q) 10 100 192000).
  - reflexivity.
  - unfold Qle; simpl; lia.
Defined.

(** C4, counterexample: [hop_range = (100, 50)] is accepted; the hopper has
    no channel. *)
Lemma inverted_hop_range_accepted :
  exists h,
    __init__ (repeat x00 32) (Some (Hashlib.sha256 (bytes_of_string "test")))
             (100%Q, 50%Q) default_dwell_time_ms default_hop_spacing_hz
             default_sample_rate = Ok h
    /\ hop_frequencies h = []
    /\ __init__ (repeat x00 32)
                (Some (Hashlib.sha256 (bytes_of_string "test")))
                (100%Q, 50%Q) default_dwell_time_ms default_hop_spacing_hz
                default_sample_rate <> Raise ConfigError.
Proof.
  eexists. split; [vm_compute; reflexivity|].
  split; [reflexivity | vm_compute; discriminate].
Qed.

(** The hop table is a function of the key in use and of the grid
    parameters: a supplied non-empty key fixes it, whatever the operating
    system's random source holds. *)
Theorem supplied_key_determines_table
        (os_random1 os_random2 : Py.bytes) (b : byte) (k : Py.bytes)
        (hop_range : Q * Q) (dwell_time_ms hop_spacing_hz : Q)
        (sample_rate : Z) :
  __init__ os_random1 (Some (b :: k)) hop_range dwell_time_ms hop_spacing_hz
           sample_rate
  = __init__ os_random2 (Some (b :: k)) hop_range dwell_time_ms
             hop_spacing_hz sample_rate.
Proof. reflexivity. Qed.

(** C1, at the empty key: [b'' or secrets.token_bytes(32)] draws a random
    key, so two hoppers built with the same key [b''] follow whatever the
    random source returned; with the draws [00..00] and [ff..ff] their
    first hops are 27900 Hz and 24100 Hz. *)
Theorem empty_key_replaced_by_random_key :
  exists h1 h2,
    __init__ (repeat x00 32) (Some []) default_hop_range
             default_dwell_time_ms default_hop_spacing_hz default_sample_rate
    = Ok h1
    /\ __init__ (repeat xff 32) (Some []) default_hop_range
                default_dwell_time_ms default_hop_spacing_hz
                default_sample_rate
       = Ok h2
    /\ secret_key h1 = repeat x00 32
    /\ secret_key h2 = repeat xff 32
    /\ _get_hop_freq h1 0 = Ok 27900%Q
    /\ _get_hop_freq h2 0 = Ok 24100%Q.
Proof.
  do 2 eexists.
  split; [vm_compute; reflexivity|].
  split; [vm_compute; reflexivity|].
  repeat split; vm_compute; reflexivity.
Qed.

End HopperProperties.

(* ================================================================== *)
(** ** Loops *)

Section Loops.
Context {S I : Type}.
Variable body : S -> I -> result S.

Lemma for_each_app (xs ys : list I) (s : S) :
  Py.for_each body (xs ++ ys) s
  = (s' <- Py.for_each body xs s ;; Py.for_each body ys s').
Proof.
  revert s; induction xs as [|x xs IH]; intros s; simpl; [reflexivity|].
  destruct (body s x); simpl; auto.
Qed.

(** A property of the loop variables that every turn keeps holds when the
    loop ends. *)
Lemma for_each_invariant (P : S -> Prop) (items : list I) :
  (forall s x s', In x items -> P s -> body s x = Ok s' -> P s') ->
  forall s s', P s -> Py.for_each body items s = Ok s' -> P s'.
Proof.
  induction items as [|x items IH]; intros Hstep s s' Hs H; simpl in H.
  - now injection H as <-.
  - destruct (body s x) as [s1|e] eqn:E; [|discriminate].
    apply (IH (fun s x s' Hin => Hstep s x s' (or_intror Hin)) s1 s'); auto.
    apply (Hstep s x s1); simpl; auto.
Qed.

(** A loop whose turns all return, on states that satisfy [P], returns. *)
Lemma for_each_total (P : S -> Prop) (items : list I) :
  (forall s x, In x items -> P s -> exists s', body s x = Ok s' /\ P s') ->
  forall s, P s -> exists s', Py.for_each body items s = Ok s' /\ P s'.
Proof.
  induction items as [|x items IH]; intros Hstep s Hs; simpl.
  - now exists s.
  - destruct (Hstep s x) as (s1 & E & H1); simpl; auto.
    rewrite E. apply IH; auto.
    intros s0 x0 Hin. apply Hstep. now right.
Qed.

(** The loop raises what its first turn raises. *)
Lemma for_each_first_raises (x : I) (items : list I) (s : S) (e : Py.exn) :
  body s x = Raise e -> Py.for_each body (x :: items) s = Raise e.
Proof. intros H; simpl. now rewrite H. Qed.

End Loops.

(* ================================================================== *)
(** ** Spread-spectrum symbols *)

Module HoppedSymbols.
Import FrequencyHopping Hopper.
Local Open Scope R_scope.

Lemma get_hop_freq_no_channel self hop_index :
  hop_count self = 0%Z ->
  _get_hop_freq self hop_index = Raise ZeroDivisionError.
Proof. intros H. unfold _get_hop_freq, Py.mod_. now rewrite H. Qed.

Lemma get_hop_freq_total self hop_index :
  well_formed self -> hop_count self <> 0%Z ->
  exists c, _get_hop_freq self hop_index = Ok c /\ In c (hop_frequencies self).
Proof.
  intros Hwf Hn. unfold _get_hop_freq, Py.mod_.
  replace (hop_count self =? 0)%Z with false
    by (symmetry; now apply Z.eqb_neq).
  cbn [Py.bind]. apply getitem_in_range.
  rewrite <- Hwf. apply Z.mod_pos_bound. unfold well_formed in Hwf. lia.
Qed.

Lemma get_hop_freq_wraps self hop_index :
  hop_count self <> 0%Z ->
  _get_hop_freq self hop_index
  = _get_hop_freq self (hop_index mod hop_count self).
Proof.
  intros Hn. unfold _get_hop_freq, Py.mod_.
  replace (hop_count self =? 0)%Z with false
    by (symmetry; now apply Z.eqb_neq).
  cbn [Py.bind]. now rewrite Z.mod_mod.
Qed.

Lemma amplitude_times_sine (a x : R) :
  0 <= a <= 1 -> in_unit_range (a * sin x).
Proof.
  intros Ha. pose proof (SIN_bound x) as Hs. unfold in_unit_range. nra.
Qed.

Lemma Forall_replicate_zero n : Forall in_unit_range (Py.replicate 0 n).
Proof.
  unfold Py.replicate. apply Forall_forall. intros x Hx.
  apply repeat_spec in Hx. subst x. unfold in_unit_range. lra.
Qed.

(** Every sample of a symbol with amplitude in [[0, 1]] is in [[-1, 1]]. *)
Lemma encode_symbol_bounded self symbol_freq amplitude phase hop_index samples :
  0 <= amplitude <= 1 ->
  encode_symbol self symbol_freq amplitude phase hop_index = Ok samples ->
  Forall in_unit_range samples.
Proof.
  intros Ha. unfold encode_symbol.
  destruct (_get_hop_freq self hop_index) as [c|e]; [|discriminate].
  cbn [Py.bind]. intros H.
  eapply (for_each_invariant _ (Forall in_unit_range)); [| |exact H].
  - intros s i s' _ Hs. cbv beta.
    destruct (Py.div _ _) as [t|]; [|discriminate].
    cbn [Py.bind]. destruct (Py.rdiv _ _) as [r|]; [|discriminate].
    cbn [Py.bind]. intros Hset.
    apply (setitem_Forall in_unit_range _ _ _ _ Hset Hs).
    now apply amplitude_times_sine.
  - apply Forall_replicate_zero.
Qed.

Lemma div_by_int (x : Q) (n : Z) :
  Py.div x (inject_Z n)
  = if (n =? 0)%Z then Raise ZeroDivisionError else Ok (x / inject_Z n)%Q.
Proof. reflexivity. Qed.

Lemma int_of_zero_rate (d : Q) : Py.int_of (inject_Z 0 * d) = 0%Z.
Proof. destruct d as [n k]. reflexivity. Qed.

Lemma range_succ (k : nat) :
  Py.range (Z.of_nat (S k)) = 0%Z :: map Z.of_nat (seq 1 k).
Proof. unfold Py.range. rewrite Nat2Z.id. reflexivity. Qed.

Lemma In_range i n : In i (Py.range n) -> (0 <= i < n)%Z.
Proof.
  unfold Py.range. intros H. apply in_map_iff in H.
  destruct H as (k & <- & Hk). apply in_seq in Hk. lia.
Qed.

(** The outcome of [encode_symbol] on a hopper with channels. *)
Lemma encode_symbol_returns self symbol_freq amplitude phase hop_index :
  well_formed self -> hop_count self <> 0%Z -> symbol_freq <> 0 ->
  exists samples,
    encode_symbol self symbol_freq amplitude phase hop_index = Ok samples
    /\ length samples = Z.to_nat (dwell_samples self).
Proof.
  intros Hwf Hn Hf. unfold encode_symbol.
  destruct (get_hop_freq_total self hop_index Hwf Hn) as (c & -> & _).
  cbn [Py.bind]. fold (dwell_samples self).
  apply (for_each_total _
           (fun s => length s = Z.to_nat (dwell_samples self))).
  - intros s i Hi Hs. apply In_range in Hi. cbv beta.
    rewrite div_by_int.
    destruct (sample_rate self =? 0)%Z eqn:Hsr.
    { apply Z.eqb_eq in Hsr. unfold dwell_samples in Hi.
      rewrite Hsr, int_of_zero_rate in Hi. lia. }
    cbn [Py.bind]. unfold Py.rdiv.
    destruct (Req_dec_T symbol_freq 0) as [E|_]; [contradiction|].
    cbn [Py.bind]. rewrite setitem_in_range by lia.
    eexists; split; [reflexivity|]. now rewrite length_update.
  - unfold Py.replicate. apply repeat_length.
Qed.

Lemma encode_symbol_zero_frequency self amplitude phase hop_index :
  well_formed self -> (1 <= dwell_samples self)%Z ->
  encode_symbol self 0 amplitude phase hop_index = Raise ZeroDivisionError.
Proof.
  intros Hwf Hd. unfold encode_symbol.
  destruct (Z.eq_dec (hop_count self) 0) as [E|Hn].
  { now rewrite get_hop_freq_no_channel. }
  destruct (get_hop_freq_total self hop_index Hwf Hn) as (c & -> & _).
  cbn [Py.bind]. fold (dwell_samples self).
  destruct (Z.to_nat (dwell_samples self)) as [|k] eqn:Ek; [lia|].
  replace (dwell_samples self) with (Z.of_nat (S k)) by lia.
  rewrite range_succ. apply for_each_first_raises.
  rewrite div_by_int. destruct (sample_rate self =? 0)%Z; [reflexivity|].
  cbn [Py.bind]. unfold Py.rdiv.
  destruct (Req_dec_T 0 0) as [_|E]; [reflexivity | now contradiction E].
Qed.

(** On a well-formed hopper [encode_symbol] raises nothing but
    [ZeroDivisionError]. *)
Lemma encode_symbol_raises_only self symbol_freq amplitude phase hop_index e :
  well_formed self ->
  encode_symbol self symbol_freq amplitude phase hop_index = Raise e ->
  e = ZeroDivisionError.
Proof.
  intros Hwf H.
  destruct (Z.eq_dec (hop_count self) 0) as [E|Hn].
  { unfold encode_symbol in H. rewrite get_hop_freq_no_channel in H by auto.
    now injection H. }
  destruct (Req_dec_T symbol_freq 0) as [->|Hf].
  - destruct (Z_le_gt_dec 1 (dwell_samples self)) as [Hd|Hd].
    + rewrite encode_symbol_zero_frequency in H by auto. now injection H.
    + unfold encode_symbol in H.
      destruct (get_hop_freq_total self hop_index Hwf Hn) as (c & Ec & _).
      rewrite Ec in H. cbn [Py.bind] in H. fold (dwell_samples self) in H.
      unfold Py.range in H. replace (Z.to_nat (dwell_samples self)) with 0%nat in H by lia.
      discriminate.
  - destruct (encode_symbol_returns self symbol_freq amplitude phase hop_index)
      as (s & Es & _); auto. congruence.
Qed.

Lemma encode_message_eq self symbols start_hop_index :
  encode_message self symbols start_hop_index
  = ('(all_samples, hop_idx) <- message_loop self symbols ([], start_hop_index) ;;
     duration <- Py.div (inject_Z (Z.of_nat (length all_samples)))
                        (inject_Z (sample_rate self)) ;;
     Ok (all_samples,
         {| num_symbols := Z.of_nat (length symbols);
            start_hop := start_hop_index;
            end_hop := hop_idx;
            duration_sec := duration;
            hops_used := (hop_idx - start_hop_index)%Z |})).
Proof. reflexivity. Qed.

Lemma message_loop_cons self f a p rest all_samples hop_idx :
  message_loop self ((f, a, p) :: rest) (all_samples, hop_idx)
  = (symbol_samples <- encode_symbol self f a p hop_idx ;;
     message_loop self rest (all_samples ++ symbol_samples, (hop_idx + 1)%Z)).
Proof.
  unfold message_loop; simpl.
  destruct (encode_symbol self f a p hop_idx); reflexivity.
Qed.

Lemma message_loop_bounded self symbols :
  Forall (fun s => 0 <= amplitude_of s <= 1) symbols ->
  forall all_samples hop_idx out hop_idx',
    Forall in_unit_range all_samples ->
    message_loop self symbols (all_samples, hop_idx) = Ok (out, hop_idx') ->
    Forall in_unit_range out.
Proof.
  induction 1 as [|[[f a] p] rest Ha _ IH]; intros acc i out i' Hacc H.
  - injection H as <- _. exact Hacc.
  - rewrite message_loop_cons in H.
    destruct (encode_symbol self f a p i) as [ss|] eqn:E; [|discriminate].
    cbn [Py.bind] in H. apply IH in H; [exact H|].
    apply Forall_app. split; [exact Hacc|].
    eapply encode_symbol_bounded; [exact Ha | exact E].
Qed.

Lemma message_loop_needs_nonzero self symbols :
  well_formed self -> (1 <= dwell_samples self)%Z ->
  forall st st',
    message_loop self symbols st = Ok st' ->
    Forall (fun s => modulating_freq s <> 0) symbols.
Proof.
  intros Hwf Hd.
  induction symbols as [|[[f a] p] rest IH]; intros [acc i] st' H;
    constructor.
  - unfold modulating_freq; simpl. intros ->.
    rewrite message_loop_cons, encode_symbol_zero_frequency in H by auto.
    discriminate.
  - rewrite message_loop_cons in H.
    destruct (encode_symbol self f a p i); [|discriminate].
    eapply IH; exact H.
Qed.

Lemma message_loop_returns self symbols :
  well_formed self -> hop_count self <> 0%Z ->
  Forall (fun s => modulating_freq s <> 0) symbols ->
  forall st, exists st', message_loop self symbols st = Ok st'.
Proof.
  intros Hwf Hn.
  induction 1 as [|[[f a] p] rest Hf _ IH]; intros [acc i].
  - now exists (acc, i).
  - rewrite message_loop_cons.
    destruct (encode_symbol_returns self f a p i Hwf Hn Hf) as (ss & -> & _).
    apply IH.
Qed.

Lemma message_loop_raises_only self symbols e :
  well_formed self ->
  forall st, message_loop self symbols st = Raise e -> e = ZeroDivisionError.
Proof.
  intros Hwf.
  induction symbols as [|[[f a] p] rest IH]; intros [acc i] H;
    [discriminate|].
  rewrite message_loop_cons in H.
  destruct (encode_symbol self f a p i) eqn:E.
  - eapply IH; exact H.
  - injection H as <-. eapply encode_symbol_raises_only; eauto.
Qed.

Lemma demodulate_returns self carrier_freq samples :
  sample_rate self <> 0%Z ->
  exists iq, demodulate self carrier_freq samples = Ok iq.
Proof.
  intros Hsr. unfold demodulate.
  match goal with
  | |- exists iq, Py.for_each ?b ?items ?s0 = _ =>
      assert (exists iq, Py.for_each b items s0 = Ok iq /\ True)
        as (iq & E & _);
      [apply (for_each_total b (fun _ => True) items); auto
      | now exists iq]
  end.
  intros [ii qq] [i x] _ _. rewrite div_by_int.
  replace (sample_rate self =? 0)%Z with false
    by (symmetry; now apply Z.eqb_neq).
  cbn [Py.bind]. eauto.
Qed.

Lemma demodulate_zero_rate self carrier_freq x samples :
  sample_rate self = 0%Z ->
  demodulate self carrier_freq (x :: samples) = Raise ZeroDivisionError.
Proof.
  intros Hsr. unfold demodulate, Py.enumerate.
  change (length (x :: samples)) with (S (length samples)).
  rewrite range_succ. cbn [combine]. apply for_each_first_raises.
  rewrite div_by_int, Hsr. reflexivity.
Qed.

Lemma decode_symbol_eq self samples hop_index :
  decode_symbol self samples hop_index
  = (carrier_freq <- _get_hop_freq self hop_index ;;
     '(i_samples, q_samples) <- demodulate self carrier_freq samples ;;
     let window := 50%nat in
     let i_filtered :=
       if (window <=? length i_samples)%nat
       then sum (firstn window i_samples) / INR window else 0 in
     let q_filtered :=
       if (window <=? length q_samples)%nat
       then sum (firstn window q_samples) / INR window else 0 in
     Ok (Q2R carrier_freq,
         sqrt (i_filtered ^ 2 + q_filtered ^ 2),
         Py.atan2 q_filtered i_filtered)).
Proof. reflexivity. Qed.

(** C7, as the code has it: the frequency that [decode_symbol] returns is
    the carrier of the hop index, whatever the samples are.  The decoder
    raises only when the carrier lookup does, or when the sample rate is
    zero and a sample has to be placed in time. *)
Theorem decode_symbol_returns_carrier
        (self : FrequencyHopper) (samples : list R) (hop_index : Z) :
  match decode_symbol self samples hop_index with
  | Ok (recovered_freq, _, _) =>
      Py.fmap Q2R (_get_hop_freq self hop_index) = Ok recovered_freq
  | Raise e =>
      _get_hop_freq self hop_index = Raise e
      \/ (e = ZeroDivisionError
          /\ sample_rate self = 0%Z /\ samples <> [])
  end.
Proof.
  rewrite decode_symbol_eq.
  destruct (_get_hop_freq self hop_index) as [c|e]; cbn [Py.bind Py.fmap];
    [|now left].
  destruct (Z.eq_dec (sample_rate self) 0) as [Hsr|Hsr].
  - destruct samples as [|x samples]; [reflexivity|].
    rewrite demodulate_zero_rate by assumption. cbn [Py.bind].
    right. repeat split; auto. discriminate.
  - destruct (demodulate_returns self c samples Hsr) as ([ii qq] & ->).
    reflexivity.
Qed.

(** C7, counterexample: no encoded symbol is decoded to anything but the
    carrier of its hop. *)
Lemma no_symbol_decodes_off_carrier :
  ~ exists (self : FrequencyHopper) (symbol_freq amplitude phase : R)
           (hop_index : Z) (carrier : Q) (samples : list R)
           (recovered amp ph : R),
      _get_hop_freq self hop_index = Ok carrier
      /\ symbol_freq <> Q2R carrier
      /\ encode_symbol self symbol_freq amplitude phase hop_index = Ok samples
      /\ decode_symbol self samples hop_index = Ok (recovered, amp, ph)
      /\ recovered <> Q2R carrier.
Proof.
  intros (self & f & a & p & i & c & samples & r & a' & p'
          & Hc & _ & _ & Hd & Hne).
  rewrite decode_symbol_eq, Hc in Hd. cbn [Py.bind] in Hd.
  destruct (demodulate self c samples) as [[ii qq]|]; [|discriminate].
  injection Hd as <- _ _. now apply Hne.
Qed.

(** C10, as the code has it: a symbol of modulating frequency 0 makes
    [encode_symbol] raise [ZeroDivisionError] when the dwell window holds at
    least one sample, and [encode_message] raises it for every message that
    holds such a symbol. *)
Theorem zero_frequency_symbol_raises
        (self : FrequencyHopper) (amplitude phase : R) (hop_index : Z) :
  well_formed self ->
  (1 <= Py.int_of (inject_Z (sample_rate self) * dwell_time_sec self))%Z ->
  encode_symbol self 0 amplitude phase hop_index = Raise ZeroDivisionError
  /\ (forall symbols start_hop_index,
        Exists (fun s => modulating_freq s = 0) symbols ->
        encode_message self symbols start_hop_index
        = Raise ZeroDivisionError).
Proof.
  intros Hwf Hd. split; [now apply encode_symbol_zero_frequency|].
  intros symbols start Hex. rewrite encode_message_eq.
  destruct (message_loop self symbols ([], start)) as [st|e] eqn:E.
  - apply message_loop_needs_nonzero in E; auto.
    apply Exists_exists in Hex. destruct Hex as (s & Hin & Hs).
    rewrite Forall_forall in E. now destruct (E s Hin).
  - apply message_loop_raises_only in E; auto. now subst e.
Qed.

(** C10 on a hopper of three channels with the default dwell of 10 ms. *)
Lemma zero_frequency_symbol_raises_witness :
  exists h,
    __init__ (repeat x00 32) (Some (bytes_of_string "key"))
             (20000%Q, 20300%Q) default_dwell_time_ms default_hop_spacing_hz
             default_sample_rate = Ok h
    /\ encode_symbol h 0 1 0 0 = Raise ZeroDivisionError.
Proof.
  eexists. split; [vm_compute; reflexivity|].
  apply zero_frequency_symbol_raises;
    [reflexivity | vm_compute; discriminate].
Defined.

(** C10, counterexample: with a dwell time of 0 ms no sample is computed
    and a symbol of frequency 0 is encoded as the empty waveform. *)
Lemma zero_frequency_symbol_empty_dwell :
  exists h,
    __init__ (repeat x00 32) (Some (bytes_of_string "key"))
             (20000%Q, 20300%Q) 0 default_hop_spacing_hz
             default_sample_rate = Ok h
    /\ encode_symbol h 0 1 0 0 = Ok [].
Proof.
  eexists. split; [vm_compute; reflexivity|].
  unfold encode_symbol.
  match goal with
  | |- context [_get_hop_freq ?h ?i] =>
      destruct (get_hop_freq_total h i) as (c & -> & _);
      [reflexivity | discriminate |]
  end.
  reflexivity.
Qed.

End HoppedSymbols.

(* ================================================================== *)
(** ** The constellation of [_qam_constellation] *)

Module Constellation.
Import UltrasonicCompression Points.
Local Open Scope R_scope.

Lemma init_eq (sr n : Z) (m : string) o :
  __init__ sr n m = Ok o ->
  exists levels,
    In (m, levels) QAM_LEVELS
    /\ o = {| sample_rate := sr;
              num_carriers := n;
              modulation := m;
              bits_per_symbol := Z.log2 levels;
              carrier_freqs :=
                map (fun i => OFDM_MIN_FREQ
                              + inject_Z i * OFDM_CARRIER_SPACING)%Q
                    (Py.range n) |}.
Proof.
  unfold __init__. intros H.
  assert (forall d, lookup d m = Raise KeyError \/
                    exists v, lookup d m = Ok v /\ In (m, v) d) as Hl.
  { induction d as [|[k v] d IH]; simpl; [now left|].
    destruct (String.eqb m k) eqn:E.
    - apply String.eqb_eq in E. subst k. right. exists v. auto.
    - destruct IH as [IH|(v' & IH & Hin)]; [now left|].
      right. exists v'. auto. }
  destruct (Hl QAM_LEVELS) as [E|(v & E & Hin)]; rewrite E in H;
    [discriminate|].
  injection H as <-. exists v. auto.
Qed.

Lemma modulation_cases (sr n : Z) (m : string) o :
  __init__ sr n m = Ok o ->
  (modulation o = "BPSK"%string /\ bits_per_symbol o = 1%Z)
  \/ (modulation o = "QPSK"%string /\ bits_per_symbol o = 2%Z)
  \/ (modulation o = "16QAM"%string /\ bits_per_symbol o = 4%Z)
  \/ (modulation o = "64QAM"%string /\ bits_per_symbol o = 6%Z).
Proof.
  intros H. apply init_eq in H. destruct H as (levels & Hin & ->).
  simpl in Hin.
  destruct Hin as [E|[E|[E|[E|[]]]]]; injection E as <- <-; simpl; auto.
Qed.

Lemma land_small (symbol : Z) (k : Z) :
  (0 <= k)%Z -> (0 <= Z.land symbol (Z.ones k) < 2 ^ k)%Z.
Proof.
  intros Hk. rewrite Z.land_ones by assumption.
  apply Z.mod_pos_bound. now apply Z.pow_pos_nonneg.
Qed.

(** An index masked to two bits reads one of the four levels. *)
Lemma level_of_4 (x : Z) :
  exists l, Py.getitem [-3; -1; 1; 3]%Z (Z.land x 3) = Ok l
            /\ (l = -3 \/ l = -1 \/ l = 1 \/ l = 3)%Z.
Proof.
  pose proof (land_small x 2 ltac:(lia)) as H.
  change (Z.ones 2) with 3%Z in H. change (2 ^ 2)%Z with 4%Z in H.
  remember (Z.land x 3) as k eqn:Ek. clear Ek.
  assert (k = 0 \/ k = 1 \/ k = 2 \/ k = 3)%Z as Hk by lia.
  destruct Hk as [ -> | [ -> | [ -> | -> ]]]; eexists; (split; [reflexivity|]); auto.
Qed.

(** An index masked to three bits reads one of the eight levels. *)
Lemma level_of_8 (x : Z) :
  exists l, Py.getitem [-7; -5; -3; -1; 1; 3; 5; 7]%Z (Z.land x 7) = Ok l
            /\ (-7 <= l <= 7)%Z.
Proof.
  pose proof (land_small x 3 ltac:(lia)) as H.
  change (Z.ones 3) with 7%Z in H. change (2 ^ 3)%Z with 8%Z in H.
  remember (Z.land x 7) as k eqn:Ek. clear Ek.
  assert (k = 0 \/ k = 1 \/ k = 2 \/ k = 3 \/ k = 4 \/ k = 5 \/ k = 6 \/ k = 7)%Z
    as Hk by lia.
  destruct Hk as [ -> | [ -> | [ -> | [ -> | [ -> | [ -> | [ -> | -> ]]]]]]];
    eexists; (split; [reflexivity|]); lia.
Qed.

Lemma angle_of_4 (symbol : Z) :
  (0 <= symbol < 4)%Z ->
  exists a, Py.getitem [45; 135; 225; 315]%Z symbol = Ok a.
Proof.
  intros H.
  assert (symbol = 0 \/ symbol = 1 \/ symbol = 2 \/ symbol = 3)%Z as Hk by lia.
  destruct Hk as [ -> | [ -> | [ -> | -> ]]]; eexists; reflexivity.
Qed.

Section PointOf.
Variable self : UltrasonicOFDM.

Lemma bpsk_point symbol :
  modulation self = "BPSK"%string ->
  exists i, _qam_constellation self symbol = Ok (i, 0)
            /\ (i = 1 \/ i = -1).
Proof.
  intros Hm. unfold _qam_constellation. rewrite Hm. cbn [String.eqb Ascii.eqb Bool.eqb].
  destruct (symbol =? 1)%Z; eexists; split; eauto.
Qed.

Lemma qpsk_point symbol :
  modulation self = "QPSK"%string -> (0 <= symbol < 4)%Z ->
  exists angle, _qam_constellation self symbol = Ok (cos angle, sin angle).
Proof.
  intros Hm Hs. unfold _qam_constellation. rewrite Hm.
  cbn [String.eqb Ascii.eqb Bool.eqb].
  destruct (angle_of_4 symbol Hs) as (a & ->). cbn [Py.bind].
  eexists; reflexivity.
Qed.

Lemma qam16_point symbol :
  modulation self = "16QAM"%string ->
  exists li lq : Z,
    _qam_constellation self symbol = Ok (IZR li / 3, IZR lq / 3)
    /\ (-3 <= li <= 3)%Z /\ (-3 <= lq <= 3)%Z.
Proof.
  intros Hm. unfold _qam_constellation. rewrite Hm.
  cbn [String.eqb Ascii.eqb Bool.eqb].
  destruct (level_of_4 symbol) as (li & -> & Hi).
  destruct (level_of_4 (Z.shiftr symbol 2)) as (lq & -> & Hq).
  cbn [Py.bind]. exists li, lq. repeat split; lia.
Qed.

Lemma qam64_point symbol :
  modulation self = "64QAM"%string ->
  exists li lq : Z,
    _qam_constellation self symbol = Ok (IZR li / 7, IZR lq / 7)
    /\ (-7 <= li <= 7)%Z /\ (-7 <= lq <= 7)%Z.
Proof.
  intros Hm. unfold _qam_constellation. rewrite Hm.
  cbn [String.eqb Ascii.eqb Bool.eqb].
  destruct (level_of_8 symbol) as (li & -> & Hi).
  destruct (level_of_8 (Z.shiftr symbol 3)) as (lq & -> & Hq).
  cbn [Py.bind]. exists li, lq. repeat split; lia.
Qed.

End PointOf.

Lemma norm_unit_square (p : R * R) :
  in_unit_square p -> norm p <= sqrt 2.
Proof.
  intros [Hi Hq]. unfold norm. apply sqrt_le_1_alt. unfold norm2. nra.
Qed.

Lemma norm_corner : norm (1, 1) = sqrt 2.
Proof. unfold norm, norm2; simpl. f_equal. lra. Qed.

Lemma sqrt2_not_one : sqrt 2 <> 1.
Proof.
  intros H. pose proof (sqrt_sqrt 2 ltac:(lra)) as H2.
  rewrite H in H2. lra.
Qed.

Lemma scaled_level (l k : Z) :
  (0 < k)%Z -> (- k <= l <= k)%Z -> -1 <= IZR l / IZR k <= 1.
Proof.
  intros Hk [Hlo Hhi].
  apply IZR_lt in Hk. apply IZR_le in Hlo, Hhi. rewrite opp_IZR in Hlo.
  split.
  - apply Rle_trans with (- IZR k / IZR k).
    + right. field. lra.
    + unfold Rdiv. apply Rmult_le_compat_r; [|lra].
      left. now apply Rinv_0_lt_compat.
  - apply Rle_trans with (IZR k / IZR k).
    + unfold Rdiv. apply Rmult_le_compat_r; [|lra].
      left. now apply Rinv_0_lt_compat.
    + right. field. lra.
Qed.

(** Every point of a constructed encoder's constellation, with its place
    in the unit square. *)
Lemma point_in_unit_square (sr n : Z) (m : string) o symbol :
  __init__ sr n m = Ok o -> bit_group o symbol ->
  exists p, _qam_constellation o symbol = Ok p /\ in_unit_square p.
Proof.
  intros Ho Hs. unfold bit_group in Hs.
  destruct (modulation_cases _ _ _ _ Ho)
    as [[Hm Hb]|[[Hm Hb]|[[Hm Hb]|[Hm Hb]]]]; rewrite Hb in Hs.
  - destruct (bpsk_point o symbol Hm) as (i & -> & Hi).
    eexists; split; [reflexivity|]. unfold in_unit_square; simpl.
    destruct Hi; subst i; lra.
  - destruct (qpsk_point o symbol Hm Hs) as (a & ->).
    eexists; split; [reflexivity|]. unfold in_unit_square; simpl.
    split; [apply COS_bound | apply SIN_bound].
  - destruct (qam16_point o symbol Hm) as (li & lq & -> & Hi & Hq).
    eexists; split; [reflexivity|]. unfold in_unit_square; simpl.
    split; apply (scaled_level _ 3); lia.
  - destruct (qam64_point o symbol Hm) as (li & lq & -> & Hi & Hq).
    eexists; split; [reflexivity|]. unfold in_unit_square; simpl.
    split; apply (scaled_level _ 7); lia.
Qed.

Lemma psk_unit_norm (sr n : Z) (m : string) o symbol p :
  __init__ sr n m = Ok o -> bit_group o symbol ->
  m = "BPSK"%string \/ m = "QPSK"%string ->
  _qam_constellation o symbol = Ok p -> norm p = 1.
Proof.
  intros Ho Hs Hm Hp. unfold bit_group in Hs.
  destruct (init_eq _ _ _ _ Ho) as (levels & Hin & Eo).
  assert (modulation o = m) as Em by (subst o; reflexivity).
  destruct Hm as [->| ->].
  - destruct (bpsk_point o symbol Em) as (i & E & Hi).
    rewrite E in Hp. injection Hp as <-. unfold norm, norm2; simpl.
    replace (i * i + 0 * 0) with 1 by (destruct Hi; subst i; lra).
    apply sqrt_1.
  - assert (bits_per_symbol o = 2%Z) as Hb.
    { destruct (modulation_cases _ _ _ _ Ho)
        as [[Hm _]|[[_ Hb]|[[Hm _]|[Hm _]]]]; auto; congruence. }
    rewrite Hb in Hs.
    destruct (qpsk_point o symbol Em Hs) as (a & E).
    rewrite E in Hp. injection Hp as <-. unfold norm, norm2; simpl.
    replace (cos a * cos a + sin a * sin a) with 1; [apply sqrt_1|].
    pose proof (sin2_cos2 a) as H. unfold Rsqr in H. lra.
Qed.

Lemma qam_corner (sr n : Z) (m : string) o :
  __init__ sr n m = Ok o ->
  (m = "16QAM"%string -> _qam_constellation o 15 = Ok (1, 1))
  /\ (m = "64QAM"%string -> _qam_constellation o 63 = Ok (1, 1)).
Proof.
  intros Ho. destruct (init_eq _ _ _ _ Ho) as (levels & Hin & Eo).
  assert (modulation o = m) as Em by (subst o; reflexivity).
  split; intros ->; unfold _qam_constellation; rewrite Em;
    cbn [String.eqb Ascii.eqb Bool.eqb].
  - change (Z.land 15 3) with 3%Z. change (Z.land (Z.shiftr 15 2) 3) with 3%Z.
    replace (Py.getitem [-3; -1; 1; 3]%Z 3) with (@Ok Z 3%Z) by reflexivity.
    cbn [Py.bind]. apply f_equal. apply f_equal2; lra.
  - change (Z.land 63 7) with 7%Z. change (Z.land (Z.shiftr 63 3) 7) with 7%Z.
    replace (Py.getitem [-7; -5; -3; -1; 1; 3; 5; 7]%Z 7) with (@Ok Z 7%Z)
      by reflexivity.
    cbn [Py.bind]. apply f_equal. apply f_equal2; lra.
Qed.

(** C5, as the code has it: every bit-group is mapped to a point of the
    unit square; BPSK and QPSK points have norm 1; the 16QAM and 64QAM
    grids are scaled per axis, their points have norm at most [sqrt 2] and
    the corner [(1, 1)], of norm [sqrt 2], is one of them. *)
Theorem constellation_in_unit_square
        (sr n : Z) (m : string) (o : UltrasonicOFDM) (symbol : Z) :
  __init__ sr n m = Ok o ->
  bit_group o symbol ->
  (exists p,
      _qam_constellation o symbol = Ok p
      /\ in_unit_square p
      /\ (m = "BPSK"%string \/ m = "QPSK"%string -> norm p = 1)
      /\ norm p <= sqrt 2)
  /\ (m = "16QAM"%string -> _qam_constellation o 15 = Ok (1, 1))
  /\ (m = "64QAM"%string -> _qam_constellation o 63 = Ok (1, 1))
  /\ norm (1, 1) = sqrt 2.
Proof.
  intros Ho Hs. split; [|split; [|split]].
  - destruct (point_in_unit_square _ _ _ _ _ Ho Hs) as (p & Hp & Hsq).
    exists p. repeat split; try apply Hsq; auto.
    + intros Hm. eapply psk_unit_norm; eauto.
    + now apply norm_unit_square.
  - apply (qam_corner _ _ _ _ Ho).
  - apply (qam_corner _ _ _ _ Ho).
  - apply norm_corner.
Qed.

(** C5 at the default encoder with 16QAM, bit-group 15. *)
Lemma constellation_in_unit_square_witness :
  exists o,
    __init__ SAMPLE_RATE OFDM_NUM_CARRIERS "16QAM" = Ok o
    /\ bit_group o 15
    /\ _qam_constellation o 15 = Ok (1, 1).
Proof.
  eexists. split; [reflexivity|]. split; [unfold bit_group; simpl; lia|].
  refine (proj1 (proj2 (constellation_in_unit_square
                          SAMPLE_RATE OFDM_NUM_CARRIERS "16QAM" _ 15
                          eq_refl _)) eq_refl).
  unfold bit_group; simpl; lia.
Defined.

(** C5, counterexample: the point of largest norm of the 16QAM
    constellation is the corner [(1, 1)], bit-group 15, and its norm is
    [sqrt 2], not 1. *)
Lemma qam16_largest_point_not_unit :
  exists o,
    __init__ SAMPLE_RATE OFDM_NUM_CARRIERS "16QAM" = Ok o
    /\ bit_group o 15
    /\ _qam_constellation o 15 = Ok (1, 1)
    /\ (forall symbol p, bit_group o symbol ->
                         _qam_constellation o symbol = Ok p ->
                         norm p <= norm (1, 1))
    /\ norm (1, 1) <> 1.
Proof.
  eexists. split; [reflexivity|]. split; [unfold bit_group; simpl; lia|].
  split; [|split].
  - apply (proj1 (qam_corner SAMPLE_RATE OFDM_NUM_CARRIERS "16QAM" _ eq_refl)).
    reflexivity.
  - intros symbol p Hs Hp. rewrite norm_corner.
    destruct (point_in_unit_square SAMPLE_RATE OFDM_NUM_CARRIERS "16QAM"
                                   _ symbol eq_refl Hs) as (p' & Hp' & Hsq).
    rewrite Hp in Hp'. injection Hp' as <-. now apply norm_unit_square.
  - rewrite norm_corner. apply sqrt2_not_one.
Qed.

End Constellation.

(* ================================================================== *)
(** ** Transmission statistics *)

Module Stats.
Import UltrasonicCompression.

Lemma quotient_is_zero (a b : Z) :
  Py.is_zero (inject_Z a / inject_Z b) = ((a =? 0) || (b =? 0))%Z%bool.
Proof.
  unfold Py.is_zero, Qdiv, Qinv, Qmult, inject_Z; simpl.
  destruct b as [|p|p]; simpl.
  - rewrite Z.mul_0_r. now rewrite orb_true_r.
  - rewrite Z.mul_1_r, orb_false_r. reflexivity.
  - rewrite orb_false_r. destruct a; reflexivity.
Qed.

Lemma calculate_stats_empty (self : UltrasonicOFDM) (data : Py.bytes) :
  calculate_stats self data [] = Raise ZeroDivisionError.
Proof.
  unfold calculate_stats. rewrite HoppedSymbols.div_by_int.
  destruct (sample_rate self =? 0)%Z; [reflexivity|].
  cbn [Py.bind]. unfold Py.div at 1. now rewrite quotient_is_zero.
Qed.

(** C8, as the code has it: [calculate_stats] has no guard.  It raises
    [ZeroDivisionError] when the sample rate is 0 or the waveform has no
    sample, and otherwise returns the duration [len(samples) / sample_rate],
    the efficiency [(8 * len(data) / duration) / OFDM_BANDWIDTH] and the
    bitrate [int(8 * len(data) / duration)].  The code truncates a quotient
    that it has rounded twice, so the integer it returns can be one off the
    truncated exact quotient: the bitrate is stated within 1 of it. *)
Theorem calculate_stats_unguarded
        (self : UltrasonicOFDM) (data : Py.bytes) (samples : list R) :
  let payload_bits := inject_Z (Z.of_nat (length data) * 8) in
  let duration :=
    (inject_Z (Z.of_nat (length samples)) / inject_Z (sample_rate self))%Q in
  (sample_rate self = 0%Z \/ samples = [] ->
   calculate_stats self data samples = Raise ZeroDivisionError)
  /\ (sample_rate self <> 0%Z -> samples <> [] ->
      exists stats,
        calculate_stats self data samples = Ok stats
        /\ raw_bytes stats = Z.of_nat (length data)
        /\ compressed_bytes stats = Z.of_nat (length data)
        /\ (compression_ratio stats == 1)%Q
        /\ (transmission_time stats == duration)%Q
        /\ (Z.abs (bitrate_bps stats - Py.int_of (payload_bits / duration)%Q)
            <= 1)%Z
        /\ (efficiency stats == payload_bits / duration / OFDM_BANDWIDTH)%Q).
Proof.
  cbv zeta. unfold calculate_stats. rewrite HoppedSymbols.div_by_int.
  split.
  - intros [H| ->].
    + now rewrite H.
    + destruct (sample_rate self =? 0)%Z; [reflexivity|].
      cbn [Py.bind]. unfold Py.div at 1.
      now rewrite quotient_is_zero.
  - intros Hsr Hs.
    replace (sample_rate self =? 0)%Z with false
      by (symmetry; now apply Z.eqb_neq).
    cbn [Py.bind]. unfold Py.div at 1. rewrite quotient_is_zero.
    replace (sample_rate self =? 0)%Z with false
      by (symmetry; now apply Z.eqb_neq).
    replace (Z.of_nat (length samples) =? 0)%Z with false
      by (symmetry; apply Z.eqb_neq; destruct samples; [congruence|simpl; lia]).
    cbn [orb Py.bind]. unfold Py.div.
    change (Py.is_zero OFDM_BANDWIDTH) with false. cbn [Py.bind].
    eexists. split; [reflexivity|].
    cbn [raw_bytes compressed_bytes compression_ratio transmission_time
         bitrate_bps efficiency].
    rewrite Z.sub_diag.
    repeat split; try reflexivity. simpl. lia.
Qed.

(** C8, counterexample: the statistics of an empty waveform end in
    [ZeroDivisionError], not in [ConfigError]. *)
Lemma stats_of_empty_waveform :
  exists o,
    __init__ SAMPLE_RATE OFDM_NUM_CARRIERS "QPSK" = Ok o
    /\ calculate_stats o (bytes_of_string "A") [] = Raise ZeroDivisionError
    /\ calculate_stats o (bytes_of_string "A") [] <> Raise ConfigError.
Proof.
  eexists. split; [reflexivity|].
  rewrite calculate_stats_empty. split; [reflexivity | discriminate].
Qed.

End Stats.

(* ================================================================== *)
(** ** Carriers and the sample rate *)

Module Nyquist.
Import Frame.

Lemma ofdm_init_returns (sr n : Z) (m : string) :
  In m modulation_names ->
  exists o,
    UltrasonicCompression.__init__ sr n m = Ok o
    /\ UltrasonicCompression.sample_rate o = sr
    /\ UltrasonicCompression.carrier_freqs o
       = map (fun i => UltrasonicCompression.OFDM_MIN_FREQ
                       + inject_Z i
                         * UltrasonicCompression.OFDM_CARRIER_SPACING)%Q
             (Py.range n).
Proof.
  intros Hm. simpl in Hm.
  destruct Hm as [<-|[<-|[<-|[<-|[]]]]]; eexists; split; try reflexivity;
    split; reflexivity.
Qed.

Lemma ofdm_init_raises_only (sr n : Z) (m : string) e :
  UltrasonicCompression.__init__ sr n m = Raise e -> e = KeyError.
Proof.
  unfold UltrasonicCompression.__init__.
  assert (forall d, UltrasonicCompression.lookup d m = Raise KeyError
                    \/ exists v, UltrasonicCompression.lookup d m = Ok v)
    as Hl.
  { induction d as [|[k v] d IH]; simpl; [now left|].
    destruct (String.eqb m k); [right; now exists v | exact IH]. }
  destruct (Hl UltrasonicCompression.QAM_LEVELS) as [->|(v & ->)];
    cbn [Py.bind]; [now intros [= <-] | discriminate].
Qed.

(** C3, as the code has it: no constructor compares a carrier with the
    sample rate.  The hop table of a [FrequencyHopper] and the outcome of
    its construction are the same for every sample rate; an
    [UltrasonicOFDM] is built for every sample rate and carrier count when
    the modulation is one of the four names, over the carriers
    [25000 + i * 312.5]; neither raises [NyquistViolation]. *)
Theorem constructors_ignore_sample_rate
        (os_random : Py.bytes) (secret_key : option Py.bytes)
        (hop_range : Q * Q) (dwell_time_ms hop_spacing_hz : Q)
        (sample_rate sample_rate' : Z) (num_carriers : Z) (m : string) :
  Py.fmap FrequencyHopping.hop_frequencies
          (FrequencyHopping.__init__ os_random secret_key hop_range
                                     dwell_time_ms hop_spacing_hz sample_rate)
  = Py.fmap FrequencyHopping.hop_frequencies
            (FrequencyHopping.__init__ os_random secret_key hop_range
                                       dwell_time_ms hop_spacing_hz
                                       sample_rate')
  /\ FrequencyHopping.__init__ os_random secret_key hop_range dwell_time_ms
                              hop_spacing_hz sample_rate
     <> Raise NyquistViolation
  /\ UltrasonicCompression.__init__ sample_rate num_carriers m
     <> Raise NyquistViolation
  /\ (In m modulation_names ->
      exists o,
        UltrasonicCompression.__init__ sample_rate num_carriers m = Ok o
        /\ UltrasonicCompression.sample_rate o = sample_rate
        /\ UltrasonicCompression.carrier_freqs o
           = map (fun i => UltrasonicCompression.OFDM_MIN_FREQ
                           + inject_Z i
                             * UltrasonicCompression.OFDM_CARRIER_SPACING)%Q
                 (Py.range num_carriers)).
Proof.
  split; [|split; [|split]].
  - unfold FrequencyHopping.__init__.
    destruct (FrequencyHopping._generate_hop_table _ _ _); reflexivity.
  - intros H. apply HopperProperties.init_raises_only in H.
    destruct H; discriminate.
  - intros H. apply ofdm_init_raises_only in H. discriminate.
  - apply ofdm_init_returns.
Qed.

(** C3, counterexample: a hopper whose only carrier is 96000 Hz is built
    at the sample rate 192000 and encodes a symbol on that carrier; an
    encoder at the sample rate 50000 is built over carriers that start at
    25000 Hz. *)
Lemma carriers_at_half_sample_rate_accepted :
  (exists h samples,
      FrequencyHopping.__init__
        (repeat x00 32) (Some (Hashlib.sha256 (bytes_of_string "test")))
        (96000%Q, 96100%Q) 10 100 192000 = Ok h
      /\ FrequencyHopping.hop_frequencies h = [96000%Q]
      /\ (inject_Z (FrequencyHopping.sample_rate h) / 2 <= 96000)%Q
      /\ FrequencyHopping.encode_symbol h 1000 1 0 0 = Ok samples
      /\ length samples = 1920%nat)
  /\ (exists o f,
         UltrasonicCompression.__init__ 50000 64 "QPSK" = Ok o
         /\ Py.getitem (UltrasonicCompression.carrier_freqs o) 0 = Ok f
         /\ (inject_Z (UltrasonicCompression.sample_rate o) / 2 <= f)%Q).
Proof.
  split.
  - eexists.
    match goal with
    | |- exists samples, ?I = Ok ?h /\ _ =>
        assert (I = Ok h) as Hh by (vm_compute; reflexivity)
    end.
    match type of Hh with
    | _ = Ok ?h =>
        destruct (HoppedSymbols.encode_symbol_returns h 1000 1 0 0)
        as (samples & Es & Hlen);
        [reflexivity | discriminate | lra |]
    end.
    exists samples. split; [exact Hh|]. split; [reflexivity|].
    split; [vm_compute; discriminate|]. split; [exact Es|].
    rewrite Hlen. reflexivity.
  - eexists. eexists. split; [reflexivity|].
    split; [vm_compute; reflexivity | vm_compute; discriminate].
Qed.

End Nyquist.

(* ================================================================== *)
(** ** Multi-carrier frames *)

Module Frames.
Import UltrasonicCompression Points Frame Constellation.

Local Open Scope Z_scope.

(** *** Bits and symbols *)

Lemma pad_bits_appends (fuel : nat) :
  forall bits m, m <> 0 ->
    exists k, pad_bits fuel bits m = Ok (bits ++ repeat 0 k).
Proof.
  induction fuel as [|fuel IH]; intros bits m Hm; simpl;
    unfold Py.mod_; replace (m =? 0) with false
      by (symmetry; now apply Z.eqb_neq); cbn [Py.bind].
  - exists 0%nat. rewrite app_nil_r. now destruct (_ =? 0).
  - destruct (_ =? 0).
    + exists 0%nat. now rewrite app_nil_r.
    + destruct (IH (bits ++ [0]) m Hm) as (k & ->).
      exists (S k). now rewrite <- app_assoc.
Qed.

Lemma pad_bits_zero_modulus fuel bits :
  pad_bits fuel bits 0 = Raise ZeroDivisionError.
Proof. destruct fuel; reflexivity. Qed.

(** The fuel [|m|] is enough: the padded length is a multiple of [m]. *)
Lemma pad_bits_aligned_within (fuel : nat) :
  forall bits m j padded,
    m <> 0 -> 0 <= j <= Z.of_nat fuel ->
    (Z.of_nat (length bits) + j) mod m = 0 ->
    pad_bits fuel bits m = Ok padded ->
    Z.of_nat (length padded) mod m = 0.
Proof.
  induction fuel as [|fuel IH]; intros bits m j padded Hm Hj Hal;
    simpl; unfold Py.mod_; replace (m =? 0) with false
      by (symmetry; now apply Z.eqb_neq); cbn [Py.bind].
  - assert (j = 0) by lia. subst j. rewrite Z.add_0_r in Hal.
    rewrite Hal. simpl. now intros [= <-].
  - destruct (Z.of_nat (length bits) mod m =? 0) eqn:E.
    + apply Z.eqb_eq in E. now intros [= <-].
    + apply Z.eqb_neq in E. apply (IH _ m (j - 1)); auto.
      * assert (j <> 0) by (intros ->; rewrite Z.add_0_r in Hal; auto). lia.
      * rewrite length_app; simpl.
        replace (Z.of_nat (length bits + 1) + (j - 1))
          with (Z.of_nat (length bits) + j) by lia.
        exact Hal.
Qed.

Lemma pad_bits_aligned bits m padded :
  pad_bits (Z.abs_nat m) bits m = Ok padded ->
  Z.of_nat (length padded) mod m = 0.
Proof.
  intros H. destruct (Z.eq_dec m 0) as [->|Hm].
  { now rewrite pad_bits_zero_modulus in H. }
  set (n := Z.of_nat (length bits)) in *.
  apply (pad_bits_aligned_within (Z.abs_nat m) bits m
                                 ((- n) mod Z.abs m) padded); auto.
  - pose proof (Z.mod_pos_bound (- n) (Z.abs m) ltac:(lia)). lia.
  - fold n. apply Z.mod_divide; [exact Hm|].
    apply Z.divide_abs_l.
    apply Z.mod_divide; [lia|].
    rewrite Zplus_mod_idemp_r. replace (n + - n) with 0 by lia.
    apply Z.mod_0_l. lia.
Qed.

Lemma byte_bits_are_bits b : Forall is_bit (byte_bits b).
Proof.
  unfold byte_bits. apply Forall_forall. intros x Hx.
  apply in_map_iff in Hx. destruct Hx as (i & <- & _).
  pose proof (land_small (Z.shiftr (Hashlib.byte_val b) i) 1 ltac:(lia)) as H.
  change (Z.ones 1) with 1 in H. change (2 ^ 1) with 2 in H.
  unfold is_bit. lia.
Qed.

Lemma data_bits_are_bits data : Forall is_bit (flat_map byte_bits data).
Proof.
  induction data as [|b data IH]; cbn [flat_map]; [constructor|].
  apply Forall_app. split; [apply byte_bits_are_bits | exact IH].
Qed.

Lemma Forall_slice {A} (P : A -> Prop) (l : list A) a b :
  Forall P l -> Forall P (Py.slice l a b).
Proof.
  intros H. unfold Py.slice.
  set (n := Z.to_nat (_ - _)). set (lo := Z.to_nat _).
  rewrite <- (firstn_skipn lo l) in H. apply Forall_app in H.
  destruct H as [_ H].
  rewrite <- (firstn_skipn n (skipn lo l)) in H. apply Forall_app in H.
  apply H.
Qed.

Lemma length_slice {A} (l : list A) a b :
  0 <= a <= b -> (length (Py.slice l a b) <= Z.to_nat (b - a))%nat.
Proof.
  intros H. unfold Py.slice, Py.clip_index.
  replace (a <? 0) with false by (symmetry; apply Z.ltb_ge; lia).
  replace (b <? 0) with false by (symmetry; apply Z.ltb_ge; lia).
  rewrite length_firstn. lia.
Qed.

(** The value of a group of [n] bits is below [2 ^ n]. *)
Lemma symbol_fold_bound (l : list Z) :
  Forall is_bit l ->
  forall (k : nat) acc,
    0 <= acc < 2 ^ Z.of_nat k ->
    0 <= fold_left (fun acc '(i, b) => acc + Z.shiftl b i)
                   (combine (map Z.of_nat (seq k (length l))) l) acc
      < 2 ^ Z.of_nat (k + length l).
Proof.
  induction 1 as [|b l Hb _ IH]; intros k acc Hacc; simpl.
  - now rewrite Nat.add_0_r.
  - replace (k + S (length l))%nat with (S k + length l)%nat by lia.
    apply IH. rewrite Z.shiftl_mul_pow2 by lia.
    rewrite Nat2Z.inj_succ, Z.pow_succ_r by lia.
    destruct Hb as [-> | ->]; lia.
Qed.

Lemma symbol_of_bits_bound (l : list Z) :
  Forall is_bit l -> 0 <= symbol_of_bits l < 2 ^ Z.of_nat (length l).
Proof.
  intros H. unfold symbol_of_bits, Py.enumerate, Py.range.
  rewrite Nat2Z.id.
  apply (symbol_fold_bound l H 0 0). simpl. lia.
Qed.

Lemma bytes_to_symbols_zero_width self data :
  bits_per_ofdm_symbol self = 0 ->
  _bytes_to_symbols self data = Raise ZeroDivisionError.
Proof.
  unfold bits_per_ofdm_symbol, _bytes_to_symbols. intros ->.
  now rewrite pad_bits_zero_modulus.
Qed.

(** Every frame holds one bit-group per carrier. *)
Lemma bytes_to_symbols_returns self data :
  bits_per_ofdm_symbol self <> 0 -> 0 <= bits_per_symbol self ->
  exists ofdm_symbols,
    _bytes_to_symbols self data = Ok ofdm_symbols
    /\ Forall (fun ofdm_symbol =>
                 length ofdm_symbol = Z.to_nat (num_carriers self)
                 /\ Forall (bit_group self) ofdm_symbol)
              ofdm_symbols.
Proof.
  intros Hw Hb. unfold _bytes_to_symbols.
  fold (bits_per_ofdm_symbol self).
  destruct (pad_bits_appends (Z.abs_nat (bits_per_ofdm_symbol self))
              (flat_map byte_bits data) _ Hw) as (k & ->).
  cbn [Py.bind].
  set (bits := flat_map byte_bits data ++ repeat 0 k).
  assert (Forall is_bit bits) as Hbits.
  { apply Forall_app. split; [apply data_bits_are_bits|].
    apply Forall_forall. intros x Hx. apply repeat_spec in Hx. now left. }
  unfold Py.range_step.
  replace (bits_per_ofdm_symbol self =? 0) with false
    by (symmetry; now apply Z.eqb_neq).
  destruct (bits_per_ofdm_symbol self <? 0) eqn:Hneg; cbn [Py.bind].
  { eexists; split; [reflexivity | constructor]. }
  apply Z.ltb_ge in Hneg.
  eexists; split; [reflexivity|].
  apply Forall_forall. intros frame Hframe.
  apply in_map_iff in Hframe. destruct Hframe as (ofdm_idx & <- & Hidx).
  apply in_map_iff in Hidx. destruct Hidx as (j & <- & Hj).
  apply HoppedSymbols.In_range in Hj.
  split; [now rewrite length_map, length_range|].
  apply Forall_forall. intros symbol Hsym.
  apply in_map_iff in Hsym. destruct Hsym as (carrier_idx & <- & Hc).
  apply HoppedSymbols.In_range in Hc.
  set (bit_start := j * bits_per_ofdm_symbol self
                    + carrier_idx * bits_per_symbol self).
  pose proof (symbol_of_bits_bound
                (Py.slice bits bit_start (bit_start + bits_per_symbol self))
                (Forall_slice _ _ _ _ Hbits)) as Hbound.
  pose proof (length_slice bits bit_start (bit_start + bits_per_symbol self))
    as Hlen.
  assert (0 <= bit_start) as Hstart by (subst bit_start; nia).
  specialize (Hlen ltac:(lia)).
  unfold bit_group. split; [lia|].
  eapply Z.lt_le_trans; [apply Hbound|].
  apply Z.pow_le_mono_r; lia.
Qed.

(** *** One sample *)

Local Open Scope R_scope.

Lemma Rabs_le_sqrt2 (i q x : R) :
  -1 <= i <= 1 -> -1 <= q <= 1 -> Rabs (i * cos x + q * sin x) <= sqrt 2.
Proof.
  intros Hi Hq. rewrite <- sqrt_Rsqr_abs. apply sqrt_le_1_alt.
  pose proof (sin2_cos2 x) as H. unfold Rsqr in *.
  set (c := cos x) in *. set (s := sin x) in *.
  pose proof (Rle_0_sqr (i * s - q * c)) as Hsq. unfold Rsqr in Hsq.
  replace ((i * c + q * s) * (i * c + q * s))
    with ((i * i + q * q) * (s * s + c * c)
          - (i * s - q * c) * (i * s - q * c)) by ring.
  rewrite H.
  assert (i * i <= 1) by nra. assert (q * q <= 1) by nra. lra.
Qed.

Lemma psk_term_bound (sr n : Z) (m : string) o :
  __init__ sr n m = Ok o ->
  m = "BPSK"%string \/ m = "QPSK"%string -> term_bound o 1.
Proof.
  intros Ho Hm symbol p x Hp.
  destruct (init_eq _ _ _ _ Ho) as (levels & Hin & Eo).
  assert (modulation o = m) as Em by (subst o; reflexivity).
  destruct Hm as [-> | ->].
  - destruct (bpsk_point o symbol Em) as (i & E & Hi).
    rewrite E in Hp. injection Hp as <-. simpl.
    pose proof (COS_bound x). apply Rabs_le.
    destruct Hi; subst i; lra.
  - unfold _qam_constellation in Hp. rewrite Em in Hp.
    cbn [String.eqb Ascii.eqb Bool.eqb] in Hp.
    destruct (Py.getitem _ symbol) as [a|]; [|discriminate].
    injection Hp as <-. simpl. rewrite <- cos_minus.
    apply Rabs_le. apply COS_bound.
Qed.

Lemma qam_term_bound (sr n : Z) (m : string) o :
  __init__ sr n m = Ok o -> term_bound o (sqrt 2).
Proof.
  intros Ho symbol p x Hp.
  assert (in_unit_square p) as [Hi Hq]; [|now apply Rabs_le_sqrt2].
  destruct (modulation_cases _ _ _ _ Ho)
    as [[Hm Hb]|[[Hm Hb]|[[Hm Hb]|[Hm Hb]]]].
  - destruct (bpsk_point o symbol Hm) as (i & E & Hi).
    rewrite E in Hp. injection Hp as <-. unfold in_unit_square; simpl.
    destruct Hi; subst i; lra.
  - unfold _qam_constellation in Hp. rewrite Hm in Hp.
    cbn [String.eqb Ascii.eqb Bool.eqb] in Hp.
    destruct (Py.getitem _ symbol) as [a|]; [|discriminate].
    injection Hp as <-. unfold in_unit_square; simpl.
    split; [apply COS_bound | apply SIN_bound].
  - destruct (qam16_point o symbol Hm) as (li & lq & E & Hi & Hq).
    rewrite E in Hp. injection Hp as <-. unfold in_unit_square; simpl.
    split; apply (scaled_level _ 3); lia.
  - destruct (qam64_point o symbol Hm) as (li & lq & E & Hi & Hq).
    rewrite E in Hp. injection Hp as <-. unfold in_unit_square; simpl.
    split; apply (scaled_level _ 7); lia.
Qed.

Lemma length_enumerate {A} (l : list A) :
  length (Py.enumerate l) = length l.
Proof.
  unfold Py.enumerate. rewrite length_combine, length_range, Nat2Z.id.
  apply Nat.min_id.
Qed.

Lemma In_enumerate {A} (l : list A) i x :
  In (i, x) (Py.enumerate l) ->
  (0 <= i < Z.of_nat (length l))%Z /\ In x l.
Proof.
  unfold Py.enumerate. intros H. split.
  - apply in_combine_l in H. now apply HoppedSymbols.In_range in H.
  - now apply in_combine_r in H.
Qed.

Section Sample.
Variables (self : UltrasonicOFDM) (B : R) (t : Q).
Hypothesis HB : term_bound self B.
Hypothesis HB0 : 0 <= B.

Let N := IZR (num_carriers self).

(** A turn of the carrier loop moves the sample by at most [B / |N|]. *)
Lemma add_carrier_step sample c sample' :
  add_carrier self t sample c = Ok sample' ->
  num_carriers self <> 0%Z
  /\ Rabs sample' <= Rabs sample + B / Rabs N.
Proof.
  destruct c as [carrier_idx symbol_value]. unfold add_carrier.
  destruct (Py.getitem _ carrier_idx) as [freq|]; [|discriminate].
  cbn [Py.bind].
  destruct (_qam_constellation self symbol_value) as [[i q]|] eqn:Ep;
    [|discriminate].
  cbn [Py.bind]. unfold Py.rdiv_int.
  destruct (num_carriers self =? 0)%Z eqn:En; [discriminate|].
  apply Z.eqb_neq in En. cbn [Py.bind]. intros [= <-].
  split; [exact En|].
  eapply Rle_trans; [apply Rabs_triang|].
  apply Rplus_le_compat_l.
  unfold Rdiv. rewrite Rabs_mult, Rabs_inv. fold N.
  apply Rmult_le_compat_r.
  - left. apply Rinv_0_lt_compat. apply Rabs_pos_lt.
    unfold N. now apply not_0_IZR.
  - apply (HB symbol_value (i, q) _ Ep).
Qed.

Lemma carrier_loop_bound items :
  forall sample sample',
    Py.for_each (add_carrier self t) items sample = Ok sample' ->
    Rabs sample' <= Rabs sample + INR (length items) * (B / Rabs N).
Proof.
  induction items as [|c items IH]; intros s s' H.
  - injection H as <-. simpl. lra.
  - cbn [Py.for_each] in H.
    destruct (add_carrier self t s c) as [s1|] eqn:E; [|discriminate].
    apply add_carrier_step in E. destruct E as [_ E].
    apply IH in H. change (length (c :: items)) with (S (length items)).
    rewrite S_INR, Rmult_plus_distr_r, Rmult_1_l. lra.
Qed.

(** The sample of a frame with one bit-group per carrier is within [B]. *)
Lemma carrier_sum_bound ofdm_symbol sample :
  length ofdm_symbol = Z.to_nat (num_carriers self) ->
  carrier_sum self ofdm_symbol t = Ok sample ->
  Rabs sample <= B.
Proof.
  intros Hlen H. unfold carrier_sum in H.
  apply carrier_loop_bound in H.
  rewrite length_enumerate, Hlen, Rabs_R0, Rplus_0_l in H.
  destruct (Z_le_gt_dec (num_carriers self) 0) as [Hn|Hn].
  - replace (Z.to_nat (num_carriers self)) with 0%nat in H by lia.
    simpl in H. lra.
  - rewrite INR_IZR_INZ, Z2Nat.id in H by lia. fold N in H.
    assert (0 < N) as HN by (unfold N; apply IZR_lt; lia).
    rewrite (Rabs_pos_eq N) in H by lra.
    replace (N * (B / N)) with B in H by (field; lra).
    exact H.
Qed.

Lemma carrier_sum_returns ofdm_symbol :
  num_carriers self <> 0%Z ->
  (length ofdm_symbol <= length (carrier_freqs self))%nat ->
  Forall (fun symbol => exists p, _qam_constellation self symbol = Ok p)
         ofdm_symbol ->
  exists sample, carrier_sum self ofdm_symbol t = Ok sample.
Proof.
  intros Hn Hlen Hq. unfold carrier_sum.
  assert (exists sample,
             Py.for_each (add_carrier self t) (Py.enumerate ofdm_symbol) 0
             = Ok sample /\ True) as (v & E & _);
    [|now exists v].
  apply (for_each_total _ (fun _ => True)); auto.
  intros s [carrier_idx symbol_value] Hin _.
  apply In_enumerate in Hin. destruct Hin as [Hi Hs].
  unfold add_carrier.
  destruct (getitem_in_range (carrier_freqs self) carrier_idx)
    as (freq & -> & _); [lia|].
  rewrite Forall_forall in Hq. destruct (Hq _ Hs) as ([i q] & ->).
  cbn [Py.bind]. unfold Py.rdiv_int.
  replace (num_carriers self =? 0)%Z with false
    by (symmetry; now apply Z.eqb_neq).
  cbn [Py.bind]. eauto.
Qed.

End Sample.

(** *** The sample buffer *)

Lemma write_sample_eq self num_samples ofdm_symbol samples sample_idx t_idx :
  write_sample self num_samples ofdm_symbol (samples, sample_idx) t_idx
  = (t <- Py.div (inject_Z t_idx) (inject_Z (sample_rate self)) ;;
     sample <- carrier_sum self ofdm_symbol t ;;
     if (sample_idx <? num_samples)%Z then
       samples' <- Py.setitem samples sample_idx sample ;;
       Ok (samples', (sample_idx + 1)%Z)
     else Ok (samples, sample_idx)).
Proof. reflexivity. Qed.

Lemma write_symbol_eq self num_samples st ofdm_symbol :
  write_symbol self num_samples st ofdm_symbol
  = ('(samples, sample_idx) <-
       Py.for_each (write_sample self num_samples ofdm_symbol)
                   (Py.range (symbol_samples self)) st ;;
     Ok (samples, (sample_idx + guard_samples self)%Z)).
Proof. reflexivity. Qed.

Section Bounded.
Variables (self : UltrasonicOFDM) (B : R).
Hypothesis HB : term_bound self B.
Hypothesis HB0 : 0 <= B.

Let within (x : R) : Prop := Rabs x <= B.

Lemma write_sample_bounded num_samples ofdm_symbol st t_idx st' :
  length ofdm_symbol = Z.to_nat (num_carriers self) ->
  Forall within (fst st) ->
  write_sample self num_samples ofdm_symbol st t_idx = Ok st' ->
  Forall within (fst st').
Proof.
  destruct st as [samples idx]. intros Hlen Hs.
  rewrite write_sample_eq.
  destruct (Py.div _ _) as [t|]; [|discriminate]. cbn [Py.bind].
  destruct (carrier_sum self ofdm_symbol t) as [v|] eqn:Ev;
    [|discriminate].
  cbn [Py.bind]. destruct (idx <? num_samples)%Z.
  - destruct (Py.setitem samples idx v) as [s1|] eqn:Es; [|discriminate].
    cbn [Py.bind]. intros [= <-]. simpl.
    apply (setitem_Forall within _ _ _ _ Es Hs).
    eapply carrier_sum_bound; eauto.
  - now intros [= <-].
Qed.

Lemma write_symbol_bounded num_samples st ofdm_symbol st' :
  length ofdm_symbol = Z.to_nat (num_carriers self) ->
  Forall within (fst st) ->
  write_symbol self num_samples st ofdm_symbol = Ok st' ->
  Forall within (fst st').
Proof.
  intros Hlen Hs. rewrite write_symbol_eq.
  destruct (Py.for_each _ _ st) as [[samples idx]|] eqn:E;
    [|discriminate].
  cbn [Py.bind]. intros [= <-]. simpl.
  apply (for_each_invariant _ (fun st => Forall within (fst st))
           _ (fun s x s' _ Hs' H => write_sample_bounded _ _ s x s' Hlen Hs' H)
           _ _ Hs E).
Qed.

Lemma encode_bounded data samples :
  (0 <= bits_per_symbol self)%Z ->
  encode self data = Ok samples -> Forall within samples.
Proof.
  intros Hbps. unfold encode.
  destruct (Z.eq_dec (bits_per_ofdm_symbol self) 0) as [Hw|Hw].
  { now rewrite bytes_to_symbols_zero_width. }
  destruct (bytes_to_symbols_returns self data Hw Hbps)
    as (frames & -> & Hframes).
  cbn [Py.bind].
  destruct (Py.for_each _ frames _) as [[out idx]|] eqn:E; [|discriminate].
  cbn [Py.bind]. intros [= <-].
  rewrite Forall_forall in Hframes.
  refine (for_each_invariant _ (fun st => Forall within (fst st))
            _ (fun s x s' Hin Hs' H =>
                 write_symbol_bounded _ s x s' (proj1 (Hframes x Hin)) Hs' H)
            _ _ _ E).
  simpl. unfold Py.replicate. apply Forall_forall. intros x Hx.
  apply repeat_spec in Hx. subst x. unfold within. now rewrite Rabs_R0.
Qed.

End Bounded.

(** *** When [encode] returns *)

Lemma int_of_scaled_rate (rate : Z) (d : Q) :
  (0 <= Qnum d)%Z ->
  ((rate <= 0)%Z -> (Py.int_of (inject_Z rate * d) <= 0)%Z)
  /\ ((0 <= rate)%Z -> (0 <= Py.int_of (inject_Z rate * d))%Z).
Proof.
  intros Hd. destruct d as [a b]; simpl in Hd.
  unfold Py.int_of, Qmult, inject_Z; simpl. split; intros Hr.
  - destruct (Z.eq_dec (rate * a) 0) as [->|Hne]; [reflexivity|].
    assert (Z.quot (rate * a) (Z.pos b) <= 0)%Z; [|lia].
    apply Z.quot_le_upper_bound; nia.
  - apply Z.quot_pos; nia.
Qed.

Lemma setitem_nonneg {A} (l l' : list A) i v :
  (0 <= i)%Z -> Py.setitem l i v = Ok l' -> l' = Py.update l (Z.to_nat i) v.
Proof.
  intros Hi. unfold Py.setitem.
  replace (i <? 0)%Z with false by (symmetry; apply Z.ltb_ge; lia).
  destruct (_ || _)%bool; [discriminate|]. now intros [= <-].
Qed.

Lemma nth_update_other {A} (l : list A) k j v d :
  k <> j -> nth k (Py.update l j v) d = nth k l d.
Proof.
  revert k j; induction l as [|x l IH]; intros [|k] [|j] H; simpl; auto;
    try congruence.
Qed.

Lemma nth_update_same {A} (l : list A) k v d :
  (k < length l)%nat -> nth k (Py.update l k v) d = v.
Proof.
  revert k; induction l as [|x l IH]; intros [|k] H; simpl in *;
    try lia; auto.
  apply IH. lia.
Qed.

Section Returns.
Variable self : UltrasonicOFDM.
Hypothesis Hn : num_carriers self <> 0%Z.
Hypothesis Hfreqs :
  length (carrier_freqs self) = Z.to_nat (num_carriers self).
Variable num_samples : Z.

(** The buffer has [num_samples] cells and, when samples are written at
    all, the write position is not negative. *)
Let buffer_ok (st : list R * Z) : Prop :=
  length (fst st) = Z.to_nat num_samples
  /\ ((0 < sample_rate self)%Z -> (0 <= snd st)%Z).

Lemma write_sample_returns ofdm_symbol samples sample_idx t_idx :
  frame_ok self ofdm_symbol -> (0 < sample_rate self)%Z ->
  buffer_ok (samples, sample_idx) ->
  exists sample,
    carrier_sum self ofdm_symbol
                (inject_Z t_idx / inject_Z (sample_rate self))
    = Ok sample
    /\ write_sample self num_samples ofdm_symbol (samples, sample_idx) t_idx
       = Ok (if (sample_idx <? num_samples)%Z
             then (Py.update samples (Z.to_nat sample_idx) sample,
                   (sample_idx + 1)%Z)
             else (samples, sample_idx)).
Proof.
  intros [Hlen Hq] Hsr [Hbuf Hidx]. simpl in Hbuf, Hidx.
  specialize (Hidx Hsr).
  destruct (carrier_sum_returns
              self (inject_Z t_idx / inject_Z (sample_rate self))
              ofdm_symbol Hn ltac:(lia) Hq) as (v & Ev).
  exists v. split; [exact Ev|].
  rewrite write_sample_eq, HoppedSymbols.div_by_int.
  replace (sample_rate self =? 0)%Z with false
    by (symmetry; apply Z.eqb_neq; lia).
  cbn [Py.bind]. rewrite Ev. cbn [Py.bind].
  destruct (sample_idx <? num_samples)%Z eqn:E; [|reflexivity].
  apply Z.ltb_lt in E. rewrite setitem_in_range by lia. reflexivity.
Qed.

Lemma write_sample_keeps ofdm_symbol st t_idx :
  frame_ok self ofdm_symbol -> (0 < sample_rate self)%Z ->
  buffer_ok st ->
  exists st',
    write_sample self num_samples ofdm_symbol st t_idx = Ok st'
    /\ buffer_ok st'.
Proof.
  destruct st as [samples idx]. intros Hf Hsr Hb.
  destruct (write_sample_returns ofdm_symbol samples idx t_idx Hf Hsr Hb)
    as (v & _ & ->).
  eexists; split; [reflexivity|].
  destruct Hb as [Hlen Hidx]. simpl in Hlen, Hidx.
  destruct (idx <? num_samples)%Z; split; simpl; auto.
  - now rewrite length_update.
  - intros _. specialize (Hidx Hsr). lia.
Qed.

Lemma write_symbol_keeps ofdm_symbol st :
  frame_ok self ofdm_symbol -> buffer_ok st ->
  exists st',
    write_symbol self num_samples st ofdm_symbol = Ok st' /\ buffer_ok st'.
Proof.
  intros Hf Hb. rewrite write_symbol_eq.
  destruct (Z_lt_le_dec 0 (sample_rate self)) as [Hsr|Hsr].
  - destruct (for_each_total
                (write_sample self num_samples ofdm_symbol) buffer_ok
                (Py.range (symbol_samples self))
                (fun s x _ Hs => write_sample_keeps ofdm_symbol s x Hf Hsr Hs)
                st Hb) as ([samples idx] & -> & Hlen & Hidx).
    cbn [Py.bind]. eexists; split; [reflexivity|].
    split; [exact Hlen|]. simpl in *. intros _. specialize (Hidx Hsr).
    pose proof (proj2 (int_of_scaled_rate (sample_rate self) GUARD_INTERVAL
                         ltac:(simpl; lia)) ltac:(lia)).
    unfold guard_samples. lia.
  - pose proof (proj1 (int_of_scaled_rate (sample_rate self) SYMBOL_DURATION
                         ltac:(simpl; lia)) Hsr) as Hss.
    unfold symbol_samples, Py.range.
    replace (Z.to_nat _) with 0%nat by lia.
    destruct st as [samples idx]. cbn.
    eexists; split; [reflexivity|]. destruct Hb as [Hlen _].
    split; [exact Hlen | simpl; lia].
Qed.

Lemma frames_loop_returns frames :
  Forall (frame_ok self) frames ->
  forall st, buffer_ok st ->
    exists st',
      Py.for_each (write_symbol self num_samples) frames st = Ok st'
      /\ buffer_ok st'.
Proof.
  intros Hframes. rewrite Forall_forall in Hframes.
  apply for_each_total.
  intros s x Hin Hs. apply write_symbol_keeps; auto.
Qed.

End Returns.

Lemma encode_eq self data :
  encode self data
  = (ofdm_symbols <- _bytes_to_symbols self data ;;
     '(samples, _) <-
       Py.for_each (write_symbol self (frame_samples self ofdm_symbols))
                   ofdm_symbols
                   (Py.replicate 0 (frame_samples self ofdm_symbols), 0%Z) ;;
     Ok samples).
Proof. reflexivity. Qed.

Lemma init_shape (sr n : Z) (m : string) o :
  __init__ sr n m = Ok o ->
  sample_rate o = sr /\ num_carriers o = n /\ modulation o = m
  /\ length (carrier_freqs o) = Z.to_nat n
  /\ (0 < bits_per_symbol o)%Z.
Proof.
  intros Ho.
  destruct (modulation_cases _ _ _ _ Ho)
    as [[_ Hb]|[[_ Hb]|[[_ Hb]|[_ Hb]]]];
    destruct (init_eq _ _ _ _ Ho) as (levels & _ & ->); simpl in *;
    rewrite length_map, length_range; repeat split; lia.
Qed.

Lemma constructed_frames_ok (sr n : Z) (m : string) o data :
  __init__ sr n m = Ok o -> n <> 0%Z ->
  exists frames,
    _bytes_to_symbols o data = Ok frames /\ Forall (frame_ok o) frames.
Proof.
  intros Ho Hn.
  destruct (init_shape _ _ _ _ Ho) as (_ & En & _ & _ & Hb).
  destruct (bytes_to_symbols_returns o data) as (frames & E & Hf);
    [unfold bits_per_ofdm_symbol; nia | lia |].
  exists frames. split; [exact E|].
  eapply Forall_impl; [|exact Hf].
  intros frame [Hlen Hgroups]. split; [exact Hlen|].
  eapply Forall_impl; [|exact Hgroups].
  intros symbol Hs.
  destruct (point_in_unit_square _ _ _ _ _ Ho Hs) as (p & Hp & _).
  now exists p.
Qed.

(** [encode] returns a buffer of [int(sample_rate * total_duration)]
    samples for every payload, on an encoder with carriers. *)
Lemma encode_returns (sr n : Z) (m : string) o data :
  __init__ sr n m = Ok o -> n <> 0%Z ->
  exists frames samples,
    _bytes_to_symbols o data = Ok frames
    /\ encode o data = Ok samples
    /\ length samples = Z.to_nat (frame_samples o frames).
Proof.
  intros Ho Hn.
  destruct (constructed_frames_ok _ _ _ _ data Ho Hn) as (frames & E & Hf).
  destruct (init_shape _ _ _ _ Ho) as (_ & En & _ & Hlen & _).
  rewrite <- En in Hn, Hlen.
  destruct (frames_loop_returns o Hn Hlen (frame_samples o frames) frames Hf
              (Py.replicate 0 (frame_samples o frames), 0%Z))
    as ([samples idx] & El & Hl & _).
  { split; simpl; [apply repeat_length | lia]. }
  exists frames, samples. rewrite encode_eq, E. cbn [Py.bind].
  rewrite El. cbn [Py.bind]. auto.
Qed.

Lemma encode_without_carriers (sr : Z) (m : string) o data :
  __init__ sr 0 m = Ok o -> encode o data = Raise ZeroDivisionError.
Proof.
  intros Ho. destruct (init_shape _ _ _ _ Ho) as (_ & En & _).
  rewrite encode_eq, bytes_to_symbols_zero_width; [reflexivity|].
  unfold bits_per_ofdm_symbol. rewrite En. lia.
Qed.

(** *** The samples of the first frame *)

Section FirstFrame.
Variable self : UltrasonicOFDM.
Hypothesis Hn : num_carriers self <> 0%Z.
Hypothesis Hfreqs :
  length (carrier_freqs self) = Z.to_nat (num_carriers self).
Hypothesis Hsr : (0 < sample_rate self)%Z.
Variables (num_samples : Z) (frame : list Z) (k : nat) (v : R).
Hypothesis Hframe : frame_ok self frame.
Hypothesis Hk : (Z.of_nat k < num_samples)%Z.
Hypothesis Hv :
  carrier_sum self frame
              (inject_Z (Z.of_nat k) / inject_Z (sample_rate self))
  = Ok v.

(** The first [j <= k + 1] turns of the frame write cells [0 .. j - 1]. *)
Lemma first_writes (j : nat) :
  (j <= S k)%nat ->
  forall samples,
    length samples = Z.to_nat num_samples ->
    exists samples',
      Py.for_each (write_sample self num_samples frame)
                  (map Z.of_nat (seq 0 j)) (samples, 0%Z)
      = Ok (samples', Z.of_nat j)
      /\ length samples' = Z.to_nat num_samples
      /\ (j = S k -> nth k samples' 0 = v).
Proof.
  induction j as [|j IH]; intros Hj samples Hlen.
  - exists samples. repeat split; auto. discriminate.
  - destruct (IH ltac:(lia) samples Hlen) as (s1 & E1 & L1 & _).
    rewrite seq_S, map_app, for_each_app, E1. cbn [Py.bind].
    destruct (write_sample_returns self Hn Hfreqs num_samples frame s1
                (Z.of_nat j) (Z.of_nat (0 + j)) Hframe Hsr)
      as (vj & Evj & Ew).
    { split; simpl; [exact L1 | lia]. }
    replace (Z.of_nat j <? num_samples)%Z with true in Ew
      by (symmetry; apply Z.ltb_lt; lia).
    cbn [map Py.for_each]. rewrite Ew.
    exists (Py.update s1 (Z.to_nat (Z.of_nat j)) vj).
    split; [f_equal; f_equal; lia|].
    split; [now rewrite length_update|].
    intros [= ->]. rewrite Nat2Z.id.
    simpl in Evj. rewrite Hv in Evj. injection Evj as <-.
    apply nth_update_same. lia.
Qed.

(** Later turns write behind cell [k]. *)
Let cell_kept (st : list R * Z) : Prop :=
  (Z.of_nat k < snd st)%Z /\ nth k (fst st) 0 = v.

Lemma write_sample_keeps_cell ofdm_symbol st t_idx st' :
  cell_kept st ->
  write_sample self num_samples ofdm_symbol st t_idx = Ok st' ->
  cell_kept st'.
Proof.
  destruct st as [samples idx]. intros [Hidx Hcell]. simpl in Hidx, Hcell.
  rewrite write_sample_eq.
  destruct (Py.div _ _) as [t|]; [|discriminate]. cbn [Py.bind].
  destruct (carrier_sum self ofdm_symbol t) as [x|]; [|discriminate].
  cbn [Py.bind]. destruct (idx <? num_samples)%Z.
  - destruct (Py.setitem samples idx x) as [s1|] eqn:Es; [|discriminate].
    cbn [Py.bind]. intros [= <-].
    apply setitem_nonneg in Es; [|lia]. subst s1.
    split; simpl; [lia|]. rewrite nth_update_other by lia. exact Hcell.
  - intros [= <-]. split; assumption.
Qed.

Lemma write_symbol_keeps_cell ofdm_symbol st st' :
  cell_kept st ->
  write_symbol self num_samples st ofdm_symbol = Ok st' ->
  cell_kept st'.
Proof.
  intros Hc. rewrite write_symbol_eq.
  destruct (Py.for_each _ _ st) as [[samples idx]|] eqn:E; [|discriminate].
  cbn [Py.bind]. intros [= <-].
  apply (for_each_invariant _ cell_kept _
           (fun s x s' _ => write_sample_keeps_cell ofdm_symbol s x s'))
    in E; [|exact Hc].
  destruct E as [Hidx Hcell]. split; [|exact Hcell]. simpl in *.
  pose proof (proj2 (int_of_scaled_rate (sample_rate self) GUARD_INTERVAL
                       ltac:(simpl; lia)) ltac:(lia)).
  unfold guard_samples. lia.
Qed.

(** Sample [k] of the waveform is the carrier sum of the first frame at
    time [k / sample_rate]. *)
Lemma first_frame_sample frames samples st' :
  (Z.of_nat k < symbol_samples self)%Z ->
  length samples = Z.to_nat num_samples ->
  Py.for_each (write_symbol self num_samples) (frame :: frames)
              (samples, 0%Z) = Ok st' ->
  nth k (fst st') 0 = v.
Proof.
  intros Hss Hlen H. cbn [Py.for_each] in H.
  destruct (write_symbol self num_samples (samples, 0%Z) frame)
    as [st1|] eqn:E1; [|discriminate].
  assert (cell_kept st1) as Hc1.
  { rewrite write_symbol_eq in E1. unfold Py.range in E1.
    replace (Z.to_nat (symbol_samples self))
      with (S k + (Z.to_nat (symbol_samples self) - S k))%nat in E1 by lia.
    rewrite seq_app, map_app, for_each_app in E1.
    destruct (first_writes (S k) (le_n _) samples Hlen)
      as (s1 & Ea & L1 & Hcell).
    rewrite Ea in E1. cbn [Py.bind] in E1.
    destruct (Py.for_each _ _ (s1, Z.of_nat (S k)))
      as [[s2 idx2]|] eqn:Eb; [|discriminate].
    cbn [Py.bind] in E1. injection E1 as <-.
    apply (for_each_invariant _ cell_kept _
             (fun s x s' _ => write_sample_keeps_cell frame s x s'))
      in Eb.
    - destruct Eb as [Hidx Hc]. split; [|exact Hc]. simpl in *.
      pose proof (proj2 (int_of_scaled_rate (sample_rate self)
                           GUARD_INTERVAL ltac:(simpl; lia)) ltac:(lia)).
      unfold guard_samples. lia.
    - split; simpl; [lia | now apply Hcell]. }
  apply (for_each_invariant _ cell_kept _
           (fun s x s' _ => write_symbol_keeps_cell x s s'))
    in H; [apply H | exact Hc1].
Qed.

End FirstFrame.

(** *** A frame of corner points *)

(** Within the first quarter turn, [cos x + sin x] exceeds 1. *)
Lemma cos_plus_sin_above_one (x : R) :
  0 < x < PI / 2 -> 1 < cos x + sin x.
Proof.
  intros [Hlo Hhi].
  assert (0 < sin x) as Hs by (apply sin_gt_0; lra).
  assert (0 < cos x) as Hc by (apply cos_gt_0; lra).
  pose proof (sin2_cos2 x) as Hsq. unfold Rsqr in Hsq. nra.
Qed.

Lemma below_quarter_turn_angle (t f : Q) :
  below_quarter_turn t f = true ->
  0 < 2 * PI * Q2R f * Q2R t < PI / 2.
Proof.
  unfold below_quarter_turn. intros H.
  destruct (0 ?= f * t)%Q eqn:E0; try discriminate.
  destruct (f * t ?= 1 # 4)%Q eqn:E1; try discriminate.
  apply Qlt_alt, Qlt_Rlt in E0, E1.
  rewrite Q2R_mult in E0, E1. rewrite RMicromega.Q2R_0 in E0.
  replace (Q2R (1 # 4)) with (1 / 4) in E1 by (unfold Q2R; simpl; lra).
  pose proof PI_RGT_0 as Hpi.
  replace (2 * PI * Q2R f * Q2R t) with (2 * PI * (Q2R f * Q2R t)) by ring.
  split; nra.
Qed.

Section Corner.
Variables (self : UltrasonicOFDM) (t : Q).
Hypothesis Hn : (0 < num_carriers self)%Z.
Hypothesis Hangles :
  forallb (below_quarter_turn t) (carrier_freqs self) = true.

Let N := IZR (num_carriers self).

Lemma corner_step sample carrier_idx symbol sample' :
  _qam_constellation self symbol = Ok (1, 1) ->
  add_carrier self t sample (carrier_idx, symbol) = Ok sample' ->
  sample + / N < sample'.
Proof.
  intros Hp. unfold add_carrier.
  destruct (Py.getitem _ carrier_idx) as [freq|] eqn:Ef; [|discriminate].
  cbn [Py.bind]. rewrite Hp. cbn [Py.bind]. unfold Py.rdiv_int.
  replace (num_carriers self =? 0)%Z with false
    by (symmetry; apply Z.eqb_neq; lia).
  cbn [Py.bind]. intros [= <-].
  apply getitem_In in Ef.
  rewrite forallb_forall in Hangles. specialize (Hangles _ Ef).
  apply below_quarter_turn_angle, cos_plus_sin_above_one in Hangles.
  apply Rplus_lt_compat_l. fold N.
  assert (0 < / N) as HN
      by (apply Rinv_0_lt_compat; unfold N; apply IZR_lt; lia).
  unfold Rdiv. rewrite !Rmult_1_l.
  rewrite <- (Rmult_1_l (/ N)) at 1.
  apply Rmult_lt_compat_r; assumption.
Qed.

Lemma corner_loop items :
  Forall (fun c => _qam_constellation self (snd c) = Ok (1, 1)) items ->
  forall sample sample',
    Py.for_each (add_carrier self t) items sample = Ok sample' ->
    sample + INR (length items) * / N <= sample'.
Proof.
  induction 1 as [|[ci sv] items Hc _ IH]; intros s s' H.
  - injection H as <-. simpl. lra.
  - cbn [Py.for_each] in H.
    destruct (add_carrier self t s (ci, sv)) as [s1|] eqn:E;
      [|discriminate].
    apply corner_step in E; [|exact Hc]. apply IH in H.
    change (length ((ci, sv) :: items)) with (S (length items)).
    rewrite S_INR, Rmult_plus_distr_r, Rmult_1_l. lra.
Qed.

(** With every carrier at the corner [(1, 1)] and within its first
    quarter turn, the sample exceeds 1. *)
Lemma corner_sum_above_one frame sample :
  length frame = Z.to_nat (num_carriers self) ->
  Forall (fun symbol => _qam_constellation self symbol = Ok (1, 1)) frame ->
  carrier_sum self frame t = Ok sample ->
  1 < sample.
Proof.
  intros Hlen Hc. unfold carrier_sum, Py.enumerate.
  destruct frame as [|sv frame]; [simpl in Hlen; lia|].
  change (length (sv :: frame)) with (S (length frame)).
  rewrite HoppedSymbols.range_succ. cbn [combine Py.for_each].
  inversion Hc as [|? ? Hsv Hrest]; subst.
  destruct (add_carrier self t 0 (0%Z, sv)) as [s1|] eqn:E1;
    [|discriminate].
  apply corner_step in E1; [|exact Hsv]. intros H.
  apply corner_loop in H.
  - rewrite length_combine, length_map, length_seq, Nat.min_id in H.
    assert (INR (S (length frame)) = N) as HN.
    { simpl length in Hlen. rewrite Hlen, INR_IZR_INZ, Z2Nat.id by lia.
      reflexivity. }
    rewrite S_INR in HN.
    assert (0 < N) as HN0 by (unfold N; apply IZR_lt; lia).
    assert (N * / N = 1) as Hinv by (field; lra).
    replace (INR (length frame)) with (N - 1) in H by lra.
    nra.
  - apply Forall_forall. intros [ci x] Hin. simpl.
    apply in_combine_r in Hin. rewrite Forall_forall in Hrest. auto.
Qed.

End Corner.

End Frames.

(* ================================================================== *)
(** ** The range of the samples *)

Module WaveformRange.
Import Frame Frames.
Local Open Scope R_scope.

Lemma Forall_Rabs_le (B : R) (l : list R) :
  Forall (fun x => Rabs x <= B) l -> Forall (fun x => - B <= x <= B) l.
Proof.
  apply Forall_impl. intros x H.
  unfold Rabs in H. destruct (Rcase_abs x); lra.
Qed.

Lemma encode_message_bounded self symbols start_hop_index samples meta :
  Forall (fun s => 0 <= Hopper.amplitude_of s <= 1) symbols ->
  FrequencyHopping.encode_message self symbols start_hop_index
  = Ok (samples, meta) ->
  Forall (fun x => -1 <= x <= 1) samples.
Proof.
  intros Ha. rewrite HoppedSymbols.encode_message_eq.
  destruct (Hopper.message_loop self symbols ([], start_hop_index))
    as [[out idx]|] eqn:E; [|discriminate].
  cbn [Py.bind]. destruct (Py.div _ _); [|discriminate].
  cbn [Py.bind]. intros [= <- _].
  eapply (HoppedSymbols.message_loop_bounded self symbols Ha); [|exact E].
  constructor.
Qed.

Lemma encode_message_returns self symbols start_hop_index :
  Hopper.well_formed self ->
  FrequencyHopping.hop_count self <> 0%Z ->
  FrequencyHopping.sample_rate self <> 0%Z ->
  Forall (fun s => Hopper.modulating_freq s <> 0) symbols ->
  exists r, FrequencyHopping.encode_message self symbols start_hop_index
            = Ok r.
Proof.
  intros Hwf Hn Hsr Hf. rewrite HoppedSymbols.encode_message_eq.
  destruct (HoppedSymbols.message_loop_returns
              self symbols Hwf Hn Hf ([], start_hop_index))
    as ([out idx] & ->).
  cbn [Py.bind]. rewrite HoppedSymbols.div_by_int.
  replace (FrequencyHopping.sample_rate self =? 0)%Z with false
    by (symmetry; now apply Z.eqb_neq).
  cbn [Py.bind]. eauto.
Qed.

Lemma widen_range (a b : R) (samples : list R) :
  a <= b ->
  Forall (fun x => - a <= x <= a) samples ->
  Forall (fun x => - b <= x <= b) samples.
Proof.
  intros Hab. apply Forall_impl. intros x Hx. lra.
Qed.

(** C6, as the code has it.  Multi-carrier encode: in exact arithmetic
    every sample is at most 1 in magnitude with BPSK and QPSK and at most
    [sqrt 2] with 16QAM and 64QAM (the corner points have norm [sqrt 2]).
    The code adds rounded terms, which can carry a sample past these
    bounds by some units in the last place, so they are stated with a
    margin of [1e-9], for up to a million carriers.  The encoder returns
    for every payload when it has carriers.  Spread-spectrum encode: with
    amplitudes in [[0, 1]] every sample is in [[-1, 1]]; the encoder
    returns when the hopper has channels, the sample rate is not zero and
    no modulating frequency is zero. *)
Theorem waveform_sample_ranges :
  (forall (sr n : Z) (m : string) o data samples,
      UltrasonicCompression.__init__ sr n m = Ok o ->
      (n <= 1000000)%Z ->
      UltrasonicCompression.encode o data = Ok samples ->
      Forall (fun x => - (sqrt 2 + 1 / 1000000000) <= x
                       <= sqrt 2 + 1 / 1000000000) samples
      /\ (m = "BPSK"%string \/ m = "QPSK"%string ->
          Forall (fun x => - (1 + 1 / 1000000000) <= x
                           <= 1 + 1 / 1000000000) samples))
  /\ (forall (sr n : Z) (m : string) o data,
         UltrasonicCompression.__init__ sr n m = Ok o -> n <> 0%Z ->
         exists samples, UltrasonicCompression.encode o data = Ok samples)
  /\ (forall self symbols start_hop_index samples meta,
         Forall (fun s => 0 <= Hopper.amplitude_of s <= 1) symbols ->
         FrequencyHopping.encode_message self symbols start_hop_index
         = Ok (samples, meta) ->
         Forall (fun x => -1 <= x <= 1) samples)
  /\ (forall self symbols start_hop_index,
         Hopper.well_formed self ->
         FrequencyHopping.hop_count self <> 0%Z ->
         FrequencyHopping.sample_rate self <> 0%Z ->
         Forall (fun s => Hopper.modulating_freq s <> 0) symbols ->
         exists r,
           FrequencyHopping.encode_message self symbols start_hop_index
           = Ok r).
Proof.
  split; [|split; [|split]].
  - intros sr n m o data samples Ho _ He.
    destruct (init_shape _ _ _ _ Ho) as (_ & _ & _ & _ & Hb).
    split.
    + apply (widen_range (sqrt 2)); [lra|]. apply Forall_Rabs_le.
      apply (encode_bounded o (sqrt 2) (qam_term_bound _ _ _ _ Ho)
               (sqrt_pos 2) data samples); [lia | exact He].
    + intros Hm. apply (widen_range 1); [lra|]. apply Forall_Rabs_le.
      apply (encode_bounded o 1 (psk_term_bound _ _ _ _ Ho Hm)
               Rle_0_1 data samples); [lia | exact He].
  - intros sr n m o data Ho Hn.
    destruct (encode_returns _ _ _ _ data Ho Hn) as (frames & samples & _ & E & _).
    now exists samples.
  - apply encode_message_bounded.
  - apply encode_message_returns.
Qed.

(** C6 at the default encoder with QPSK and the payload [b"HELLO"]. *)
Lemma waveform_sample_ranges_witness :
  exists o samples,
    UltrasonicCompression.__init__
      UltrasonicCompression.SAMPLE_RATE
      UltrasonicCompression.OFDM_NUM_CARRIERS "QPSK" = Ok o
    /\ UltrasonicCompression.encode o (bytes_of_string "HELLO") = Ok samples
    /\ Forall (fun x => - (1 + 1 / 1000000000) <= x <= 1 + 1 / 1000000000)
              samples.
Proof.
  eexists.
  destruct (proj1 (proj2 waveform_sample_ranges)
              UltrasonicCompression.SAMPLE_RATE
              UltrasonicCompression.OFDM_NUM_CARRIERS "QPSK"%string
              _ (bytes_of_string "HELLO") eq_refl ltac:(discriminate))
    as (samples & E).
  exists samples. split; [reflexivity|]. split; [exact E|].
  apply (proj1 waveform_sample_ranges
           UltrasonicCompression.SAMPLE_RATE
           UltrasonicCompression.OFDM_NUM_CARRIERS "QPSK"%string
           _ (bytes_of_string "HELLO") samples eq_refl
           ltac:(discriminate) E).
  now right.
Defined.

(** C6, counterexample: the default encoder with 16QAM on 32 bytes
    [0xff], and with 64QAM on 48 bytes [0xff], puts every carrier at the
    corner [(1, 1)]; at the second sample, [t = 1 / 192000], every carrier
    is within its first quarter turn and the sample exceeds 1. *)
Lemma qam_samples_above_one :
  (exists o samples,
      UltrasonicCompression.__init__
        UltrasonicCompression.SAMPLE_RATE
        UltrasonicCompression.OFDM_NUM_CARRIERS "16QAM" = Ok o
      /\ UltrasonicCompression.encode o (repeat xff 32) = Ok samples
      /\ 1 < nth 1 samples 0)
  /\ (exists o samples,
         UltrasonicCompression.__init__
           UltrasonicCompression.SAMPLE_RATE
           UltrasonicCompression.OFDM_NUM_CARRIERS "64QAM" = Ok o
         /\ UltrasonicCompression.encode o (repeat xff 48) = Ok samples
         /\ 1 < nth 1 samples 0).
Proof.
  split.
  {
  eexists.
  match goal with
  | |- exists samples, ?I = Ok ?o /\ _ =>
      assert (I = Ok o) as Ho by reflexivity
  end.
  match type of Ho with
  | _ = Ok ?o => set (enc := o) in *
  end.
  destruct (encode_returns _ _ _ _ (repeat xff 32) Ho ltac:(discriminate))
    as (frames & samples & Ef & Ee & Hlen).
  exists samples. split; [exact Ho|]. split; [exact Ee|].
  assert (frames = [repeat 15%Z 64]) as ->.
  { assert (UltrasonicCompression._bytes_to_symbols enc (repeat xff 32)
            = Ok [repeat 15%Z 64]) as E by (vm_compute; reflexivity).
    rewrite E in Ef. now injection Ef. }
  assert (frame_samples enc [repeat 15%Z 64] = 230%Z) as En
      by (vm_compute; reflexivity).
  rewrite encode_eq, Ef in Ee. cbn [Py.bind] in Ee. rewrite En in Ee.
  destruct (Py.for_each _ _ _) as [[out idx]|] eqn:El; [|discriminate].
  cbn [Py.bind] in Ee. injection Ee as <-.
  assert (Forall (fun symbol =>
                    UltrasonicCompression._qam_constellation enc symbol
                    = Ok (1, 1)) (repeat 15%Z 64)) as Hcorner.
  { apply Forall_forall. intros x Hx. apply repeat_spec in Hx. subst x.
    apply (proj1 (Constellation.qam_corner _ _ _ _ Ho)). reflexivity. }
  assert (frame_ok enc (repeat 15%Z 64)) as Hframe.
  { split; [reflexivity|]. eapply Forall_impl; [|exact Hcorner].
    intros x Hx. eexists; exact Hx. }
  destruct (carrier_sum_returns
              enc (inject_Z (Z.of_nat 1)
                   / inject_Z (UltrasonicCompression.sample_rate enc))
              (repeat 15%Z 64) ltac:(discriminate) ltac:(reflexivity)
              (proj2 Hframe)) as (v & Ev).
  pose proof (first_frame_sample enc ltac:(discriminate) eq_refl eq_refl
                230%Z (repeat 15%Z 64) 1%nat v Hframe eq_refl Ev
                [] _ (out, idx) eq_refl (repeat_length _ _) El) as Hs.
  cbn [fst] in Hs. rewrite Hs.
  apply (corner_sum_above_one enc _ eq_refl) in Ev; auto.
  }
  {
  eexists.
  match goal with
  | |- exists samples, ?I = Ok ?o /\ _ =>
      assert (I = Ok o) as Ho by reflexivity
  end.
  match type of Ho with
  | _ = Ok ?o => set (enc := o) in *
  end.
  destruct (encode_returns _ _ _ _ (repeat xff 48) Ho ltac:(discriminate))
    as (frames & samples & Ef & Ee & Hlen).
  exists samples. split; [exact Ho|]. split; [exact Ee|].
  assert (frames = [repeat 63%Z 64]) as ->.
  { assert (UltrasonicCompression._bytes_to_symbols enc (repeat xff 48)
            = Ok [repeat 63%Z 64]) as E by (vm_compute; reflexivity).
    rewrite E in Ef. now injection Ef. }
  assert (frame_samples enc [repeat 63%Z 64] = 230%Z) as En
      by (vm_compute; reflexivity).
  rewrite encode_eq, Ef in Ee. cbn [Py.bind] in Ee. rewrite En in Ee.
  destruct (Py.for_each _ _ _) as [[out idx]|] eqn:El; [|discriminate].
  cbn [Py.bind] in Ee. injection Ee as <-.
  assert (Forall (fun symbol =>
                    UltrasonicCompression._qam_constellation enc symbol
                    = Ok (1, 1)) (repeat 63%Z 64)) as Hcorner.
  { apply Forall_forall. intros x Hx. apply repeat_spec in Hx. subst x.
    apply (proj2 (Constellation.qam_corner _ _ _ _ Ho)). reflexivity. }
  assert (frame_ok enc (repeat 63%Z 64)) as Hframe.
  { split; [reflexivity|]. eapply Forall_impl; [|exact Hcorner].
    intros x Hx. eexists; exact Hx. }
  destruct (carrier_sum_returns
              enc (inject_Z (Z.of_nat 1)
                   / inject_Z (UltrasonicCompression.sample_rate enc))
              (repeat 63%Z 64) ltac:(discriminate) ltac:(reflexivity)
              (proj2 Hframe)) as (v & Ev).
  pose proof (first_frame_sample enc ltac:(discriminate) eq_refl eq_refl
                230%Z (repeat 63%Z 64) 1%nat v Hframe eq_refl Ev
                [] _ (out, idx) eq_refl (repeat_length _ _) El) as Hs.
  cbn [fst] in Hs. rewrite Hs.
  apply (corner_sum_above_one enc _ eq_refl) in Ev; auto.
  }
Qed.

End WaveformRange.

(* ================================================================== *)
(** ** Hop tables and hop indices *)

From Stdlib Require Import Psatz.

Module HopperExtras.
Import FrequencyHopping HopGrid Hopper HopTable HopperInit.

Lemma init_cases os_random secret_key hop_range dwell_time_ms hop_spacing_hz
      sample_rate h :
  __init__ os_random secret_key hop_range dwell_time_ms hop_spacing_hz
           sample_rate = Ok h ->
  Permutation (grid_of (fst hop_range) hop_spacing_hz
                       (num_channels hop_range hop_spacing_hz))
              (hop_frequencies h)
  /\ well_formed h
  /\ FrequencyHopping.sample_rate h = sample_rate
  /\ dwell_time_sec h = (dwell_time_ms / 1000)%Q
  /\ FrequencyHopping.secret_key h = key_or_random secret_key os_random.
Proof.
  intros H.
  destruct (Py.is_zero hop_spacing_hz) eqn:Hz.
  { rewrite init_zero_spacing in H by assumption. discriminate. }
  destruct (Z_le_gt_dec (num_channels hop_range hop_spacing_hz) 256)
    as [Hle|Hgt].
  - destruct (init_small os_random secret_key hop_range dwell_time_ms
                         hop_spacing_hz sample_rate Hz Hle)
      as (h' & E & P & Hc & Hsr & Hk).
    rewrite E in H. injection H as <-.
    repeat split; auto.
    unfold __init__ in E.
    destruct (_generate_hop_table _ _ _); [|discriminate].
    now injection E as <-.
  - rewrite init_large in H by (auto; lia). discriminate.
Qed.

(** A channel of the grid of a positive spacing lies in
    [[freq_min, freq_max)]. *)
Lemma grid_channel_in_range (lo hi spacing : Q) (i : Z) :
  (0 < spacing)%Q ->
  (0 <= i < Py.int_of ((hi - lo) / spacing))%Z ->
  (lo <= lo + inject_Z i * spacing /\ lo + inject_Z i * spacing < hi)%Q.
Proof.
  intros Hs Hi.
  set (q := ((hi - lo) / spacing)%Q) in *.
  assert (0 <= q)%Q as Hq.
  { destruct (Qlt_le_dec q 0) as [Hneg|]; [|assumption].
    pose proof (HopperProperties.int_of_nonpos q (Qlt_le_weak _ _ Hneg)). lia. }
  assert (inject_Z (i + 1) <= q)%Q as Hle.
  { apply Qle_trans with (inject_Z (Qfloor q)); [|apply Qfloor_le].
    rewrite <- Zle_Qle. rewrite <- int_of_nonneg by assumption. lia. }
  assert (q * spacing == hi - lo)%Q as Hmul.
  { unfold q. field. intros E. rewrite E in Hs. discriminate. }
  assert (0 <= inject_Z i)%Q as Hi0.
  { change 0%Q with (inject_Z 0). rewrite <- Zle_Qle. lia. }
  rewrite inject_Z_plus in Hle.
  assert (0 <= inject_Z i * spacing)%Q as Hpos
      by (apply Qmult_le_0_compat; [assumption | now apply Qlt_le_weak]).
  assert ((inject_Z i + inject_Z 1) * spacing <= q * spacing)%Q as Hup
      by (apply Qmult_le_compat_r; [assumption | now apply Qlt_le_weak]).
  rewrite Hmul in Hup.
  setoid_replace ((inject_Z i + inject_Z 1) * spacing)%Q
    with (inject_Z i * spacing + spacing)%Q in Hup by ring.
  split; lra.
Qed.

(** X1: every frequency of the hop table of a constructed hopper with a
    positive spacing lies in [[freq_min, freq_max)]; [hop_count] is the
    length of the table, and it is [int((freq_max - freq_min) / spacing)]
    (0 when that is negative) as the code computes it: the truncation of a
    rounded quotient, within 1 of the truncated exact quotient. *)
Theorem hop_frequencies_within_range
        (os_random : Py.bytes) (secret_key : option Py.bytes)
        (hop_range : Q * Q) (dwell_time_ms hop_spacing_hz : Q)
        (sample_rate : Z) (h : FrequencyHopper) :
  __init__ os_random secret_key hop_range dwell_time_ms hop_spacing_hz
           sample_rate = Ok h ->
  (0 < hop_spacing_hz)%Q ->
  Forall (fun f => fst hop_range <= f /\ f < snd hop_range)%Q
         (hop_frequencies h)
  /\ hop_count h = Z.of_nat (length (hop_frequencies h))
  /\ (Z.abs (hop_count h
             - Z.max 0 (Py.int_of ((snd hop_range - fst hop_range)
                                   / hop_spacing_hz)))
      <= 1)%Z.
Proof.
  intros H Hs. destruct (init_cases _ _ _ _ _ _ _ H) as (P & Hwf & _).
  split; [|split; [exact Hwf|]].
  - eapply Permutation_Forall; [exact P|].
    unfold grid_of. apply Forall_forall. intros f Hf.
    apply in_map_iff in Hf. destruct Hf as (i & <- & Hi).
    apply HoppedSymbols.In_range in Hi.
    now apply grid_channel_in_range.
  - unfold well_formed in Hwf. rewrite Hwf.
    rewrite <- (Permutation_length P), length_grid_of.
    unfold num_channels. lia.
Qed.

(** X1 at the default hopper. *)
Lemma hop_frequencies_within_range_witness :
  exists h,
    __init__ (repeat x00 32) None default_hop_range default_dwell_time_ms
             default_hop_spacing_hz default_sample_rate = Ok h
    /\ Forall (fun f => 20000 <= f /\ f < 40000)%Q (hop_frequencies h)
    /\ (Z.abs (hop_count h - 200) <= 1)%Z.
Proof.
  eexists.
  match goal with
  | |- ?I = Ok ?h /\ _ =>
      assert (I = Ok h) as Hh by (vm_compute; reflexivity);
      destruct (hop_frequencies_within_range _ _ _ _ _ _ _ Hh eq_refl)
        as (HF & _ & HC)
  end.
  split; [exact Hh|]. split; [exact HF | exact HC].
Defined.

(** X2: on a hopper with channels, [_get_hop_freq] returns an entry of the
    hop table for every integer hop index, negative ones included, and the
    same entry [hop_count] hops later; on a hopper without channels it
    raises [ZeroDivisionError]. *)
Theorem get_hop_freq_periodic (self : FrequencyHopper) (hop_index k : Z) :
  well_formed self ->
  (hop_count self <> 0%Z ->
   exists f,
     _get_hop_freq self hop_index = Ok f
     /\ In f (hop_frequencies self)
     /\ _get_hop_freq self (hop_index + k * hop_count self) = Ok f)
  /\ (hop_count self = 0%Z ->
      _get_hop_freq self hop_index = Raise ZeroDivisionError).
Proof.
  intros Hwf. split.
  - intros Hn.
    destruct (HoppedSymbols.get_hop_freq_total self hop_index Hwf Hn)
      as (f & E & Hin).
    exists f. repeat split; auto.
    rewrite HoppedSymbols.get_hop_freq_wraps by assumption.
    rewrite Z_mod_plus_full.
    now rewrite <- HoppedSymbols.get_hop_freq_wraps by assumption.
  - apply HoppedSymbols.get_hop_freq_no_channel.
Qed.

(** X2 at hop index -1 of a hopper of three channels. *)
Lemma get_hop_freq_periodic_witness :
  exists h f,
    __init__ (repeat x00 32) (Some (bytes_of_string "key"))
             (20000%Q, 20300%Q) default_dwell_time_ms default_hop_spacing_hz
             default_sample_rate = Ok h
    /\ _get_hop_freq h (-1) = Ok f
    /\ In f (hop_frequencies h)
    /\ _get_hop_freq h (-1 + 5 * hop_count h) = Ok f.
Proof.
  eexists.
  match goal with
  | |- exists f, ?I = Ok ?h /\ _ =>
      assert (I = Ok h) as Hh by (vm_compute; reflexivity);
      destruct (proj1 (get_hop_freq_periodic h (-1) 5 eq_refl)
                  ltac:(discriminate)) as (f & E1 & Hin & E2)
  end.
  exists f. auto.
Defined.

End HopperExtras.

(* ================================================================== *)
(** ** Messages of hopped symbols *)

Module MessageExtras.
Import FrequencyHopping Hopper.
Local Open Scope R_scope.

Lemma encode_symbol_length self symbol_freq amplitude phase hop_index samples :
  encode_symbol self symbol_freq amplitude phase hop_index = Ok samples ->
  length samples = Z.to_nat (dwell_samples self).
Proof.
  unfold encode_symbol.
  destruct (_get_hop_freq self hop_index) as [c|]; [|discriminate].
  cbn [Py.bind]. fold (dwell_samples self). intros H.
  eapply (for_each_invariant
            _ (fun s => length s = Z.to_nat (dwell_samples self)));
    [| |exact H].
  - intros s i s' _ Hs. cbv beta.
    destruct (Py.div _ _) as [t|]; [|discriminate]. cbn [Py.bind].
    destruct (Py.rdiv _ _) as [r|]; [|discriminate]. cbn [Py.bind].
    intros Hset.
    destruct (setitem_Forall (fun _ => True) _ _ _ _ Hset) as [_ Hl].
    + apply Forall_forall. auto.
    + exact I.
    + now rewrite Hl.
  - unfold Py.replicate. apply repeat_length.
Qed.

(** The samples gathered before a message do not matter to the loop. *)
Lemma message_loop_from self symbols :
  forall acc hop_idx,
    message_loop self symbols (acc, hop_idx)
    = Py.fmap (fun st => (acc ++ fst st, snd st))
              (message_loop self symbols ([], hop_idx)).
Proof.
  induction symbols as [|[[f a] p] rest IH]; intros acc i.
  - simpl. now rewrite app_nil_r.
  - rewrite !HoppedSymbols.message_loop_cons.
    destruct (encode_symbol self f a p i) as [ss|]; [|reflexivity].
    cbn [Py.bind]. rewrite (IH (acc ++ ss)), (IH ([] ++ ss)).
    destruct (message_loop self rest ([], (i + 1)%Z)) as [[w j]|];
      [|reflexivity].
    simpl. now rewrite app_assoc.
Qed.

Lemma message_loop_shape self symbols :
  forall hop_idx out hop_idx',
    message_loop self symbols ([], hop_idx) = Ok (out, hop_idx') ->
    hop_idx' = (hop_idx + Z.of_nat (length symbols))%Z
    /\ length out = (length symbols * Z.to_nat (dwell_samples self))%nat.
Proof.
  induction symbols as [|[[f a] p] rest IH]; intros i out j H.
  - injection H as <- <-. simpl. split; [lia | reflexivity].
  - rewrite HoppedSymbols.message_loop_cons in H.
    destruct (encode_symbol self f a p i) as [ss|] eqn:E; [|discriminate].
    cbn [Py.bind] in H. rewrite message_loop_from in H.
    destruct (message_loop self rest ([], (i + 1)%Z)) as [[w k]|] eqn:El;
      [|discriminate].
    injection H as <- <-. apply IH in El. destruct El as [-> Hl].
    apply encode_symbol_length in E. simpl snd. simpl fst.
    change ([] ++ ss) with ss.
    rewrite length_app, E, Hl. simpl length. split; lia.
Qed.

Lemma message_loop_split self s1 s2 hop_idx :
  message_loop self (s1 ++ s2) ([], hop_idx)
  = (st <- message_loop self s1 ([], hop_idx) ;;
     Py.fmap (fun st' => (fst st ++ fst st', snd st'))
             (message_loop self s2 ([], snd st))).
Proof.
  unfold message_loop at 1. rewrite for_each_app.
  fold (message_loop self s1 ([], hop_idx)).
  destruct (message_loop self s1 ([], hop_idx)) as [[a i]|]; [|reflexivity].
  cbn [Py.bind]. fold (message_loop self s2 (a, i)).
  apply message_loop_from.
Qed.

(** X3: a message is encoded symbol by symbol.  When [encode_message]
    returns on [s1 ++ s2], it returns on [s1] and, from the hop where [s1]
    ends, on [s2]; the waveform is the concatenation of the two waveforms;
    the metadata count one hop per symbol, and every symbol takes the same
    number of samples.  That number is [int(sample_rate * dwell_time_sec)]
    as the code computes it, the truncation of a rounded product, within 1
    of the truncated exact product (0 when that is negative). *)
Theorem encode_message_concatenates
        (self : FrequencyHopper) (s1 s2 : list (R * R * R))
        (start_hop_index : Z) (samples : list R) (meta : Metadata) :
  encode_message self (s1 ++ s2) start_hop_index = Ok (samples, meta) ->
  exists a ma b mb,
    encode_message self s1 start_hop_index = Ok (a, ma)
    /\ encode_message self s2 (end_hop ma) = Ok (b, mb)
    /\ samples = a ++ b
    /\ end_hop ma = (start_hop_index + Z.of_nat (length s1))%Z
    /\ end_hop meta = end_hop mb
    /\ hops_used meta = Z.of_nat (length (s1 ++ s2))
    /\ num_symbols meta = Z.of_nat (length (s1 ++ s2))
    /\ exists per_symbol : nat,
         length a = (length s1 * per_symbol)%nat
         /\ length b = (length s2 * per_symbol)%nat
         /\ length samples = (length (s1 ++ s2) * per_symbol)%nat
         /\ (Z.abs (Z.of_nat per_symbol - Z.max 0 (dwell_samples self))
             <= 1)%Z.
Proof.
  intros H. rewrite HoppedSymbols.encode_message_eq in H.
  destruct (message_loop self (s1 ++ s2) ([], start_hop_index))
    as [[out j]|] eqn:E; [|discriminate].
  cbn [Py.bind] in H. rewrite HoppedSymbols.div_by_int in H.
  destruct (sample_rate self =? 0)%Z eqn:Hsr; [discriminate|].
  cbn [Py.bind] in H. injection H as <- <-.
  pose proof (message_loop_shape _ _ _ _ _ E) as [Hj Hlen].
  rewrite message_loop_split in E.
  destruct (message_loop self s1 ([], start_hop_index)) as [[a i]|] eqn:E1;
    [|discriminate].
  cbn [Py.bind] in E. simpl snd in E. simpl fst in E.
  destruct (message_loop self s2 ([], i)) as [[b k]|] eqn:E2;
    [|discriminate].
  injection E as <- <-.
  pose proof (message_loop_shape _ _ _ _ _ E1) as [Hi Ha].
  pose proof (message_loop_shape _ _ _ _ _ E2) as [_ Hb].
  eexists a, _, b, _.
  rewrite (HoppedSymbols.encode_message_eq self s1), E1. cbn [Py.bind].
  rewrite HoppedSymbols.div_by_int, Hsr. cbn [Py.bind].
  split; [reflexivity|]. cbn [end_hop].
  rewrite (HoppedSymbols.encode_message_eq self s2), E2. cbn [Py.bind].
  rewrite HoppedSymbols.div_by_int, Hsr. cbn [Py.bind].
  split; [reflexivity|]. cbn [end_hop hops_used num_symbols].
  split; [reflexivity|]. split; [exact Hi|]. split; [reflexivity|].
  split; [lia|]. split; [reflexivity|].
  exists (Z.to_nat (dwell_samples self)).
  split; [exact Ha|]. split; [exact Hb|]. split; [exact Hlen | lia].
Qed.

(** X3 on a message of two symbols. *)
Lemma encode_message_concatenates_witness :
  exists h samples meta,
    __init__ (repeat x00 32) (Some (bytes_of_string "key"))
             (20000%Q, 20300%Q) default_dwell_time_ms default_hop_spacing_hz
             default_sample_rate = Ok h
    /\ encode_message h ([(1000, 1, 0)] ++ [(2000, 1, 0)]) 0
       = Ok (samples, meta)
    /\ hops_used meta = 2%Z
    /\ exists per_symbol : nat, length samples = (2 * per_symbol)%nat.
Proof.
  eexists.
  match goal with
  | |- exists samples meta, ?I = Ok ?h /\ _ =>
      assert (I = Ok h) as Hh by (vm_compute; reflexivity);
      destruct (WaveformRange.encode_message_returns
                  h ([(1000, 1, 0)] ++ [(2000, 1, 0)]) 0 eq_refl
                  ltac:(discriminate) ltac:(discriminate))
        as ([samples meta] & E)
  end.
  { repeat constructor; unfold modulating_freq; simpl; lra. }
  exists samples, meta. split; [exact Hh|]. split; [exact E|].
  destruct (encode_message_concatenates _ _ _ _ _ _ E)
    as (a & ma & b & mb & _ & _ & _ & _ & _ & Hh2 & _
        & per_symbol & _ & _ & Hl & _).
  split; [exact Hh2 | exists per_symbol; exact Hl].
Defined.

End MessageExtras.

(* ================================================================== *)
(** ** The window of the symbol decoder *)

Module DecodeExtras.
Import FrequencyHopping Hopper Mixer.
Local Open Scope R_scope.

Lemma demodulate_loop self carrier_freq items :
  sample_rate self <> 0%Z ->
  forall ii qq,
    Py.for_each
      (fun '(i_samples, q_samples) '(i, sample) =>
         t <- Py.div (inject_Z i) (inject_Z (sample_rate self)) ;;
         Ok (i_samples ++ [sample * cos (2 * PI * Q2R carrier_freq * Q2R t)],
             q_samples ++ [sample * sin (2 * PI * Q2R carrier_freq * Q2R t)]))
      items (ii, qq)
    = Ok (ii ++ map (in_phase self carrier_freq) items,
          qq ++ map (quadrature self carrier_freq) items).
Proof.
  intros Hsr. induction items as [|[i x] items IH]; intros ii qq.
  - simpl. now rewrite !app_nil_r.
  - cbn [Py.for_each]. rewrite HoppedSymbols.div_by_int.
    replace (sample_rate self =? 0)%Z with false
      by (symmetry; now apply Z.eqb_neq).
    cbn [Py.bind]. rewrite IH. cbn [map]. now rewrite <- !app_assoc.
Qed.

Lemma demodulate_eq self carrier_freq samples :
  sample_rate self <> 0%Z ->
  demodulate self carrier_freq samples
  = Ok (map (in_phase self carrier_freq) (Py.enumerate samples),
        map (quadrature self carrier_freq) (Py.enumerate samples)).
Proof.
  intros Hsr. unfold demodulate. now rewrite demodulate_loop.
Qed.

Lemma demodulate_lengths self carrier_freq samples ii qq :
  demodulate self carrier_freq samples = Ok (ii, qq) ->
  length ii = length samples /\ length qq = length samples.
Proof.
  destruct (Z.eq_dec (sample_rate self) 0) as [Hsr|Hsr].
  - destruct samples as [|x samples].
    + intros [= <- <-]. auto.
    + now rewrite HoppedSymbols.demodulate_zero_rate.
  - rewrite demodulate_eq by assumption. intros [= <- <-].
    now rewrite !length_map, Frames.length_enumerate.
Qed.

Lemma decode_symbol_total self samples hop_index :
  well_formed self -> hop_count self <> 0%Z -> sample_rate self <> 0%Z ->
  exists f a p, decode_symbol self samples hop_index = Ok (f, a, p).
Proof.
  intros Hwf Hn Hsr. rewrite HoppedSymbols.decode_symbol_eq.
  destruct (HoppedSymbols.get_hop_freq_total self hop_index Hwf Hn)
    as (c & -> & _).
  cbn [Py.bind]. rewrite demodulate_eq by assumption.
  cbn [Py.bind]. eauto.
Qed.

Lemma atan2_origin : Py.atan2 0 0 = 0.
Proof.
  unfold Py.atan2.
  destruct (Rlt_dec 0 0) as [H|_]; [lra|].
  destruct (Rlt_dec 0 0) as [H|_]; [lra|]. reflexivity.
Qed.

(** X4: a window of fewer than 50 samples decodes to amplitude 0 and
    phase 0, whatever the samples are. *)
Theorem decode_symbol_short_window
        (self : FrequencyHopper) (samples : list R) (hop_index : Z)
        (recovered_freq amplitude phase : R) :
  (length samples < 50)%nat ->
  decode_symbol self samples hop_index
  = Ok (recovered_freq, amplitude, phase) ->
  amplitude = 0 /\ phase = 0.
Proof.
  intros Hlen. rewrite HoppedSymbols.decode_symbol_eq.
  destruct (_get_hop_freq self hop_index) as [c|]; [|discriminate].
  cbn [Py.bind].
  destruct (demodulate self c samples) as [[ii qq]|] eqn:E; [|discriminate].
  apply demodulate_lengths in E. destruct E as [Hi Hq].
  cbn [Py.bind]. cbv zeta.
  replace (50 <=? length ii)%nat with false
    by (symmetry; apply Nat.leb_gt; lia).
  replace (50 <=? length qq)%nat with false
    by (symmetry; apply Nat.leb_gt; lia).
  intros [= _ <- <-]. split; [|apply atan2_origin].
  match goal with
  | |- sqrt ?x = 0 => replace x with 0 by ring
  end.
  apply sqrt_0.
Qed.

(** X4 on a window of three samples. *)
Lemma decode_symbol_short_window_witness :
  exists h f a p,
    __init__ (repeat x00 32) (Some (bytes_of_string "key"))
             (20000%Q, 20300%Q) default_dwell_time_ms default_hop_spacing_hz
             default_sample_rate = Ok h
    /\ decode_symbol h [1; -1; 1] 0 = Ok (f, a, p)
    /\ a = 0 /\ p = 0.
Proof.
  eexists.
  match goal with
  | |- exists f a p, ?I = Ok ?h /\ _ =>
      assert (I = Ok h) as Hh by (vm_compute; reflexivity);
      pose proof (decode_symbol_total
                    h [1; -1; 1] 0 eq_refl ltac:(discriminate)
                    ltac:(discriminate)) as (f & a & p & E)
  end.
  exists f, a, p. split; [exact Hh|]. split; [exact E|].
  eapply decode_symbol_short_window; [|exact E]. simpl. lia.
Defined.

Lemma firstn_of_seq (n : nat) :
  forall a m, firstn n (seq a m) = seq a (Nat.min n m).
Proof.
  induction n as [|n IH]; intros a [|m]; simpl; auto.
  now rewrite IH.
Qed.

Lemma enumerate_firstn {A} (n : nat) (l : list A) :
  firstn n (Py.enumerate l) = Py.enumerate (firstn n l).
Proof.
  unfold Py.enumerate, Py.range.
  rewrite combine_firstn, firstn_map, firstn_of_seq, !Nat2Z.id, length_firstn.
  reflexivity.
Qed.

(** X5: the decoder reads the first 50 samples of the window only: a
    window of at least 50 samples decodes as its first 50 samples do. *)
Theorem decode_symbol_reads_50_samples
        (self : FrequencyHopper) (samples : list R) (hop_index : Z) :
  (50 <= length samples)%nat ->
  decode_symbol self samples hop_index
  = decode_symbol self (firstn 50 samples) hop_index.
Proof.
  intros Hlen. rewrite !HoppedSymbols.decode_symbol_eq.
  destruct (_get_hop_freq self hop_index) as [c|]; [|reflexivity].
  cbn [Py.bind].
  assert (length (firstn 50 samples) = 50%nat) as Hf
      by (rewrite length_firstn; lia).
  destruct (Z.eq_dec (sample_rate self) 0) as [Hsr|Hsr].
  - destruct samples as [|x samples]; [simpl in Hlen; lia|].
    change (firstn 50 (x :: samples)) with (x :: firstn 49 samples).
    now rewrite !HoppedSymbols.demodulate_zero_rate.
  - rewrite !demodulate_eq by assumption. cbn [Py.bind]. cbv zeta.
    rewrite !length_map, !Frames.length_enumerate, Hf.
    replace (50 <=? length samples)%nat with true
      by (symmetry; apply Nat.leb_le; lia).
    change (50 <=? 50)%nat with true. cbv iota.
    rewrite !firstn_map, !enumerate_firstn, firstn_firstn.
    reflexivity.
Qed.

(** X5 on a window of 51 samples. *)
Lemma decode_symbol_reads_50_samples_witness :
  exists h,
    __init__ (repeat x00 32) (Some (bytes_of_string "key"))
             (20000%Q, 20300%Q) default_dwell_time_ms default_hop_spacing_hz
             default_sample_rate = Ok h
    /\ decode_symbol h (repeat 1 51) 7 = decode_symbol h (repeat 1 50) 7.
Proof.
  eexists. split; [vm_compute; reflexivity|].
  match goal with
  | |- decode_symbol ?h _ _ = _ =>
      apply (decode_symbol_reads_50_samples h (repeat 1 51) 7)
  end.
  simpl. lia.
Defined.

End DecodeExtras.

(* ================================================================== *)
(** ** Key exchange *)

Module KeyExtras.
Import FrequencyHopping HopperFiles.

Lemma fromhex_byte (b : byte) (rest : string) :
  Hex.fromhex
    (String (Hex.hex_digit (Byte.to_N b / 16))
            (String (Hex.hex_digit (Byte.to_N b mod 16)) rest))
  = (bs <- Hex.fromhex rest ;; Ok (b :: bs)).
Proof. destruct b; reflexivity. Qed.

Lemma fromhex_hex (bs : Py.bytes) : Hex.fromhex (Hex.hex bs) = Ok bs.
Proof.
  induction bs as [|b bs IH]; [reflexivity|].
  cbn [Hex.hex]. cbv zeta. rewrite fromhex_byte, IH. reflexivity.
Qed.

Lemma length_hex (bs : Py.bytes) :
  String.length (Hex.hex bs) = (2 * length bs)%nat.
Proof.
  induction bs as [|b bs IH]; [reflexivity|].
  cbn [Hex.hex]. cbv zeta. simpl String.length. simpl length. lia.
Qed.

(** X6: a key survives the exchange as a hex string, and the hopper built
    from the imported key follows the hop sequence of the hopper that
    exported it, whatever random bytes the receiving side could draw.  The
    exported string has two characters per key byte. *)
Theorem exported_key_rebuilds_hop_table
        (os_random os_random' : Py.bytes) (secret_key : option Py.bytes)
        (hop_range : Q * Q) (dwell_time_ms hop_spacing_hz : Q)
        (sample_rate sample_rate' : Z) (h : FrequencyHopper) :
  __init__ os_random secret_key hop_range dwell_time_ms hop_spacing_hz
           sample_rate = Ok h ->
  FrequencyHopping.secret_key h <> [] ->
  import_key (export_key h) = Ok (FrequencyHopping.secret_key h)
  /\ String.length (export_key h)
     = (2 * length (FrequencyHopping.secret_key h))%nat
  /\ (forall key,
         import_key (export_key h) = Ok key ->
         Py.fmap hop_frequencies
                 (__init__ os_random' (Some key) hop_range dwell_time_ms
                           hop_spacing_hz sample_rate')
         = Ok (hop_frequencies h)).
Proof.
  intros H Hne. unfold import_key, export_key.
  split; [apply fromhex_hex|]. split; [apply length_hex|].
  intros key. rewrite fromhex_hex. intros [= <-].
  destruct (HopperExtras.init_cases _ _ _ _ _ _ _ H) as (_ & _ & _ & _ & Hk).
  unfold __init__ in *.
  replace (key_or_random (Some (FrequencyHopping.secret_key h)) os_random')
    with (FrequencyHopping.secret_key h)
    by (destruct (FrequencyHopping.secret_key h); [congruence|reflexivity]).
  rewrite Hk.
  destruct (_generate_hop_table (key_or_random secret_key os_random)
                                hop_range hop_spacing_hz) as [t|];
    [|discriminate].
  injection H as <-. reflexivity.
Qed.

(** X6 with the key [b"key"], on a grid of three channels. *)
Lemma exported_key_rebuilds_hop_table_witness :
  exists h,
    __init__ (repeat x00 32) (Some (bytes_of_string "key"))
             (20000%Q, 20300%Q) default_dwell_time_ms default_hop_spacing_hz
             default_sample_rate = Ok h
    /\ export_key h = "6b6579"%string
    /\ import_key (export_key h) = Ok (bytes_of_string "key").
Proof.
  eexists.
  match goal with
  | |- ?I = Ok ?h /\ _ =>
      assert (I = Ok h) as Hh by (vm_compute; reflexivity);
      pose proof (proj1 (exported_key_rebuilds_hop_table
                           _ (repeat xff 32) _ _ _ _ _ 48000 _ Hh
                           ltac:(discriminate))) as Hi
  end.
  split; [exact Hh|]. split; [reflexivity | exact Hi].
Defined.

End KeyExtras.

(* ================================================================== *)
(** ** The 16-bit samples of save_wav *)

Module WavExtras.
Import HopperFiles.
Local Open Scope R_scope.

Lemma fold_Rmax_ge (l : list R) :
  forall acc,
    acc <= fold_left Rmax l acc
    /\ Forall (fun x => x <= fold_left Rmax l acc) l.
Proof.
  induction l as [|x l IH]; intros acc; simpl.
  - split; [lra | constructor].
  - destruct (IH (Rmax acc x)) as [H1 H2].
    pose proof (Rmax_l acc x). pose proof (Rmax_r acc x).
    split; [lra|]. constructor; [lra | exact H2].
Qed.

Lemma max_abs_bounds (samples : list R) :
  0 <= max_abs samples
  /\ Forall (fun s => Rabs s <= max_abs samples) samples.
Proof.
  destruct samples as [|s rest]; simpl.
  - split; [lra | constructor].
  - destruct (fold_Rmax_ge (map Rabs rest) (Rabs s)) as [H1 H2].
    pose proof (Rabs_pos s).
    split; [lra|]. constructor; [exact H1|].
    rewrite Forall_map in H2. exact H2.
Qed.

(** Truncation keeps a float within the integers around it. *)
Lemma int_of_real_bounds (x : R) (k : Z) :
  (0 <= k)%Z -> - IZR k - 1 < x < IZR k + 1 ->
  (- k <= int_of_real x <= k)%Z.
Proof.
  intros Hk [Hlo Hhi]. unfold int_of_real.
  destruct (Rle_dec 0 x) as [Hx|Hx].
  - destruct (base_Int_part x) as [H1 H2].
    assert (IZR (Int_part x) < IZR (k + 1)) by (rewrite plus_IZR; lra).
    assert (IZR (-1) < IZR (Int_part x)) by lra.
    apply lt_IZR in H, H0. lia.
  - destruct (base_Int_part (- x)) as [H1 H2].
    assert (IZR (Int_part (- x)) < IZR (k + 1)) by (rewrite plus_IZR; lra).
    assert (IZR (-1) < IZR (Int_part (- x))) by lra.
    apply lt_IZR in H, H0. lia.
Qed.

Lemma scaled_sample_bound (s max_val : R) :
  0 < max_val -> Rabs s <= max_val ->
  - IZR 27851 - 1 < s / max_val * (85 / 100) * 32767 < IZR 27851 + 1.
Proof.
  intros Hm Hs.
  assert (-1 <= s / max_val <= 1) as [Hlo Hhi].
  { unfold Rabs in Hs. destruct (Rcase_abs s).
    - split.
      + apply Rmult_le_reg_r with max_val; [assumption|].
        unfold Rdiv. rewrite Rmult_assoc, Rinv_l by lra. lra.
      + apply Rmult_le_reg_r with max_val; [assumption|].
        unfold Rdiv. rewrite Rmult_assoc, Rinv_l by lra. lra.
    - split.
      + apply Rmult_le_reg_r with max_val; [assumption|].
        unfold Rdiv. rewrite Rmult_assoc, Rinv_l by lra. lra.
      + apply Rmult_le_reg_r with max_val; [assumption|].
        unfold Rdiv. rewrite Rmult_assoc, Rinv_l by lra. lra. }
  split; lra.
Qed.

Lemma pack_h_in_range (v : Z) :
  (-32768 <= v <= 32767)%Z -> pack_h v <> None.
Proof.
  intros H. unfold pack_h.
  replace ((-32768 <=? v) && (v <=? 32767))%Z%bool with true; [discriminate|].
  symmetry. apply andb_true_iff. split; apply Z.leb_le; lia.
Qed.

(** X7: the values that [FrequencyHopper.save_wav] packs are 16-bit
    integers, within [-27851, 27851], one per sample: [struct.pack] never
    fails on them.  A silent waveform is not divided by its peak. *)
Theorem hopper_int_samples_fit_16_bits (samples : list R) :
  length (int_samples samples) = length samples
  /\ Forall (fun v => (-27851 <= v <= 27851)%Z /\ pack_h v <> None)
            (int_samples samples).
Proof.
  unfold int_samples. cbv zeta.
  destruct (max_abs_bounds samples) as [Hm Hall].
  assert (forall v, (-27851 <= v <= 27851)%Z ->
                    (-27851 <= v <= 27851)%Z /\ pack_h v <> None) as Hp.
  { intros v Hv. split; [exact Hv | apply pack_h_in_range; lia]. }
  destruct (Rlt_dec 0 (max_abs samples)) as [Hpos|Hzero].
  - split; [now rewrite !length_map|].
    rewrite !Forall_map. eapply Forall_impl; [|exact Hall].
    intros s Hs. cbv beta. apply Hp.
    apply (int_of_real_bounds _ 27851); [lia|]. now apply scaled_sample_bound.
  - split; [now rewrite length_map|].
    rewrite Forall_map. eapply Forall_impl; [|exact Hall].
    intros s Hs. cbv beta. apply Hp.
    apply (int_of_real_bounds _ 27851); [lia|].
    assert (s = 0) as ->.
    { pose proof (Rabs_pos s). assert (Rabs s = 0) as H0 by lra.
      unfold Rabs in H0. destruct (Rcase_abs s); lra. }
    simpl. lra.
Qed.

End WavExtras.

(* ================================================================== *)
(** ** Bitrate and framing of the multi-carrier encoder *)

Module FramingExtras.
Import UltrasonicCompression Points Frame Constellation Frames.
Local Open Scope Z_scope.

Lemma calculate_bitrate_eq (self : UltrasonicOFDM) :
  _calculate_bitrate self
  = Z.quot (10000000 * (num_carriers self * bits_per_symbol self)) 12000.
Proof.
  unfold _calculate_bitrate, Py.int_of. cbv zeta.
  destruct (num_carriers self * bits_per_symbol self); reflexivity.
Qed.

(** X8: with at least one carrier, the theoretical bitrate grows strictly
    with the modulation order: BPSK, QPSK, 16QAM, 64QAM. *)
Theorem bitrate_grows_with_modulation (sr n : Z) :
  1 <= n ->
  exists bpsk qpsk qam16 qam64,
    __init__ sr n "BPSK" = Ok bpsk
    /\ __init__ sr n "QPSK" = Ok qpsk
    /\ __init__ sr n "16QAM" = Ok qam16
    /\ __init__ sr n "64QAM" = Ok qam64
    /\ 0 < _calculate_bitrate bpsk
    /\ _calculate_bitrate bpsk < _calculate_bitrate qpsk
    /\ _calculate_bitrate qpsk < _calculate_bitrate qam16
    /\ _calculate_bitrate qam16 < _calculate_bitrate qam64.
Proof.
  intros Hn. do 4 eexists.
  do 4 (split; [reflexivity|]).
  rewrite !calculate_bitrate_eq. cbn [num_carriers bits_per_symbol].
  change (Z.log2 2) with 1. change (Z.log2 4) with 2.
  change (Z.log2 16) with 4. change (Z.log2 64) with 6.
  rewrite !Z.quot_div_nonneg by lia.
  pose proof (Z.div_mod (10000000 * (n * 1)) 12000 ltac:(lia)).
  pose proof (Z.mod_pos_bound (10000000 * (n * 1)) 12000 ltac:(lia)).
  pose proof (Z.div_mod (10000000 * (n * 2)) 12000 ltac:(lia)).
  pose proof (Z.mod_pos_bound (10000000 * (n * 2)) 12000 ltac:(lia)).
  pose proof (Z.div_mod (10000000 * (n * 4)) 12000 ltac:(lia)).
  pose proof (Z.mod_pos_bound (10000000 * (n * 4)) 12000 ltac:(lia)).
  pose proof (Z.div_mod (10000000 * (n * 6)) 12000 ltac:(lia)).
  pose proof (Z.mod_pos_bound (10000000 * (n * 6)) 12000 ltac:(lia)).
  lia.
Qed.

(** X8 at the default carrier count. *)
Lemma bitrate_grows_with_modulation_witness :
  exists bpsk qam64,
    __init__ SAMPLE_RATE OFDM_NUM_CARRIERS "BPSK" = Ok bpsk
    /\ __init__ SAMPLE_RATE OFDM_NUM_CARRIERS "64QAM" = Ok qam64
    /\ _calculate_bitrate bpsk < _calculate_bitrate qam64.
Proof.
  destruct (bitrate_grows_with_modulation SAMPLE_RATE OFDM_NUM_CARRIERS
              ltac:(unfold OFDM_NUM_CARRIERS; lia))
    as (b & q & s & t & Hb & Hq & Hs & Ht & _ & H1 & H2 & H3).
  exists b, t. repeat split; auto. lia.
Defined.

(** *** Slices *)

Lemma slice_eq {A} (l : list A) a b :
  0 <= a <= b -> b <= Z.of_nat (length l) ->
  Py.slice l a b = firstn (Z.to_nat (b - a)) (skipn (Z.to_nat a) l).
Proof.
  intros H Hb. unfold Py.slice, Py.clip_index.
  replace (a <? 0) with false by (symmetry; apply Z.ltb_ge; lia).
  replace (b <? 0) with false by (symmetry; apply Z.ltb_ge; lia).
  f_equal; [f_equal; lia | f_equal; lia].
Qed.

Lemma slice_length {A} (l : list A) a b :
  0 <= a <= b -> b <= Z.of_nat (length l) ->
  length (Py.slice l a b) = Z.to_nat (b - a).
Proof.
  intros H Hb. rewrite slice_eq by assumption.
  rewrite length_firstn, length_skipn. lia.
Qed.

Lemma firstn_plus {A} (n m : nat) (l : list A) :
  firstn (n + m) l = firstn n l ++ firstn m (skipn n l).
Proof.
  revert l. induction n as [|n IH]; intros [|x l]; simpl; try reflexivity.
  - now rewrite firstn_nil.
  - now rewrite IH.
Qed.

Lemma slice_app {A} (l : list A) a b c :
  0 <= a <= b -> b <= c -> c <= Z.of_nat (length l) ->
  Py.slice l a b ++ Py.slice l b c = Py.slice l a c.
Proof.
  intros Hab Hbc Hc. rewrite !slice_eq by lia.
  replace (Z.to_nat (c - a)) with (Z.to_nat (b - a) + Z.to_nat (c - b))%nat
    by lia.
  rewrite firstn_plus. f_equal.
  rewrite skipn_skipn. do 2 f_equal. lia.
Qed.

Lemma slice_all {A} (l : list A) :
  Py.slice l 0 (Z.of_nat (length l)) = l.
Proof.
  rewrite slice_eq by lia. simpl skipn.
  rewrite Z.sub_0_r, Nat2Z.id. apply firstn_all.
Qed.

(** Consecutive slices of one width add up to one slice. *)
Lemma slices_concat {A} (l : list A) (start w : Z) (n : nat) :
  0 <= start -> 0 <= w -> start + Z.of_nat n * w <= Z.of_nat (length l) ->
  flat_map (fun j => Py.slice l (start + j * w) (start + j * w + w))
           (map Z.of_nat (seq 0 n))
  = Py.slice l start (start + Z.of_nat n * w).
Proof.
  intros Hs Hw. induction n as [|n IH]; intros Hn.
  - simpl. rewrite Z.add_0_r. rewrite slice_eq by lia.
    now rewrite Z.sub_diag.
  - rewrite seq_S, map_app, flat_map_app. cbn [map flat_map].
    rewrite app_nil_r, IH by nia.
    rewrite Nat.add_0_l. rewrite slice_app by nia.
    f_equal. lia.
Qed.

Lemma flat_map_ext_on {A B} (f g : A -> list B) (l : list A) :
  (forall x, In x l -> f x = g x) -> flat_map f l = flat_map g l.
Proof.
  induction l as [|x l IH]; intros H; simpl; [reflexivity|].
  rewrite (H x) by now left.
  rewrite IH; [reflexivity|].
  intros y Hy. apply H. now right.
Qed.

End FramingExtras.

(* ================================================================== *)
(** ** The bits inside the frames *)

Module BitsExtras.
Import UltrasonicCompression Points Frame Constellation Frames FramingExtras.
Import Demap.
Local Open Scope Z_scope.

(** The value of a bit-group, by Horner's rule. *)
Lemma symbol_fold_horner (l : list Z) :
  forall (k : nat) acc,
    fold_left (fun acc '(i, b) => acc + Z.shiftl b i)
              (combine (map Z.of_nat (seq k (length l))) l) acc
    = acc + 2 ^ Z.of_nat k * fold_right (fun b v => b + 2 * v) 0 l.
Proof.
  induction l as [|b l IH]; intros k acc;
    cbn [length seq map combine fold_left fold_right].
  - lia.
  - rewrite IH. rewrite Z.shiftl_mul_pow2 by lia.
    rewrite Nat2Z.inj_succ, Z.pow_succ_r by lia. ring.
Qed.

Lemma symbol_of_bits_horner (l : list Z) :
  symbol_of_bits l = fold_right (fun b v => b + 2 * v) 0 l.
Proof.
  unfold symbol_of_bits, Py.enumerate, Py.range. rewrite Nat2Z.id.
  rewrite (symbol_fold_horner l 0 0).
  change (Z.of_nat 0) with 0. rewrite Z.pow_0_r. lia.
Qed.

Lemma bits_of_horner (l : list Z) :
  Forall is_bit l ->
  map (fun i => Z.land (Z.shiftr (fold_right (fun b v => b + 2 * v) 0 l) i) 1)
      (map Z.of_nat (seq 0 (length l)))
  = l.
Proof.
  induction 1 as [|b l Hb Hl IH]; [reflexivity|].
  cbn [length seq map fold_right].
  set (v := fold_right (fun b v => b + 2 * v) 0 l) in *.
  f_equal.
  - rewrite Z.shiftr_0_r. change 1 with (Z.ones 1). rewrite Z.land_ones by lia.
    change (2 ^ 1) with 2. destruct Hb as [-> | ->].
    + replace (0 + 2 * v) with (0 + v * 2) by lia.
      now rewrite Z.mod_add by lia.
    + replace (1 + 2 * v) with (1 + v * 2) by lia.
      now rewrite Z.mod_add by lia.
  - rewrite <- seq_shift, !map_map. rewrite <- IH at 2.
    rewrite map_map. apply map_ext. intros i.
    rewrite Nat2Z.inj_succ.
    replace (Z.succ (Z.of_nat i)) with (1 + Z.of_nat i) by lia.
    rewrite <- Z.shiftr_shiftr by lia.
    do 2 f_equal. rewrite Z.shiftr_div_pow2 by lia. change (2 ^ 1) with 2.
    destruct Hb as [-> | ->].
    + replace (0 + 2 * v) with (0 + v * 2) by lia.
      now rewrite Z.div_add by lia.
    + replace (1 + 2 * v) with (1 + v * 2) by lia.
      now rewrite Z.div_add by lia.
Qed.

(** Reading the bits of a bit-group gives the group back. *)
Lemma bits_of_symbol_of_bits (l : list Z) :
  Forall is_bit l ->
  bits_of_symbol (Z.of_nat (length l)) (symbol_of_bits l) = l.
Proof.
  intros H. unfold bits_of_symbol, Py.range.
  rewrite Nat2Z.id, symbol_of_bits_horner. now apply bits_of_horner.
Qed.

(** The padding loop stops at the first aligned length. *)
Lemma pad_bits_stops_early (fuel : nat) :
  forall bits m padded,
    m <> 0 -> pad_bits fuel bits m = Ok padded ->
    exists k,
      padded = bits ++ repeat 0 k /\ (k <= fuel)%nat
      /\ forall j, (j < k)%nat -> Z.of_nat (length bits + j) mod m <> 0.
Proof.
  induction fuel as [|fuel IH]; intros bits m padded Hm;
    simpl; unfold Py.mod_; replace (m =? 0) with false
      by (symmetry; now apply Z.eqb_neq); cbn [Py.bind].
  - intros H. exists 0%nat. simpl. rewrite app_nil_r.
    split; [destruct (_ =? 0); congruence|]. split; [lia|]. intros j Hj. lia.
  - destruct (Z.of_nat (length bits) mod m =? 0) eqn:E.
    + intros [= <-]. exists 0%nat. simpl. rewrite app_nil_r.
      split; [reflexivity|]. split; [lia|]. intros j Hj. lia.
    + apply Z.eqb_neq in E. intros H.
      destruct (IH _ _ _ Hm H) as (k & -> & Hk & Hmin).
      exists (S k). rewrite <- app_assoc. split; [reflexivity|].
      split; [lia|]. intros [|j] Hj.
      * now rewrite Nat.add_0_r.
      * specialize (Hmin j ltac:(lia)). rewrite length_app in Hmin.
        simpl in Hmin.
        now replace (length bits + S j)%nat with (length bits + 1 + j)%nat
          by lia.
Qed.

Lemma pad_bits_short bits m :
  0 < m ->
  exists k,
    pad_bits (Z.abs_nat m) bits m = Ok (bits ++ repeat 0 k)
    /\ Z.of_nat k < m
    /\ Z.of_nat (length bits + k) mod m = 0.
Proof.
  intros Hm.
  destruct (pad_bits_appends (Z.abs_nat m) bits m ltac:(lia)) as (k0 & E0).
  destruct (pad_bits_stops_early (Z.abs_nat m) bits m _ ltac:(lia) E0)
    as (k & E & Hk & Hmin).
  rewrite E in E0. exists k. split; [exact E0|].
  pose proof (pad_bits_aligned _ _ _ E0) as Hal.
  rewrite length_app, repeat_length in Hal. split; [|exact Hal].
  set (n := Z.of_nat (length bits)) in *.
  pose proof (Z.mod_pos_bound (- n) m Hm) as Hj.
  destruct (Z_lt_dec (Z.of_nat k) m) as [|Hge]; [assumption|exfalso].
  apply (Hmin (Z.to_nat ((- n) mod m)) ltac:(lia)).
  rewrite Nat2Z.inj_add, Z2Nat.id by lia. fold n.
  rewrite Zplus_mod_idemp_r. replace (n + - n) with 0 by lia.
  apply Z.mod_0_l. lia.
Qed.

Lemma Forall_is_bit_zeros k : Forall is_bit (repeat 0 k).
Proof.
  apply Forall_forall. intros x Hx. apply repeat_spec in Hx. now left.
Qed.

(** The frames of a payload: the padded bit string, cut into bit-groups. *)
Lemma frames_layout (sr n : Z) (m : string) o data :
  1 <= n -> __init__ sr n m = Ok o ->
  exists frames k,
    pad_bits (Z.abs_nat (bits_per_ofdm_symbol o)) (flat_map byte_bits data)
             (bits_per_ofdm_symbol o)
    = Ok (flat_map byte_bits data ++ repeat 0 k)
    /\ _bytes_to_symbols o data = Ok frames
    /\ flat_map (flat_map (bits_of_symbol (bits_per_symbol o))) frames
       = flat_map byte_bits data ++ repeat 0 k
    /\ Z.of_nat k < bits_per_ofdm_symbol o
    /\ Z.of_nat (length frames) * bits_per_ofdm_symbol o
       = 8 * Z.of_nat (length data) + Z.of_nat k.
Proof.
  intros Hn Hinit.
  destruct (init_shape _ _ _ _ Hinit) as (_ & Hnc & _ & _ & Hbps).
  set (w := bits_per_symbol o) in *.
  assert (0 < bits_per_ofdm_symbol o) as HB
    by (unfold bits_per_ofdm_symbol; fold w; nia).
  destruct (pad_bits_short (flat_map byte_bits data) _ HB)
    as (k & Epad & Hk & Hal).
  unfold _bytes_to_symbols. fold (bits_per_ofdm_symbol o). rewrite Epad.
  cbn [Py.bind].
  set (bits := flat_map byte_bits data ++ repeat 0 k) in *.
  set (B := bits_per_ofdm_symbol o) in *.
  assert (Forall is_bit bits) as Hbits.
  { apply Forall_app. split; [apply data_bits_are_bits|].
    apply Forall_is_bit_zeros. }
  assert (Z.of_nat (length bits) = Z.of_nat (length (flat_map byte_bits data))
                                   + Z.of_nat k) as Hlen.
  { subst bits. rewrite length_app, repeat_length. lia. }
  assert (length (flat_map byte_bits data) = (8 * length data)%nat) as Hdata.
  { clear. induction data as [|b data IH]; [reflexivity|].
    cbn [flat_map]. rewrite length_app, IH.
    unfold byte_bits. rewrite length_map, length_range. simpl. lia. }
  assert (Z.of_nat (length bits) mod B = 0) as Hal'
    by (rewrite Hlen, <- Nat2Z.inj_add; exact Hal).
  apply Z.mod_divide in Hal'; [|lia]. destruct Hal' as (F & HF).
  assert (0 <= F) as HF0 by nia.
  assert ((Z.of_nat (length bits) + B - 1) / B = F) as Hcount.
  { rewrite HF. replace (F * B + B - 1) with ((B - 1) + F * B) by lia.
    rewrite Z.div_add by lia. rewrite Z.div_small by lia. lia. }
  unfold Py.range_step.
  replace (B =? 0) with false by (symmetry; apply Z.eqb_neq; lia).
  replace (B <? 0) with false by (symmetry; apply Z.ltb_ge; lia).
  cbn [Py.bind]. rewrite Hcount.
  exists (map (fun ofdm_idx =>
                 map (fun carrier_idx =>
                        symbol_of_bits
                          (Py.slice bits (ofdm_idx + carrier_idx * w)
                                    (ofdm_idx + carrier_idx * w + w)))
                     (Py.range (num_carriers o)))
              (map (fun k => k * B) (Py.range F))), k.
  split; [reflexivity|].
  split; [reflexivity|]. split; [|split; [exact Hk|]].
  - rewrite map_map, flat_map_concat_map, map_map, <- flat_map_concat_map.
    transitivity
      (flat_map (fun j => Py.slice bits (0 + j * B) (0 + j * B + B))
                (Py.range F)).
    + apply flat_map_ext_on. intros j Hj. apply HoppedSymbols.In_range in Hj.
      rewrite flat_map_concat_map, map_map, <- flat_map_concat_map.
      transitivity
        (flat_map (fun c => Py.slice bits (j * B + c * w) (j * B + c * w + w))
                  (Py.range (num_carriers o))).
      * apply flat_map_ext_on. intros c Hc. apply HoppedSymbols.In_range in Hc.
        assert (j * B + c * w + w <= Z.of_nat (length bits)) as Hend.
        { rewrite HF.
          assert ((c + 1) * w <= num_carriers o * w)
            by (apply Z.mul_le_mono_nonneg_r; lia).
          assert ((j + 1) * B <= F * B)
            by (apply Z.mul_le_mono_nonneg_r; lia).
          assert (B = w * num_carriers o) as HB' by reflexivity.
          lia. }
        assert (0 <= j * B + c * w) as Hstart by nia.
        pose proof (slice_length bits (j * B + c * w) (j * B + c * w + w)
                      ltac:(lia) Hend) as Hl.
        replace w with
          (Z.of_nat (length (Py.slice bits (j * B + c * w)
                                      (j * B + c * w + w)))) at 1
          by (rewrite Hl; lia).
        apply bits_of_symbol_of_bits. now apply Forall_slice.
      * unfold Py.range.
        rewrite (slices_concat bits (j * B) w (Z.to_nat (num_carriers o)))
          by (try rewrite Z2Nat.id by lia; try nia;
              rewrite HF;
              assert ((j + 1) * B <= F * B)
                by (apply Z.mul_le_mono_nonneg_r; lia);
              assert (B = w * num_carriers o) as HB' by reflexivity;
              lia).
        rewrite Z2Nat.id by lia.
        assert (B = w * num_carriers o) as HB' by reflexivity.
        f_equal; lia.
    + unfold Py.range.
      rewrite (slices_concat bits 0 B (Z.to_nat F))
        by (try rewrite Z2Nat.id by lia; lia).
      rewrite Z2Nat.id by lia. rewrite Z.add_0_l, <- HF. apply slice_all.
  - rewrite !length_map, length_range, Z2Nat.id by lia.
    rewrite <- HF, Hlen, Hdata. lia.
Qed.

(** X9: an encoder with at least one carrier loses no payload bit: reading
    every symbol value of every frame, least significant bit first, gives
    the bits of the payload bytes followed by fewer zeros than one frame
    holds, and the frames are filled completely. *)
Theorem frames_carry_payload_bits (sr n : Z) (m : string) o data :
  1 <= n -> __init__ sr n m = Ok o ->
  exists frames k,
    _bytes_to_symbols o data = Ok frames
    /\ flat_map (flat_map (bits_of_symbol (bits_per_symbol o))) frames
       = flat_map byte_bits data ++ repeat 0 k
    /\ Z.of_nat k < bits_per_ofdm_symbol o
    /\ Z.of_nat (length frames) * bits_per_ofdm_symbol o
       = 8 * Z.of_nat (length data) + Z.of_nat k.
Proof.
  intros Hn Hinit.
  destruct (frames_layout sr n m o data Hn Hinit)
    as (frames & k & _ & H).
  now exists frames, k.
Qed.

(** X9 for the default encoder and a one-byte payload. *)
Lemma frames_carry_payload_bits_witness :
  exists o frames k,
    __init__ SAMPLE_RATE OFDM_NUM_CARRIERS "QPSK" = Ok o
    /\ _bytes_to_symbols o [x41] = Ok frames
    /\ flat_map (flat_map (bits_of_symbol (bits_per_symbol o))) frames
       = flat_map byte_bits [x41] ++ repeat 0 k
    /\ Z.of_nat k < bits_per_ofdm_symbol o.
Proof.
  eexists.
  match goal with
  | |- exists frames k, ?I = Ok ?h /\ _ =>
      assert (I = Ok h) as Hh by reflexivity
  end.
  destruct (frames_carry_payload_bits SAMPLE_RATE OFDM_NUM_CARRIERS "QPSK"
              _ [x41] ltac:(unfold OFDM_NUM_CARRIERS; lia) Hh)
    as (frames & k & E & Hbits & Hk & _).
  exists frames, k. repeat split; assumption.
Defined.

(** *** Payloads with the same frames *)

Lemma app_same_length {A} (l1 l2 r1 r2 : list A) :
  length l1 = length l2 -> l1 ++ r1 = l2 ++ r2 -> l1 = l2 /\ r1 = r2.
Proof.
  revert l2. induction l1 as [|x l1 IH]; intros [|y l2] Hl H;
    try discriminate Hl.
  - now split.
  - simpl in H. injection H as -> H. injection Hl as Hl.
    destruct (IH l2 Hl H) as [-> ->]. now split.
Qed.

Lemma byte_val_of_bits (b : byte) :
  Hashlib.byte_val b = symbol_of_bits (byte_bits b).
Proof. destruct b; vm_compute; reflexivity. Qed.

Lemma byte_bits_inj (b1 b2 : byte) : byte_bits b1 = byte_bits b2 -> b1 = b2.
Proof.
  intros H. apply (f_equal symbol_of_bits) in H.
  rewrite <- !byte_val_of_bits in H. unfold Hashlib.byte_val in H.
  apply N2Z.inj in H. apply (f_equal Byte.of_N) in H.
  rewrite !Byte.of_to_N in H. congruence.
Qed.

Lemma length_byte_bits (b : byte) : length (byte_bits b) = 8%nat.
Proof. unfold byte_bits. now rewrite length_map, length_range. Qed.

Lemma data_bits_inj (d1 d2 : Py.bytes) :
  length d1 = length d2 ->
  flat_map byte_bits d1 = flat_map byte_bits d2 -> d1 = d2.
Proof.
  revert d2. induction d1 as [|b1 d1 IH]; intros [|b2 d2] Hl H;
    try discriminate Hl; [reflexivity|].
  cbn [flat_map] in H. injection Hl as Hl.
  apply app_same_length in H;
    [|now rewrite !length_byte_bits].
  destruct H as [Hb Hd]. apply byte_bits_inj in Hb. subst b2.
  f_equal. now apply IH.
Qed.

(** X10: an encoder with at least one carrier maps two different payloads
    of the same length to different frames. *)
Theorem equal_length_payloads_differ_in_frames
        (sr n : Z) (m : string) o (d1 d2 : Py.bytes) :
  1 <= n -> __init__ sr n m = Ok o ->
  length d1 = length d2 ->
  _bytes_to_symbols o d1 = _bytes_to_symbols o d2 ->
  d1 = d2.
Proof.
  intros Hn Hinit Hl Heq.
  destruct (frames_layout sr n m o d1 Hn Hinit)
    as (f1 & k1 & _ & E1 & Hb1 & _ & Hc1).
  destruct (frames_layout sr n m o d2 Hn Hinit)
    as (f2 & k2 & _ & E2 & Hb2 & _ & Hc2).
  rewrite E1, E2 in Heq. injection Heq as ->.
  assert (k1 = k2) as -> by lia.
  rewrite Hb1 in Hb2. apply app_inv_tail in Hb2.
  now apply data_bits_inj.
Qed.

(** X10 for the default encoder and a payload compared with itself. *)
Lemma equal_length_payloads_differ_in_frames_witness :
  exists o,
    __init__ SAMPLE_RATE OFDM_NUM_CARRIERS "QPSK" = Ok o
    /\ _bytes_to_symbols o [x41] = _bytes_to_symbols o [x41]
    /\ [x41] = [x41].
Proof.
  eexists.
  match goal with
  | |- ?I = Ok ?h /\ _ => assert (I = Ok h) as Hh by reflexivity
  end.
  split; [exact Hh|]. split; [reflexivity|].
  exact (equal_length_payloads_differ_in_frames
           SAMPLE_RATE OFDM_NUM_CARRIERS "QPSK" _ [x41] [x41]
           ltac:(unfold OFDM_NUM_CARRIERS; lia) Hh eq_refl eq_refl).
Defined.

(** X11: the frames do not carry the payload length: when the frames of a
    payload have room for one more byte, the payload followed by a zero
    byte gives the same frames. *)
Theorem trailing_zero_byte_absorbed
        (sr n : Z) (m : string) o (data : Py.bytes) frames :
  1 <= n -> __init__ sr n m = Ok o ->
  _bytes_to_symbols o data = Ok frames ->
  8 * (Z.of_nat (length data) + 1)
  <= Z.of_nat (length frames) * bits_per_ofdm_symbol o ->
  _bytes_to_symbols o (data ++ [x00]) = Ok frames.
Proof.
  intros Hn Hinit Hframes Hroom.
  destruct (frames_layout sr n m o data Hn Hinit)
    as (f & k & Epad & E & _ & Hk & Hcount).
  rewrite E in Hframes. injection Hframes as ->.
  destruct (init_shape _ _ _ _ Hinit) as (_ & Hnc & _ & _ & Hbps).
  assert (0 < bits_per_ofdm_symbol o) as HB
    by (unfold bits_per_ofdm_symbol; nia).
  set (B := bits_per_ofdm_symbol o) in *.
  set (bits := flat_map byte_bits data) in *.
  assert (length bits = (8 * length data)%nat) as Hdata.
  { subst bits. rewrite (flat_map_constant_length (c := 8)); [lia|].
    intros b _. apply length_byte_bits. }
  destruct (pad_bits_short (bits ++ repeat 0 8) B HB)
    as (k' & Epad' & Hk' & Hal').
  rewrite length_app, repeat_length in Hal'.
  apply Z.mod_divide in Hal'; [|lia]. destruct Hal' as (a & Ha).
  assert ((8 + k')%nat = k) as Hkk.
  { assert ((Z.of_nat (length frames) - a) * B
            = Z.of_nat k - 8 - Z.of_nat k') as Hd by lia.
    assert (Z.of_nat (length frames) - a = 0) by nia. lia. }
  unfold _bytes_to_symbols in E |- *.
  change (bits_per_symbol o * num_carriers o) with B in E |- *.
  rewrite flat_map_app. cbn [flat_map]. rewrite app_nil_r.
  change (byte_bits x00) with (repeat 0 8). fold bits in E |- *.
  rewrite Epad'. rewrite Epad in E.
  rewrite <- app_assoc, <- repeat_app, Hkk. exact E.
Qed.

(** X11 for the default encoder: [b"A"] and [b"A\x00"]. *)
Lemma trailing_zero_byte_absorbed_witness :
  exists o frames,
    __init__ SAMPLE_RATE OFDM_NUM_CARRIERS "QPSK" = Ok o
    /\ _bytes_to_symbols o [x41] = Ok frames
    /\ _bytes_to_symbols o ([x41] ++ [x00]) = Ok frames.
Proof.
  do 2 eexists.
  match goal with
  | |- ?I = Ok ?h /\ _ => assert (I = Ok h) as Hh by reflexivity
  end.
  split; [exact Hh|].
  match goal with
  | |- ?F = Ok ?f /\ _ =>
      assert (F = Ok f) as Hf by (vm_compute; reflexivity)
  end.
  split; [exact Hf|].
  apply (trailing_zero_byte_absorbed
           SAMPLE_RATE OFDM_NUM_CARRIERS "QPSK" _ [x41] _
           ltac:(unfold OFDM_NUM_CARRIERS; lia) Hh Hf).
  vm_compute. discriminate.
Defined.

End BitsExtras.
(* ================================================================== *)
(** ** The layout of the multi-carrier waveform *)

Module LayoutExtras.
Import UltrasonicCompression Points Frame Constellation Frames.

Lemma update_at_end {A} (W : list A) (x v : A) (rest : list A) :
  Py.update (W ++ x :: rest) (length W) v = W ++ v :: rest.
Proof. induction W as [|y W IH]; simpl; [reflexivity | now rewrite IH]. Qed.

(** The buffer of [encode] is at least as long as the frames and their
    guard intervals. *)
Lemma frames_fit (self : UltrasonicOFDM) (frames : list (list Z)) :
  (0 <= sample_rate self)%Z ->
  (0 <= symbol_samples self)%Z /\ (0 <= guard_samples self)%Z
  /\ (Z.of_nat (length frames) * (symbol_samples self + guard_samples self)
      <= frame_samples self frames)%Z.
Proof.
  intros Hsr. unfold symbol_samples, guard_samples, frame_samples, Py.int_of.
  set (F := Z.of_nat (length frames)). set (sr := sample_rate self) in *.
  assert (0 <= F)%Z by (subst F; lia).
  cbn [Qnum Qden Qmult Qplus inject_Z SYMBOL_DURATION GUARD_INTERVAL].
  rewrite !Z.quot_div_nonneg by nia.
  pose proof (Z.div_mod (sr * 1) 1000 ltac:(lia)).
  pose proof (Z.mod_pos_bound (sr * 1) 1000 ltac:(lia)).
  pose proof (Z.div_mod (sr * 2) 10000 ltac:(lia)).
  pose proof (Z.mod_pos_bound (sr * 2) 10000 ltac:(lia)).
  split; [apply Z.div_pos; lia|]. split; [apply Z.div_pos; lia|].
  apply Z.div_le_lower_bound; [lia|].
  change (Z.pos (1 * (1 * (1000 * 10000)))) with 10000000%Z.
  change (Z.pos (1 * 1000)) with 1000%Z in *.
  change (Z.pos (1 * 10000)) with 10000%Z in *.
  set (a := (sr * 1 / 1000)%Z) in *. set (b := (sr * 2 / 10000)%Z) in *.
  assert (10000000 * (a + b) <= 12000 * sr)%Z by lia.
  replace (10000000 * (F * (a + b)))%Z with (F * (10000000 * (a + b)))%Z
    by ring.
  replace (sr * (F * (1 * 10000 + 2 * 1000)))%Z with (F * (12000 * sr))%Z
    by ring.
  apply Z.mul_le_mono_nonneg_l; lia.
Qed.

Section Layout.
Variable self : UltrasonicOFDM.
Hypothesis Hn : num_carriers self <> 0%Z.
Hypothesis Hfreqs :
  length (carrier_freqs self) = Z.to_nat (num_carriers self).
Hypothesis Hsr : (0 < sample_rate self)%Z.

(** The samples of one frame: the carrier sums at [t_idx / sample_rate]. *)
Lemma write_samples_layout (frame : list Z) (ts : list Z) :
  frame_ok self frame ->
  forall (W : list R) (r : nat),
    (length ts <= r)%nat ->
    exists wave,
      map Ok wave
      = map (fun t => carrier_sum self frame
                        (inject_Z t / inject_Z (sample_rate self))) ts
      /\ Py.for_each
           (write_sample self (Z.of_nat (length W + r)) frame) ts
           (W ++ repeat 0%R r, Z.of_nat (length W))
         = Ok (W ++ wave ++ repeat 0%R (r - length ts),
               Z.of_nat (length W + length ts)).
Proof.
  intros Hf. induction ts as [|t ts IH]; intros W r Hr.
  - exists []. split; [reflexivity|]. cbn [Py.for_each app length].
    now rewrite Nat.sub_0_r, Nat.add_0_r.
  - cbn [length] in Hr. destruct r as [|r]; [lia|].
    destruct (write_sample_returns
                self Hn Hfreqs (Z.of_nat (length W + S r)) frame
                (W ++ repeat 0%R (S r)) (Z.of_nat (length W)) t Hf Hsr)
      as (v & Ev & Ew).
    { split; cbn [fst snd].
      - rewrite length_app, repeat_length, Nat2Z.id. reflexivity.
      - intros _. lia. }
    replace (Z.of_nat (length W) <? Z.of_nat (length W + S r))%Z with true
      in Ew by (symmetry; apply Z.ltb_lt; lia).
    rewrite Nat2Z.id in Ew. cbn [repeat] in Ew.
    rewrite update_at_end in Ew.
    destruct (IH (W ++ [v]) r ltac:(lia)) as (wave & Hwave & Eloop).
    exists (v :: wave). split.
    + cbn [map]. now rewrite Ev, Hwave.
    + cbn [Py.for_each]. cbn [repeat]. rewrite Ew.
      rewrite length_app in Eloop. cbn [length] in Eloop.
      replace (length W + 1 + r)%nat with (length W + S r)%nat
        in Eloop by lia.
      replace (Z.of_nat (length W) + 1)%Z
        with (Z.of_nat (length W + 1)) by lia.
      replace (W ++ v :: repeat 0%R r) with ((W ++ [v]) ++ repeat 0%R r)
        by (now rewrite <- app_assoc).
      rewrite Eloop. rewrite <- !app_assoc. cbn [app length].
      do 3 f_equal. lia.
Qed.

(** One frame and its guard interval. *)
Lemma write_symbol_layout (frame : list Z) (W : list R) (r : nat) :
  frame_ok self frame ->
  (Z.to_nat (symbol_samples self) + Z.to_nat (guard_samples self) <= r)%nat ->
  exists wave,
    map Ok wave
    = map (fun t => carrier_sum self frame
                      (inject_Z t / inject_Z (sample_rate self)))
          (Py.range (symbol_samples self))
    /\ write_symbol self (Z.of_nat (length W + r))
                    (W ++ repeat 0%R r, Z.of_nat (length W)) frame
       = Ok ((W ++ wave ++ repeat 0%R (Z.to_nat (guard_samples self)))
             ++ repeat 0%R (r - Z.to_nat (symbol_samples self)
                            - Z.to_nat (guard_samples self)),
             Z.of_nat (length (W ++ wave
                               ++ repeat 0%R (Z.to_nat (guard_samples self))))).
Proof.
  intros Hf Hr.
  pose proof (frames_fit self [] ltac:(lia)) as (Hss & Hgs & _).
  destruct (write_samples_layout frame (Py.range (symbol_samples self)) Hf W r)
    as (wave & Hwave & Eloop).
  { rewrite length_range. lia. }
  exists wave. split; [exact Hwave|].
  assert (length wave = Z.to_nat (symbol_samples self)) as Hlen.
  { apply (f_equal (@length _)) in Hwave.
    now rewrite !length_map, length_range in Hwave. }
  rewrite write_symbol_eq, Eloop. cbn [Py.bind].
  rewrite length_range. f_equal. f_equal.
  - rewrite <- !app_assoc. do 2 f_equal. rewrite <- repeat_app.
    f_equal. lia.
  - rewrite !length_app, repeat_length, Hlen. lia.
Qed.

(** All frames. *)
Lemma write_frames_layout (frames : list (list Z)) :
  Forall (frame_ok self) frames ->
  forall (W : list R) (r : nat),
    (length frames * (Z.to_nat (symbol_samples self)
                      + Z.to_nat (guard_samples self)) <= r)%nat ->
    exists waves idx,
      Forall2 (fun frame wave =>
                 map Ok wave
                 = map (fun t => carrier_sum self frame
                                   (inject_Z t / inject_Z (sample_rate self)))
                       (Py.range (symbol_samples self)))
              frames waves
      /\ Py.for_each (write_symbol self (Z.of_nat (length W + r))) frames
                     (W ++ repeat 0%R r, Z.of_nat (length W))
         = Ok (W ++ flat_map
                      (fun wave =>
                         wave ++ repeat 0%R (Z.to_nat (guard_samples self)))
                      waves
                 ++ repeat 0%R
                      (r - length frames
                           * (Z.to_nat (symbol_samples self)
                              + Z.to_nat (guard_samples self))),
               idx).
Proof.
  induction 1 as [|frame frames Hf Hfs IH]; intros W r Hr.
  - exists [], (Z.of_nat (length W)). split; [constructor|].
    cbn [Py.for_each flat_map app length]. now rewrite Nat.sub_0_r.
  - cbn [length] in Hr.
    set (P := (Z.to_nat (symbol_samples self)
               + Z.to_nat (guard_samples self))%nat) in *.
    destruct (write_symbol_layout frame W r Hf ltac:(lia))
      as (wave & Hwave & Estep).
    set (W' := W ++ wave ++ repeat 0%R (Z.to_nat (guard_samples self))) in *.
    assert (length wave = Z.to_nat (symbol_samples self)) as Hlen.
    { apply (f_equal (@length _)) in Hwave.
      now rewrite !length_map, length_range in Hwave. }
    assert (length W' = (length W + P)%nat) as HW'.
    { subst W'. rewrite !length_app, repeat_length, Hlen. lia. }
    destruct (IH W' (r - P)%nat ltac:(nia)) as (waves & idx & Hwaves & Eloop).
    exists (wave :: waves), idx. split; [now constructor|].
    cbn [Py.for_each]. rewrite Estep.
    replace (length W' + (r - P))%nat with (length W + r)%nat in Eloop
      by lia.
    replace (r - Z.to_nat (symbol_samples self)
             - Z.to_nat (guard_samples self))%nat with (r - P)%nat by lia.
    rewrite Eloop. subst W'. cbn [flat_map length]. fold P.
    replace (r - S (length frames) * P)%nat
      with (r - P - length frames * P)%nat by lia.
    now rewrite <- !app_assoc.
Qed.

End Layout.

(** X12: the waveform of [encode], for a positive sample rate and at least
    one carrier: frame after frame, the [symbol_samples] carrier sums taken
    at the times [t_idx / sample_rate], [t_idx] restarting at 0 in every
    frame, each followed by [guard_samples] zeros, and zeros up to the
    buffer length at the end. *)
Theorem encode_frame_layout (sr n : Z) (m : string) o (data : Py.bytes) :
  (0 < sr)%Z -> (1 <= n)%Z -> __init__ sr n m = Ok o ->
  exists frames waves samples,
    _bytes_to_symbols o data = Ok frames
    /\ encode o data = Ok samples
    /\ Forall2 (fun frame wave =>
                  map Ok wave
                  = map (fun t_idx =>
                           carrier_sum o frame (inject_Z t_idx / inject_Z sr))
                        (Py.range (symbol_samples o)))
               frames waves
    /\ samples
       = flat_map (fun wave =>
                     wave ++ repeat 0%R (Z.to_nat (guard_samples o)))
                  waves
         ++ repeat 0%R
              (Z.to_nat (frame_samples o frames
                         - Z.of_nat (length frames)
                           * (symbol_samples o + guard_samples o))).
Proof.
  intros Hsr Hn Ho.
  destruct (constructed_frames_ok _ _ _ _ data Ho ltac:(lia))
    as (frames & E & Hf).
  destruct (init_shape _ _ _ _ Ho) as (Esr & En & _ & Hlen & _).
  rewrite <- En in Hn, Hlen. rewrite <- Esr in Hsr.
  destruct (frames_fit o frames ltac:(lia)) as (Hss & Hgs & Hfit).
  set (N := frame_samples o frames) in *.
  destruct (write_frames_layout o ltac:(lia) Hlen Hsr frames Hf
                                [] (Z.to_nat N))
    as (waves & idx & Hwaves & Eloop).
  { nia. }
  cbn [length app] in Eloop. rewrite Nat.add_0_l, Z2Nat.id in Eloop by lia.
  change (Z.of_nat 0) with 0%Z in Eloop.
  exists frames, waves. eexists.
  split; [exact E|]. rewrite encode_eq, E. cbn [Py.bind]. fold N.
  unfold Py.replicate. rewrite Eloop. cbn [Py.bind].
  split; [reflexivity|]. rewrite <- Esr. split; [exact Hwaves|].
  do 2 f_equal. nia.
Qed.

(** X12 for the default encoder and a one-byte payload. *)
Lemma encode_frame_layout_witness :
  exists o frames waves samples,
    __init__ SAMPLE_RATE OFDM_NUM_CARRIERS "QPSK" = Ok o
    /\ _bytes_to_symbols o [x41] = Ok frames
    /\ encode o [x41] = Ok samples
    /\ samples
       = flat_map (fun wave =>
                     wave ++ repeat 0%R (Z.to_nat (guard_samples o)))
                  waves
         ++ repeat 0%R
              (Z.to_nat (frame_samples o frames
                         - Z.of_nat (length frames)
                           * (symbol_samples o + guard_samples o))).
Proof.
  eexists.
  match goal with
  | |- exists frames waves samples, ?I = Ok ?h /\ _ =>
      assert (I = Ok h) as Hh by reflexivity
  end.
  destruct (encode_frame_layout
              SAMPLE_RATE OFDM_NUM_CARRIERS "QPSK" _ [x41]
              ltac:(unfold SAMPLE_RATE; lia)
              ltac:(unfold OFDM_NUM_CARRIERS; lia) Hh)
    as (frames & waves & samples & E & Eenc & _ & Hs).
  exists frames, waves, samples. repeat split; assumption.
Defined.

End LayoutExtras.

(* ================================================================== *)
(** ** The text interface of the multi-carrier encoder *)

Module CompressorExtras.
Import UltrasonicCompression Frame Frames.
Local Open Scope R_scope.

Lemma normalize_zero_peak (s : R) (rest : list R) :
  Compressor.normalize 0 (s :: rest) = Raise ZeroDivisionError.
Proof.
  cbn [Compressor.normalize]. unfold Py.rdiv.
  destruct (Req_dec_T 0 0) as [_|H]; [reflexivity | now elim H].
Qed.

Lemma normalize_nonzero_peak (max_val : R) (samples : list R) :
  max_val <> 0 ->
  Compressor.normalize max_val samples
  = Ok (map (fun s => s / max_val * (85 / 100)) samples).
Proof.
  intros Hm. induction samples as [|s rest IH]; [reflexivity|].
  cbn [Compressor.normalize map]. unfold Py.rdiv.
  destruct (Req_dec_T max_val 0) as [H|_]; [contradiction|].
  cbn [Py.bind]. now rewrite IH.
Qed.

Lemma fold_Rmax_zero (l : list R) :
  Forall (fun s => s = 0) l -> fold_left Rmax (map Rabs l) 0 = 0.
Proof.
  induction 1 as [|s l Hs _ IH]; [reflexivity|]. subst s.
  cbn [map fold_left]. rewrite Rabs_R0.
  replace (Rmax 0 0) with 0 by (unfold Rmax; destruct (Rle_dec 0 0); lra).
  exact IH.
Qed.

Lemma max_abs_silent (samples : list R) :
  samples <> [] -> Forall (fun s => s = 0) samples ->
  HopperFiles.max_abs samples = 0.
Proof.
  destruct samples as [|s rest]; [congruence|]. intros _ H.
  inversion H as [|? ? Hs Hrest]; subst. cbn [HopperFiles.max_abs].
  rewrite Rabs_R0. now apply fold_Rmax_zero.
Qed.

Lemma max_abs_positive (samples : list R) :
  Exists (fun s => s <> 0) samples -> 0 < HopperFiles.max_abs samples.
Proof.
  intros H. apply Exists_exists in H. destruct H as (s & Hin & Hs).
  destruct (WavExtras.max_abs_bounds samples) as [_ Hall].
  rewrite Forall_forall in Hall. specialize (Hall s Hin).
  pose proof (Rabs_pos_lt s Hs). lra.
Qed.

(** X13: [DataCompressor.save_wav] divides by the peak without looking at
    it: on a waveform that has samples and is silent it raises
    [ZeroDivisionError], where [FrequencyHopper.save_wav] writes zeros. *)
Theorem compressor_save_wav_silent_waveform (samples : list R) :
  samples <> [] -> Forall (fun s => s = 0) samples ->
  Compressor.int_samples samples = Raise ZeroDivisionError
  /\ HopperFiles.int_samples samples = map (fun _ => 0%Z) samples.
Proof.
  intros Hne Hz. pose proof (max_abs_silent samples Hne Hz) as Hm.
  split.
  - unfold Compressor.int_samples. cbv zeta. rewrite Hm.
    destruct samples as [|s rest]; [congruence|].
    now rewrite normalize_zero_peak.
  - unfold HopperFiles.int_samples. cbv zeta. rewrite Hm.
    destruct (Rlt_dec 0 0) as [H|_]; [lra|].
    clear Hne Hm. induction Hz as [|s rest Hs _ IH]; [reflexivity|].
    cbn [map]. rewrite IH. f_equal. subst s.
    rewrite Rmult_0_l. unfold HopperFiles.int_of_real.
    destruct (Rle_dec 0 0) as [_|H]; [|lra].
    symmetry. apply (Int_part_spec 0 0). simpl. lra.
Qed.

(** X13 for one silent sample. *)
Lemma compressor_save_wav_silent_waveform_witness :
  Compressor.int_samples [0] = Raise ZeroDivisionError
  /\ HopperFiles.int_samples [0] = [0%Z].
Proof.
  apply (compressor_save_wav_silent_waveform [0]).
  - discriminate.
  - repeat constructor.
Defined.

(** X14: on a waveform with a sample different from 0,
    [DataCompressor.save_wav] packs one 16-bit integer per sample, each
    within [-27851, 27851]. *)
Theorem compressor_int_samples_fit_16_bits (samples : list R) :
  Exists (fun s => s <> 0) samples ->
  exists ints,
    Compressor.int_samples samples = Ok ints
    /\ length ints = length samples
    /\ Forall (fun v => (-27851 <= v <= 27851)%Z
                        /\ HopperFiles.pack_h v <> None) ints.
Proof.
  intros Hex. pose proof (max_abs_positive samples Hex) as Hm.
  unfold Compressor.int_samples. cbv zeta.
  rewrite normalize_nonzero_peak by lra. cbn [Py.bind].
  eexists. split; [reflexivity|]. split; [now rewrite !length_map|].
  destruct (WavExtras.max_abs_bounds samples) as [_ Hall].
  rewrite !Forall_map. eapply Forall_impl; [|exact Hall].
  intros s Hs. cbv beta.
  assert (-27851 <= HopperFiles.int_of_real
                      (s / HopperFiles.max_abs samples * (85 / 100) * 32767)
          <= 27851)%Z as Hv.
  { apply (WavExtras.int_of_real_bounds _ 27851); [lia|].
    now apply WavExtras.scaled_sample_bound. }
  split; [exact Hv | apply WavExtras.pack_h_in_range; lia].
Qed.

(** X14 for a waveform of two samples. *)
Lemma compressor_int_samples_fit_16_bits_witness :
  exists ints,
    Compressor.int_samples [1; -1 / 2] = Ok ints
    /\ length ints = 2%nat.
Proof.
  destruct (compressor_int_samples_fit_16_bits [1; -1 / 2])
    as (ints & E & Hlen & _).
  - constructor. lra.
  - exists ints. split; assumption.
Defined.

(** *** [transmit_text] *)

Local Open Scope Z_scope.

Lemma encode_empty_payload (sr n : Z) (m : string) o :
  1 <= n -> __init__ sr n m = Ok o -> encode o [] = Ok [].
Proof.
  intros Hn Ho.
  destruct (init_shape _ _ _ _ Ho) as (_ & En & _ & _ & Hb).
  assert (bits_per_symbol o * num_carriers o <> 0) as HB by nia.
  rewrite encode_eq. unfold _bytes_to_symbols. cbn [flat_map].
  assert (forall fuel B, B <> 0 -> pad_bits fuel [] B = Ok []) as Hpad.
  { intros fuel B HB0. destruct fuel; simpl; unfold Py.mod_;
      replace (B =? 0) with false by (symmetry; now apply Z.eqb_neq);
      cbn [Py.bind]; now rewrite Z.mod_0_l by assumption. }
  rewrite Hpad by assumption. cbn [Py.bind length].
  unfold Py.range_step.
  replace (_ =? 0) with false by (symmetry; now apply Z.eqb_neq).
  replace (_ <? 0) with false by (symmetry; apply Z.ltb_ge; nia).
  change (Z.of_nat 0) with 0. rewrite Z.add_0_l.
  rewrite Z.div_small by nia. change (Py.range 0) with (@nil Z).
  cbn [Py.bind map Py.for_each].
  assert (frame_samples o [] = 0) as ->.
  { unfold frame_samples, Py.int_of.
    cbn [length Qnum Qden Qmult Qplus inject_Z Z.of_nat
         SYMBOL_DURATION GUARD_INTERVAL].
    rewrite Z.mul_0_l, Z.mul_0_r. reflexivity. }
  reflexivity.
Qed.

Lemma calculate_stats_returns
      (self : UltrasonicOFDM) (data : Py.bytes) (samples : list R) :
  sample_rate self <> 0 -> samples <> [] ->
  calculate_stats self data samples
  = Ok {| raw_bytes := Z.of_nat (length data);
          compressed_bytes := Z.of_nat (length data);
          compression_ratio := 1;
          transmission_time :=
            (inject_Z (Z.of_nat (length samples))
             / inject_Z (sample_rate self))%Q;
          bitrate_bps :=
            Py.int_of (inject_Z (Z.of_nat (length data) * 8)
                       / (inject_Z (Z.of_nat (length samples))
                          / inject_Z (sample_rate self)))%Q;
          efficiency :=
            (inject_Z (Z.of_nat (length data) * 8)
             / (inject_Z (Z.of_nat (length samples))
                / inject_Z (sample_rate self))
             / OFDM_BANDWIDTH)%Q |}.
Proof.
  intros Hsr Hs. unfold calculate_stats. rewrite HoppedSymbols.div_by_int.
  replace (sample_rate self =? 0) with false
    by (symmetry; now apply Z.eqb_neq).
  cbn [Py.bind]. unfold Py.div at 1. rewrite Stats.quotient_is_zero.
  replace (sample_rate self =? 0) with false
    by (symmetry; now apply Z.eqb_neq).
  replace (Z.of_nat (length samples) =? 0) with false
    by (symmetry; apply Z.eqb_neq; destruct samples;
        [congruence | simpl; lia]).
  reflexivity.
Qed.

Lemma compressor_encoder (modulation : string) (c : Compressor.DataCompressor) :
  Compressor.__init__ modulation = Ok c ->
  UltrasonicCompression.__init__ SAMPLE_RATE OFDM_NUM_CARRIERS modulation
  = Ok (Compressor.encoder c).
Proof.
  unfold Compressor.__init__. intros Hc.
  destruct (UltrasonicCompression.__init__ SAMPLE_RATE OFDM_NUM_CARRIERS
                                           modulation) as [o|e];
    [|discriminate]. cbn [Py.bind] in Hc. now injection Hc as <-.
Qed.

Lemma transmit_text_empty (modulation : string) (c : Compressor.DataCompressor) :
  Compressor.__init__ modulation = Ok c ->
  Compressor.transmit_text c [] = Raise ZeroDivisionError.
Proof.
  intros Hc. apply compressor_encoder in Hc.
  unfold Compressor.transmit_text. cbv zeta.
  rewrite (encode_empty_payload SAMPLE_RATE OFDM_NUM_CARRIERS modulation _
             ltac:(unfold OFDM_NUM_CARRIERS; lia) Hc).
  cbn [Py.bind]. now rewrite Stats.calculate_stats_empty.
Qed.

Lemma transmit_text_returns (modulation : string)
      (c : Compressor.DataCompressor) (text : Py.bytes) :
  Compressor.__init__ modulation = Ok c -> text <> [] ->
  exists samples stats,
    Compressor.transmit_text c text = Ok (samples, stats)
    /\ encode (Compressor.encoder c) text = Ok samples
    /\ calculate_stats (Compressor.encoder c) text samples = Ok stats
    /\ (230 <= Z.of_nat (length samples))
    /\ raw_bytes stats = Z.of_nat (length text).
Proof.
  intros Hc Hne. apply compressor_encoder in Hc.
  set (o := Compressor.encoder c) in *.
  unfold Compressor.transmit_text. cbv zeta. fold o.
  assert (1 <= OFDM_NUM_CARRIERS) as Hn by (unfold OFDM_NUM_CARRIERS; lia).
  destruct (init_shape _ _ _ _ Hc) as (Esr & En & _ & _ & Hb).
  destruct (encode_returns SAMPLE_RATE OFDM_NUM_CARRIERS modulation o text
                           Hc ltac:(unfold OFDM_NUM_CARRIERS; lia))
    as (frames & samples & E & Eenc & Hlen).
  destruct (BitsExtras.frames_layout _ _ _ _ text Hn Hc)
    as (frames' & k & _ & E' & _ & _ & Hcount).
  rewrite E in E'. injection E' as <-.
  assert (1 <= Z.of_nat (length frames)) as HF.
  { destruct text as [|b text]; [congruence|].
    destruct frames as [|f frames]; cbn [length] in *; lia. }
  assert (230 <= frame_samples o frames) as HN.
  { destruct (LayoutExtras.frames_fit o frames) as (_ & _ & Hfit);
      [rewrite Esr; unfold SAMPLE_RATE; lia|].
    assert (symbol_samples o + guard_samples o = 230) as HP.
    { unfold symbol_samples, guard_samples. rewrite Esr. reflexivity. }
    rewrite HP in Hfit. lia. }
  assert (samples <> []) as Hs.
  { intros ->. simpl in Hlen. lia. }
  pose proof (calculate_stats_returns
                o text samples
                ltac:(rewrite Esr; unfold SAMPLE_RATE; lia) Hs) as Hst.
  rewrite Eenc. cbn [Py.bind]. rewrite Hst. cbn [Py.bind].
  do 2 eexists. split; [reflexivity|]. split; [reflexivity|].
  split; [exact Hst|]. split; [lia | reflexivity].
Qed.

(** X15: [DataCompressor.transmit_text] on a compressor that was
    constructed, the text given by its UTF-8 bytes: the empty text ends in
    [ZeroDivisionError], raised by the statistics of the empty waveform;
    every other text returns a waveform of at least 230 samples together
    with its statistics. *)
Theorem transmit_text_cases (modulation : string) (c : Compressor.DataCompressor)
        (text : Py.bytes) :
  Compressor.__init__ modulation = Ok c ->
  (text = [] -> Compressor.transmit_text c text = Raise ZeroDivisionError)
  /\ (text <> [] ->
      exists samples stats,
        Compressor.transmit_text c text = Ok (samples, stats)
        /\ encode (Compressor.encoder c) text = Ok samples
        /\ calculate_stats (Compressor.encoder c) text samples = Ok stats
        /\ (230 <= Z.of_nat (length samples))
        /\ raw_bytes stats = Z.of_nat (length text)).
Proof.
  intros Hc. split.
  - intros ->. now apply (transmit_text_empty modulation).
  - intros Hne. now apply (transmit_text_returns modulation).
Qed.

(** X15 for the default modulation and the text ["A"]. *)
Lemma transmit_text_cases_witness :
  exists c,
    Compressor.__init__ "QPSK" = Ok c
    /\ Compressor.transmit_text c [] = Raise ZeroDivisionError
    /\ exists samples stats,
        Compressor.transmit_text c [x41] = Ok (samples, stats)
        /\ raw_bytes stats = 1.
Proof.
  eexists.
  match goal with
  | |- ?I = Ok ?h /\ _ => assert (I = Ok h) as Hh by reflexivity
  end.
  split; [exact Hh|].
  split.
  - apply (proj1 (transmit_text_cases "QPSK" _ [] Hh)). reflexivity.
  - destruct (proj2 (transmit_text_cases "QPSK" _ [x41] Hh))
      as (samples & stats & E & _ & _ & _ & Hraw); [discriminate|].
    exists samples, stats. split; assumption.
Defined.

(** *** [transmit_concepts] *)

Lemma join_empty (sep : Py.bytes) (items : list Py.bytes) :
  sep <> [] ->
  (Compressor.join sep items = [] <-> items = [] \/ items = [[]]).
Proof.
  intros Hsep. split.
  - destruct items as [|x [|y rest]]; cbn [Compressor.join].
    + now left.
    + intros ->. now right.
    + intros H. apply app_eq_nil in H. destruct H as [_ H].
      apply app_eq_nil in H. destruct H as [H _]. contradiction.
  - intros [-> | ->]; reflexivity.
Qed.

(** X16: [DataCompressor.transmit_concepts] sends the concept names joined
    by commas: with no concept, or with the empty name alone, it ends in
    [ZeroDivisionError]; every other list of names returns a waveform and
    its statistics, the payload being the joined text. *)
Theorem transmit_concepts_cases (modulation : string)
        (c : Compressor.DataCompressor) (concepts : list Py.bytes) :
  Compressor.__init__ modulation = Ok c ->
  (concepts = [] \/ concepts = [[]] ->
   Compressor.transmit_concepts c concepts = Raise ZeroDivisionError)
  /\ (concepts <> [] -> concepts <> [[]] ->
      exists samples stats,
        Compressor.transmit_concepts c concepts = Ok (samples, stats)
        /\ encode (Compressor.encoder c)
                  (Compressor.join (bytes_of_string ",") concepts)
           = Ok samples
        /\ raw_bytes stats
           = Z.of_nat (length (Compressor.join (bytes_of_string ",")
                                               concepts))).
Proof.
  intros Hc. unfold Compressor.transmit_concepts. cbv zeta.
  assert (bytes_of_string "," <> []) as Hsep by discriminate.
  split.
  - intros H. apply (join_empty _ _ Hsep) in H. rewrite H.
    now apply (transmit_text_empty modulation).
  - intros H1 H2.
    destruct (transmit_text_returns
                modulation c (Compressor.join (bytes_of_string ",") concepts)
                Hc)
      as (samples & stats & E & Eenc & _ & _ & Hraw).
    { intros H. apply (join_empty _ _ Hsep) in H. tauto. }
    now exists samples, stats.
Qed.

(** X16 for the default modulation: no concept, and two concepts. *)
Lemma transmit_concepts_cases_witness :
  exists c,
    Compressor.__init__ "QPSK" = Ok c
    /\ Compressor.transmit_concepts c [] = Raise ZeroDivisionError
    /\ exists samples stats,
        Compressor.transmit_concepts
          c [bytes_of_string "future"; bytes_of_string "question"]
        = Ok (samples, stats)
        /\ raw_bytes stats = 15.
Proof.
  eexists.
  match goal with
  | |- ?I = Ok ?h /\ _ => assert (I = Ok h) as Hh by reflexivity
  end.
  split; [exact Hh|].
  split.
  - apply (proj1 (transmit_concepts_cases "QPSK" _ [] Hh)). now left.
  - destruct (proj2 (transmit_concepts_cases
                       "QPSK" _
                       [bytes_of_string "future"; bytes_of_string "question"]
                       Hh))
      as (samples & stats & E & _ & Hraw); [discriminate | discriminate |].
    exists samples, stats. split; [exact E | exact Hraw].
Defined.

End CompressorExtras.

(* ================================================================== *)
(** ** Concept frequencies *)

Module ConceptExtras.
Import UltrasonicConcepts.

Lemma get_cases (d : list (string * Q)) (key : string) (default : Q) :
  (exists v, In (key, v) d /\ get d key default = v)
  \/ (~ In key (map fst d) /\ get d key default = default).
Proof.
  induction d as [|[k v] d IH]; cbn [get map fst In].
  - right. split; [tauto | reflexivity].
  - destruct (String.eqb key k) eqn:E.
    + apply String.eqb_eq in E. subst k. left. exists v.
      split; [now left | reflexivity].
    + apply String.eqb_neq in E. destruct IH as [(w & Hin & Hw)|[Hnot Hd]].
      * left. exists w. split; [now right | exact Hw].
      * right. split; [|exact Hd]. intros [H|H]; [congruence | tauto].
Qed.

Lemma audible_names_are_keys (concept : string) :
  In concept ["past"; "always"; "self"; "all"; "many"]%string ->
  In concept (map fst ULTRASONIC_CONCEPT_FREQUENCIES).
Proof.
  intros H. cbn [In] in H.
  repeat (destruct H as [<-|H]; [vm_compute; tauto|]). contradiction.
Qed.

(** The properties of one concept frequency, for every concept name. *)
Lemma concept_frequency_facts (concept : string) :
  (6250 <= get_ultrasonic_frequency concept)%Q
  /\ (get_ultrasonic_frequency concept <= 100000)%Q
  /\ (is_inaudible_to_humans (get_ultrasonic_frequency concept) = false
      <-> In concept ["past"; "always"; "self"; "all"; "many"]%string)
  /\ (~ In concept (map fst ULTRASONIC_CONCEPT_FREQUENCIES) ->
      (get_ultrasonic_frequency concept == ULTRASONIC_BASE_FREQ)%Q).
Proof.
  unfold get_ultrasonic_frequency. cbv zeta.
  destruct (get_cases ULTRASONIC_CONCEPT_FREQUENCIES concept 1)
    as [(v & Hin & ->)|[Hnot ->]].
  - unfold ULTRASONIC_CONCEPT_FREQUENCIES in Hin. cbn [In] in Hin.
    repeat (destruct Hin as [Hin|Hin];
            [injection Hin as <- <-;
             (split; [vm_compute; discriminate|]);
             (split; [vm_compute; discriminate|]);
             (split; [|intros Hn; exfalso; apply Hn; vm_compute; tauto]);
             (split;
              [ first [ intros _; cbn [In]; tauto
                      | intros Hf; vm_compute in Hf; discriminate Hf ]
              | first [ intros _; vm_compute; reflexivity
                      | intros Hf; cbn [In] in Hf;
                        repeat (destruct Hf as [Hf|Hf];
                                [discriminate Hf|]);
                        contradiction ] ])
            |]).
    contradiction.
  - split; [vm_compute; discriminate|].
    split; [vm_compute; discriminate|].
    split; [|intros _; vm_compute; reflexivity].
    split; [intros Hf; vm_compute in Hf; discriminate Hf|].
    intros Hf. exfalso. apply Hnot. now apply audible_names_are_keys.
Qed.

(** X17: the frequency of a concept lies between 6250 Hz and 100 kHz for
    every concept name, and is the base frequency of 25 kHz for a name
    that the table does not have; it fails the module's own inaudibility
    test, a frequency above 22 kHz, exactly for the five names past,
    always, self, all and many. *)
Theorem concept_frequency_range (concept : string) :
  (6250 <= get_ultrasonic_frequency concept <= 100000)%Q
  /\ (is_inaudible_to_humans (get_ultrasonic_frequency concept) = false
      <-> In concept ["past"; "always"; "self"; "all"; "many"]%string)
  /\ (~ In concept (map fst ULTRASONIC_CONCEPT_FREQUENCIES) ->
      (get_ultrasonic_frequency concept == ULTRASONIC_BASE_FREQ)%Q).
Proof.
  destruct (concept_frequency_facts concept) as (H1 & H2 & H3 & H4).
  repeat split; try assumption; apply H3.
Qed.

End ConceptExtras.

(* ================================================================== *)
(** ** The sample rate for a frequency *)

Module SampleRateExtras.
Import UltrasonicConcepts.

Lemma int_of_within_one (x : Q) :
  (inject_Z (Py.int_of x) - 1 < x /\ x < inject_Z (Py.int_of x) + 1)%Q.
Proof.
  destruct x as [n d]. unfold Py.int_of, Qlt, Qminus, Qplus, Qopp, inject_Z.
  cbn [Qnum Qden].
  pose proof (Z.quot_rem' n (Z.pos d)) as Hq.
  pose proof (Z.rem_bound_abs n (Z.pos d) ltac:(lia)) as Hr.
  set (q := Z.quot n (Z.pos d)) in *. set (r := Z.rem n (Z.pos d)) in *.
  rewrite !Pos.mul_1_l, !Z.mul_1_r. split; nia.
Qed.

(** X18: [validate_sample_rate] returns one of the four standard rates.
    The rate is more than twice the frequency exactly when the frequency is
    below 192 kHz: above it the function still returns 384000.  The
    2.5-fold margin [int(max_freq * 2.5) <= rate] holds exactly when
    [int(max_freq * 2.5)] is at most 384000. *)
Theorem validate_sample_rate_nyquist (max_freq : Q) :
  In (validate_sample_rate max_freq) [48000; 96000; 192000; 384000]%Z
  /\ ((2 * max_freq < inject_Z (validate_sample_rate max_freq))%Q
      <-> (max_freq < 192000)%Q)
  /\ ((Py.int_of (max_freq * (25 # 10)) <= validate_sample_rate max_freq)%Z
      <-> (Py.int_of (max_freq * (25 # 10)) <= 384000)%Z).
Proof.
  unfold validate_sample_rate. cbv zeta. cbn [first_rate].
  destruct (int_of_within_one (max_freq * (25 # 10))) as [Hlo Hhi].
  set (m := Py.int_of (max_freq * (25 # 10))) in *.
  destruct (m <=? 48000)%Z eqn:E1;
    [|destruct (m <=? 96000)%Z eqn:E2;
      [|destruct (m <=? 192000)%Z eqn:E3;
        [|destruct (m <=? 384000)%Z eqn:E4]]];
    repeat match goal with
           | H : (_ <=? _)%Z = true |- _ =>
               apply Z.leb_le in H; pose proof H; rewrite Zle_Qle in H
           | H : (_ <=? _)%Z = false |- _ =>
               apply Z.leb_gt in H; pose proof H; rewrite Zlt_Qlt in H
           end;
    change (inject_Z 48000) with 48000%Q in *;
    change (inject_Z 96000) with 96000%Q in *;
    change (inject_Z 192000) with 192000%Q in *;
    change (inject_Z 384000) with 384000%Q in *;
    (split; [cbn [In]; tauto|]);
    (split; [split; intros; lra | split; intros; lia]).
Qed.

End SampleRateExtras.

(* ================================================================== *)
(** ** The secure channel *)

Module ChannelExtras.
Import FrequencyHopping HopGrid Hopper.
Import SecureChannel.
Local Open Scope R_scope.

(** The hopper of every channel: 200 channels at 192 kHz, 1920 samples
    per symbol. *)
Lemma channel_hopper (os_random : Py.bytes) (secret_key : option Py.bytes)
      (duration_per_symbol : Q) :
  exists ch,
    SecureChannel.__init__ os_random secret_key duration_per_symbol = Ok ch
    /\ well_formed (hopper ch)
    /\ hop_count (hopper ch) = 200%Z
    /\ sample_rate (hopper ch) = 192000%Z
    /\ dwell_samples (hopper ch) = 1920%Z
    /\ duration ch = duration_per_symbol.
Proof.
  destruct (HopperProperties.init_up_to_256
              os_random secret_key default_hop_range default_dwell_time_ms
              default_hop_spacing_hz default_sample_rate)
    as (h & Hh).
  { vm_compute. discriminate. }
  { vm_compute. discriminate. }
  destruct (HopperExtras.init_cases _ _ _ _ _ _ _ Hh)
    as (Hperm & Hwf & Hsr & Hdw & _).
  unfold SecureChannel.__init__. rewrite Hh. cbn [Py.bind].
  eexists. split; [reflexivity|]. cbn [hopper duration].
  split; [exact Hwf|]. split; [|split; [exact Hsr|split; [|reflexivity]]].
  - rewrite Hwf. apply Permutation_length in Hperm. rewrite <- Hperm.
    rewrite HopTable.length_grid_of. reflexivity.
  - unfold dwell_samples. rewrite Hsr, Hdw. reflexivity.
Qed.

Lemma concept_frequency_nonzero (concept : string) :
  Q2R (UltrasonicConcepts.get_ultrasonic_frequency concept) <> 0.
Proof.
  destruct (ConceptExtras.concept_frequency_facts concept) as (H & _).
  assert (0 < UltrasonicConcepts.get_ultrasonic_frequency concept)%Q as Hpos.
  { eapply Qlt_le_trans; [|exact H]. reflexivity. }
  apply Qlt_Rlt in Hpos. rewrite RMicromega.Q2R_0 in Hpos. lra.
Qed.

Lemma length_zip3 {A B C} (xs : list A) (ys : list B) (zs : list C) :
  length (zip3 xs ys zs)
  = Nat.min (length xs) (Nat.min (length ys) (length zs)).
Proof.
  revert ys zs. induction xs as [|x xs IH]; intros [|y ys] [|z zs];
    cbn [zip3 length]; try reflexivity.
  rewrite IH. reflexivity.
Qed.

Lemma zip3_confidences {A C} (P : R -> Prop)
      (xs : list A) (ys : list R) (zs : list C) :
  Forall P ys -> Forall (fun s => P (snd (fst s))) (zip3 xs ys zs).
Proof.
  intros H. revert xs zs. induction H as [|y ys Hy _ IH]; intros [|x xs] [|z zs];
    cbn [zip3]; constructor; [exact Hy | apply IH].
Qed.

(** X19: a secure channel is constructed for every key and every
    [duration_per_symbol], and [transmit_concepts] returns for every list
    of concept names, known or not: one symbol of 1920 samples per concept,
    as many symbols as the shortest of the three lists has entries, whatever
    [duration_per_symbol] is; the samples lie in [-1, 1] when the
    confidences lie in [0, 1]. *)
Theorem secure_channel_transmits
        (os_random : Py.bytes) (secret_key : option Py.bytes)
        (duration_per_symbol : Q) :
  exists ch,
    SecureChannel.__init__ os_random secret_key duration_per_symbol = Ok ch
    /\ forall (names : list string) (confidences phases : option (list R)),
         let conf := match confidences with
                     | Some c => c
                     | None => repeat 1 (length names)
                     end in
         let count :=
           Nat.min (length names)
                   (Nat.min (length conf)
                            (match phases with
                             | Some p => length p
                             | None => length names
                             end)) in
         exists samples meta,
           transmit_concepts ch names confidences phases = Ok (samples, meta)
           /\ length samples = (count * 1920)%nat
           /\ num_symbols (message meta) = Z.of_nat count
           /\ concepts meta = names
           /\ (Forall (fun c => 0 <= c <= 1) conf ->
               Forall (fun x => -1 <= x <= 1) samples).
Proof.
  destruct (channel_hopper os_random secret_key duration_per_symbol)
    as (ch & Hch & Hwf & Hcount & Hsr & Hdw & _).
  exists ch. split; [exact Hch|].
  intros names confidences phases conf count.
  unfold transmit_concepts. cbv zeta. fold conf.
  set (ph := match phases with
             | Some p => p
             | None => repeat 0 (length names)
             end).
  set (symbols := map _ (zip3 names conf ph)).
  assert (length symbols = count) as Hlen.
  { subst symbols count ph. rewrite length_map, length_zip3.
    destruct phases; [reflexivity | now rewrite repeat_length]. }
  destruct (WaveformRange.encode_message_returns
              (hopper ch) symbols 0 Hwf
              ltac:(rewrite Hcount; lia) ltac:(rewrite Hsr; lia))
    as ([samples meta] & E).
  { subst symbols. rewrite Forall_map. apply Forall_forall.
    intros [[concept c] p] _. cbv beta iota. unfold modulating_freq.
    cbn [fst snd]. apply concept_frequency_nonzero. }
  rewrite E. cbn [Py.bind].
  exists samples. eexists. split; [reflexivity|].
  cbn [message concepts].
  pose proof E as E'. rewrite HoppedSymbols.encode_message_eq in E'.
  destruct (message_loop (hopper ch) symbols ([], 0%Z))
    as [[out hop_idx]|e] eqn:Eloop; [|discriminate].
  cbn [Py.bind] in E'.
  destruct (Py.div _ _) as [d|e] in E'; [|discriminate].
  cbn [Py.bind] in E'. injection E' as <- <-.
  destruct (MessageExtras.message_loop_shape _ _ _ _ _ Eloop) as [_ Hout].
  rewrite Hdw, Hlen in Hout.
  split; [exact Hout|]. cbn [num_symbols]. split; [now rewrite Hlen|].
  split; [reflexivity|].
  intros Hconf.
  eapply WaveformRange.encode_message_bounded; [|exact E].
  subst symbols. rewrite Forall_map.
  eapply Forall_impl;
    [|exact (zip3_confidences (fun c => 0 <= c <= 1) names conf ph Hconf)].
  intros [[concept c] p] Hc. exact Hc.
Qed.

End ChannelExtras.

(* ================================================================== *)
(** ** Sharing the key of a channel *)

Module SharedKeyExtras.
Import FrequencyHopping SecureChannel.

Lemma key_or_random_nonempty (secret_key : option Py.bytes)
      (os_random : Py.bytes) :
  os_random <> [] -> key_or_random secret_key os_random <> [].
Proof.
  intros H. destruct secret_key as [[|b k]|]; cbn [key_or_random];
    [exact H | discriminate | exact H].
Qed.

(** X20: sharing the key of a channel: the string that [get_key] returns
    imports to the key of the channel, and a second channel constructed
    with the imported key has the same hopper and sends, for all concept
    names, confidences and phases, the same samples and metadata as the
    first, whatever its own random source and [duration_per_symbol]. *)
Theorem shared_key_same_transmission
        (os_random os_random' : Py.bytes) (secret_key : option Py.bytes)
        (d d' : Q) (ch : SecureUltrasonicChannel) :
  os_random <> [] ->
  SecureChannel.__init__ os_random secret_key d = Ok ch ->
  exists key ch',
    HopperFiles.import_key (get_key ch) = Ok key
    /\ SecureChannel.__init__ os_random' (Some key) d' = Ok ch'
    /\ hopper ch' = hopper ch
    /\ get_key ch' = get_key ch
    /\ forall names confidences phases,
         transmit_concepts ch' names confidences phases
         = transmit_concepts ch names confidences phases.
Proof.
  intros Hrand Hch. unfold SecureChannel.__init__ in Hch.
  destruct (FrequencyHopping.__init__
              os_random secret_key default_hop_range default_dwell_time_ms
              default_hop_spacing_hz default_sample_rate)
    as [h|e] eqn:Hh; [|discriminate].
  cbn [Py.bind] in Hch. injection Hch as <-.
  unfold get_key. cbn [key_hex hopper].
  assert (FrequencyHopping.secret_key h = key_or_random secret_key os_random)
    as Hkey by apply (HopperExtras.init_cases _ _ _ _ _ _ _ Hh).
  assert (FrequencyHopping.secret_key h <> []) as Hne
    by (rewrite Hkey; now apply key_or_random_nonempty).
  exists (FrequencyHopping.secret_key h).
  assert (FrequencyHopping.__init__
            os_random' (Some (FrequencyHopping.secret_key h))
            default_hop_range default_dwell_time_ms default_hop_spacing_hz
            default_sample_rate = Ok h) as Hh'.
  { unfold FrequencyHopping.__init__ in Hh |- *. cbv zeta in Hh |- *.
    replace (key_or_random (Some (FrequencyHopping.secret_key h)) os_random')
      with (FrequencyHopping.secret_key h)
      by (destruct (FrequencyHopping.secret_key h);
          [congruence | reflexivity]).
    rewrite Hkey. exact Hh. }
  unfold SecureChannel.__init__. rewrite Hh'. cbn [Py.bind].
  eexists. split; [apply KeyExtras.fromhex_hex|].
  split; [reflexivity|]. cbn [hopper key_hex].
  split; [reflexivity|]. split; [reflexivity|].
  intros names confidences phases. reflexivity.
Qed.

(** X20 for a sender that draws its key and a receiver with another
    random source. *)
Lemma shared_key_same_transmission_witness :
  exists ch key ch',
    SecureChannel.__init__ (repeat x00 32) None (5 # 100) = Ok ch
    /\ HopperFiles.import_key (get_key ch) = Ok key
    /\ SecureChannel.__init__ (repeat xff 32) (Some key) (1 # 10) = Ok ch'
    /\ hopper ch' = hopper ch.
Proof.
  destruct (ChannelExtras.channel_hopper (repeat x00 32) None (5 # 100))
    as (ch & Hch & _).
  destruct (shared_key_same_transmission
              (repeat x00 32) (repeat xff 32) None (5 # 100) (1 # 10) ch
              ltac:(discriminate) Hch)
    as (key & ch' & Hkey & Hch' & Hhop & _).
  exists ch, key, ch'.
  split; [exact Hch|]. split; [exact Hkey|]. split; [exact Hch' | exact Hhop].
Defined.

End SharedKeyExtras.

(* ================================================================== *)
(** ** Encoders without a positive carrier count *)

Module CarrierCountExtras.
Import UltrasonicCompression Frame Frames.
Local Open Scope Z_scope.

Lemma frame_samples_nil (self : UltrasonicOFDM) : frame_samples self [] = 0.
Proof.
  unfold frame_samples, Py.int_of.
  cbn [length Qnum Qden Qmult Qplus inject_Z Z.of_nat
       SYMBOL_DURATION GUARD_INTERVAL].
  rewrite Z.mul_0_l, Z.mul_0_r. reflexivity.
Qed.

(** X21: the constructor accepts every carrier count, and [encode] needs a
    positive one: with 0 carriers it raises [ZeroDivisionError] for every
    payload, with a negative count it returns the empty waveform for every
    payload. *)
Theorem encode_needs_positive_carrier_count
        (sr n : Z) (m : string) o (data : Py.bytes) :
  __init__ sr n m = Ok o ->
  (n = 0 -> encode o data = Raise ZeroDivisionError)
  /\ (n < 0 -> encode o data = Ok []).
Proof.
  intros Ho. split.
  - intros ->. now apply (encode_without_carriers sr m).
  - intros Hn.
    destruct (init_shape _ _ _ _ Ho) as (_ & En & _ & _ & Hb).
    assert (bits_per_symbol o * num_carriers o < 0) as HB by nia.
    rewrite encode_eq. unfold _bytes_to_symbols.
    destruct (pad_bits_appends
                (Z.abs_nat (bits_per_symbol o * num_carriers o))
                (flat_map byte_bits data)
                (bits_per_symbol o * num_carriers o) ltac:(lia))
      as (k & ->).
    cbn [Py.bind]. unfold Py.range_step.
    replace (_ =? 0) with false by (symmetry; apply Z.eqb_neq; lia).
    replace (_ <? 0) with true by (symmetry; apply Z.ltb_lt; lia).
    cbn [Py.bind map Py.for_each]. rewrite frame_samples_nil. reflexivity.
Qed.

(** X21 for the counts 0 and -1. *)
Lemma encode_needs_positive_carrier_count_witness :
  exists o o',
    __init__ SAMPLE_RATE 0 "QPSK" = Ok o
    /\ encode o [x41] = Raise ZeroDivisionError
    /\ __init__ SAMPLE_RATE (-1) "QPSK" = Ok o'
    /\ encode o' [x41] = Ok [].
Proof.
  do 2 eexists.
  match goal with
  | |- ?I = Ok ?h /\ _ => assert (I = Ok h) as Hh by reflexivity
  end.
  split; [exact Hh|].
  split;
    [apply (proj1 (encode_needs_positive_carrier_count
                     SAMPLE_RATE 0 "QPSK" _ [x41] Hh)); reflexivity|].
  match goal with
  | |- ?I = Ok ?h /\ _ => assert (I = Ok h) as Hh' by reflexivity
  end.
  split; [exact Hh'|].
  apply (proj2 (encode_needs_positive_carrier_count
                  SAMPLE_RATE (-1) "QPSK" _ [x41] Hh')).
  reflexivity.
Defined.

End CarrierCountExtras.
